(** * FireIncident REST service: model, serialization contract and handlers

    A shallow embedding of [service/models.py] and [service/routes.py].

    - [Datetime]: the part of Python's [datetime] the model relies on
      ([isoformat] and [fromisoformat]).
    - [Py]: the Python values that travel through the service, and the
      exceptions it raises.
    - [Models]: [FireIncident], [serialize], [deserialize] and the
      persistence operations.
    - [Routes]: the request handlers of [service/routes.py]. *)

From Stdlib Require Import ZArith String Ascii List Lia Bool.
From Stdlib Require Import DecimalString DecimalZ DecimalPos.
From Stdlib Require Import Floats.SpecFloat.
From stdpp Require Import gmap strings list.

#[local] Set Warnings "-register-all".
#[local] Open Scope string_scope.
#[local] Open Scope Z_scope.

(* ===================================================================== *)
(** ** Python's [datetime]: [isoformat] and [fromisoformat] *)
(* ===================================================================== *)

Module Datetime.

(** A [datetime] object: the wall-clock fields and the UTC offset of its
    [tzinfo] in microseconds ([None] for a naive datetime).  Two datetimes
    are identified when they show the same wall clock at the same offset;
    the name of a time zone and the [fold] flag, which [isoformat] does not
    print, are not part of the model. *)
Record datetime : Type := mk_datetime {
  year : Z;
  month : Z;
  day : Z;
  hour : Z;
  minute : Z;
  second : Z;
  microsecond : Z;
  utcoffset : option Z
}.

Definition is_leap (y : Z) : bool :=
  (y mod 4 =? 0) && (negb (y mod 100 =? 0) || (y mod 400 =? 0)).

Definition days_in_month (y m : Z) : Z :=
  if m =? 2 then (if is_leap y then 29 else 28)
  else if (m =? 4) || (m =? 6) || (m =? 9) || (m =? 11) then 30
  else 31.

Definition in_range (lo x hi : Z) : bool := (lo <=? x) && (x <=? hi).

(** Strictly between minus and plus twenty-four hours, as [timezone]
    demands of an offset. *)
Definition valid_offset (o : option Z) : bool :=
  match o with
  | None => true
  | Some us => (-86400000000 <? us) && (us <? 86400000000)
  end.

(** The offsets that [fromisoformat] gives back as [isoformat] printed
    them: none, zero, and those of a second or more in either direction. *)
Definition offset_survives (o : option Z) : bool :=
  match o with
  | None => true
  | Some us => (us =? 0) || (1000000 <=? Z.abs us)
  end.

(** What becomes of an offset that is printed and read again: one of less
    than a second is read as UTC. *)
Definition offset_read_back (o : option Z) : option Z :=
  match o with
  | None => None
  | Some us => if Z.abs us <? 1000000 then Some 0 else Some us
  end.

(** The range checks of the [datetime] constructor; every datetime object
    that exists in a running program passes them. *)
Definition valid (d : datetime) : bool :=
  in_range 1 (year d) 9999 &&
  in_range 1 (month d) 12 &&
  in_range 1 (day d) (days_in_month (year d) (month d)) &&
  in_range 0 (hour d) 23 &&
  in_range 0 (minute d) 59 &&
  in_range 0 (second d) 59 &&
  in_range 0 (microsecond d) 999999 &&
  valid_offset (utcoffset d).

(** *** Printing *)

Definition digit (n : Z) : ascii := ascii_of_N (Z.to_N (48 + n)).

(** ["%0wd" % n] for [0 <= n < 10^w]. *)
Fixpoint zero_padded (w : nat) (n : Z) : list ascii :=
  match w with
  | O => []
  | S w' => zero_padded w' (n / 10) ++ [digit (n mod 10)]
  end.

Definition colon : ascii := ":"%char.
Definition dash : ascii := "-"%char.
Definition plus : ascii := "+"%char.
Definition dot : ascii := "."%char.

(** [_format_time] with [timespec='auto']. *)
Definition format_time (hh mm ss us : Z) : list ascii :=
  zero_padded 2 hh ++ [colon] ++ zero_padded 2 mm ++ [colon] ++
  zero_padded 2 ss ++
  (if us =? 0 then [] else [dot] ++ zero_padded 6 us).

(** The digits [_format_offset] prints for an offset of [a] microseconds,
    [a >= 0]: hours and minutes, then seconds and microseconds when they
    are not zero. *)
Definition format_offset_digits (a : Z) : list ascii :=
  let hh := a / 3600000000 in
  let mm := (a mod 3600000000) / 60000000 in
  let ss := (a mod 60000000) / 1000000 in
  let us := a mod 1000000 in
  zero_padded 2 hh ++ [colon] ++ zero_padded 2 mm ++
  (if (ss =? 0) && (us =? 0) then []
   else [colon] ++ zero_padded 2 ss ++
        (if us =? 0 then [] else [dot] ++ zero_padded 6 us)).

(** [_format_offset]. *)
Definition format_offset (o : option Z) : list ascii :=
  match o with
  | None => []
  | Some off =>
      (if off <? 0 then dash else plus) :: format_offset_digits (Z.abs off)
  end.

Definition isoformat_chars (d : datetime) : list ascii :=
  zero_padded 4 (year d) ++ [dash] ++ zero_padded 2 (month d) ++ [dash] ++
  zero_padded 2 (day d) ++ ["T"%char] ++
  format_time (hour d) (minute d) (second d) (microsecond d) ++
  format_offset (utcoffset d).

(** [datetime.isoformat()]. *)
Definition isoformat (d : datetime) : string :=
  string_of_list_ascii (isoformat_chars d).

(** *** Parsing

    [fromisoformat] as the interpreter's [_datetimemodule.c] has it, for
    the grammar
    [YYYY-MM-DD[*HH[:MM[:SS[.fff[fff]]]][+HH:MM[:SS[.ffffff]]]]], which is
    what [isoformat] prints and what Python 3.7 to 3.10 accept; later
    versions read more of ISO 8601 besides.  [None] stands for
    [ValueError]. *)

Definition digit_value (c : ascii) : option Z :=
  let n := Z.of_N (N_of_ascii c) in
  if (48 <=? n) && (n <=? 57) then Some (n - 48) else None.

Fixpoint parse_digits_from (acc : Z) (l : list ascii) : option Z :=
  match l with
  | [] => Some acc
  | c :: l' =>
      match digit_value c with
      | Some v => parse_digits_from (acc * 10 + v) l'
      | None => None
      end
  end.

(** [int(s)] on a non-empty run of decimal digits. *)
Definition parse_int (l : list ascii) : option Z :=
  match l with
  | [] => None
  | _ => parse_digits_from 0 l
  end.

Definition ascii_eqb (a b : ascii) : bool := Ascii.eqb a b.

(** [_parse_isoformat_date], on the first ten characters. *)
Definition parse_isoformat_date (l : list ascii) : option (Z * Z * Z) :=
  match l with
  | [y1; y2; y3; y4; s1; m1; m2; s2; d1; d2] =>
      if ascii_eqb s1 dash && ascii_eqb s2 dash then
        match parse_int [y1; y2; y3; y4], parse_int [m1; m2], parse_int [d1; d2] with
        | Some y, Some m, Some d => Some (y, m, d)
        | _, _, _ => None
        end
      else None
  | _ => None
  end.

(** The fraction after the dot: three or six digits. *)
Definition parse_fraction (l : list ascii) : option Z :=
  match length l with
  | 3%nat => option_map (fun v => v * 1000) (parse_int l)
  | 6%nat => parse_int l
  | _ => None
  end.

(** [_parse_hh_mm_ss_ff]: [HH[:MM[:SS[.fff[fff]]]]]. *)
Definition parse_hh_mm_ss_ff (l : list ascii) : option (Z * Z * Z * Z) :=
  match l with
  | [h1; h2] =>
      match parse_int [h1; h2] with
      | Some hh => Some (hh, 0, 0, 0)
      | None => None
      end
  | [h1; h2; c1; m1; m2] =>
      if ascii_eqb c1 colon then
        match parse_int [h1; h2], parse_int [m1; m2] with
        | Some hh, Some mm => Some (hh, mm, 0, 0)
        | _, _ => None
        end
      else None
  | h1 :: h2 :: c1 :: m1 :: m2 :: c2 :: s1 :: s2 :: rest =>
      if ascii_eqb c1 colon && ascii_eqb c2 colon then
        match parse_int [h1; h2], parse_int [m1; m2], parse_int [s1; s2] with
        | Some hh, Some mm, Some ss =>
            match rest with
            | [] => Some (hh, mm, ss, 0)
            | c3 :: frac =>
                if ascii_eqb c3 dot then
                  match parse_fraction frac with
                  | Some us => Some (hh, mm, ss, us)
                  | None => None
                  end
                else None
            end
        | _, _, _ => None
        end
      else None
  | _ => None
  end.

(** The place of the first sign character, where the offset starts. *)
Definition is_sign (c : ascii) : bool := ascii_eqb c plus || ascii_eqb c dash.

Fixpoint find_sign (l : list ascii) : option nat :=
  match l with
  | [] => None
  | a :: l' => if is_sign a then Some O else option_map S (find_sign l')
  end.

(** [parse_isoformat_time]: the time of day, then the offset that starts
    at the first sign.  The offset is handed back as the interpreter holds
    it at this point, in two signed parts: [tzoffset], its whole seconds,
    and [tzmicrosecond]. *)
Definition parse_isoformat_time (l : list ascii)
  : option (Z * Z * Z * Z * option (Z * Z)) :=
  if (length l <? 2)%nat then None else
  match find_sign l with
  | None =>
      match parse_hh_mm_ss_ff l with
      | Some (hh, mm, ss, us) => Some (hh, mm, ss, us, None)
      | None => None
      end
  | Some i =>
      let timestr := firstn i l in
      let tzstr := skipn (S i) l in
      match parse_hh_mm_ss_ff timestr with
      | Some (hh, mm, ss, us) =>
          let n := length tzstr in
          if (n =? 5)%nat || (n =? 8)%nat || (n =? 15)%nat then
            match parse_hh_mm_ss_ff tzstr with
            | Some (th, tm, ts, tus) =>
                let tzsign :=
                  match nth_error l i with
                  | Some c => if ascii_eqb c dash then -1 else 1
                  | None => 1
                  end in
                Some (hh, mm, ss, us,
                      Some (tzsign * (th * 3600 + tm * 60 + ts), tzsign * tus))
            | None => None
            end
          else None
      | None => None
      end
  end.

(** [tzinfo_from_isoformat_results]: the offset of the result, in
    microseconds.  An offset of no whole second is read as UTC, whatever
    its microseconds: only [tzoffset] is compared with zero. *)
Definition tzinfo_from_isoformat_results (tz : option (Z * Z)) : option Z :=
  match tz with
  | None => None
  | Some (tzoffset, tzmicrosecond) =>
      if tzoffset =? 0 then Some 0
      else Some (tzoffset * 1000000 + tzmicrosecond)
  end.

(** The two parsers of [fromisoformat] applied to a string: the date in
    its first ten characters and, when the string goes on, the time after
    the separator, which may be any character but must be followed by a
    time. *)
Definition parse_isoformat (s : string)
  : option (Z * Z * Z * (Z * Z * Z * Z * option (Z * Z))) :=
  let l := list_ascii_of_string s in
  let dstr := firstn 10 l in
  let tstr := skipn 11 l in
  match parse_isoformat_date dstr with
  | None => None
  | Some date =>
      let time :=
        if (length l <=? 10)%nat then Some (0, 0, 0, 0, None)
        else parse_isoformat_time tstr in
      match time with
      | None => None
      | Some time => Some (date, time)
      end
  end.

(** [datetime.fromisoformat(date_string)] on a [str]; the constructor's
    range checks come last.  The strings read are those of the shape
    [YYYY-MM-DD[*HH[:MM[:SS[.fff[fff]]]][+HH:MM[:SS[.ffffff]]]]], which
    includes all that [isoformat] prints.  A string of another shape is
    answered [None]; an interpreter from 3.11 on reads some of those as
    well (a trailing [Z], dates without dashes, week dates, fractions of
    other lengths), and they are not followed here. *)
Definition fromisoformat (s : string) : option datetime :=
  match parse_isoformat s with
  | None => None
  | Some (y, m, d, (hh, mm, ss, us, tz)) =>
      let dt :=
        mk_datetime y m d hh mm ss us (tzinfo_from_isoformat_results tz) in
      if valid dt then Some dt else None
  end.

End Datetime.

(* ===================================================================== *)
(** ** Python values and exceptions *)
(* ===================================================================== *)

Module Py.

(** The objects a request body decodes to ([None], [bool], [int], [float],
    [str], [list], [dict] with string keys) and [datetime] objects, which
    [deserialize] stores in the two timestamp attributes.  A float is its
    IEEE 754 binary64 value. *)
Inductive value : Type :=
  | VNone
  | VBool (b : bool)
  | VInt (n : Z)
  | VFloat (f : spec_float)
  | VStr (s : string)
  | VList (l : list value)
  | VDict (m : gmap string value)
  | VDatetime (d : Datetime.datetime).

Inductive exn : Type :=
  | KeyError (key : string)
  | TypeError (msg : string)
  | ValueError (msg : string)
  | AttributeError (msg : string)
  | DataValidationError (msg : string)
  | HTTPException (code : Z) (description : string)
  | BuildError (msg : string)
  | DatabaseError (msg : string).

Inductive result (A : Type) : Type :=
  | Ok (a : A)
  | Raise (e : exn).
Arguments Ok {A} a.
Arguments Raise {A} e.

Definition rbind {A B : Type} (r : result A) (k : A -> result B) : result B :=
  match r with
  | Ok a => k a
  | Raise e => Raise e
  end.

Definition type_name (v : value) : string :=
  match v with
  | VNone => "NoneType"
  | VBool _ => "bool"
  | VInt _ => "int"
  | VFloat _ => "float"
  | VStr _ => "str"
  | VList _ => "list"
  | VDict _ => "dict"
  | VDatetime _ => "datetime.datetime"
  end.

(** [data[key]] for a string [key]. *)
Definition getitem (data : value) (key : string) : result value :=
  match data with
  | VDict m =>
      match m !! key with
      | Some v => Ok v
      | None => Raise (KeyError key)
      end
  | VStr _ => Raise (TypeError "string indices must be integers")
  | VList _ => Raise (TypeError "list indices must be integers or slices, not str")
  | _ => Raise (TypeError ("'" +:+ type_name data +:+ "' object is not subscriptable"))
  end.

(** [datetime.fromisoformat(v)]. *)
Definition datetime_fromisoformat (v : value) : result value :=
  match v with
  | VStr s =>
      match Datetime.fromisoformat s with
      | Some d => Ok (VDatetime d)
      | None => Raise (ValueError ("Invalid isoformat string: '" +:+ s +:+ "'"))
      end
  | _ => Raise (TypeError "fromisoformat: argument must be str")
  end.

(** [v.isoformat()]. *)
Definition call_isoformat (v : value) : result value :=
  match v with
  | VDatetime d => Ok (VStr (Datetime.isoformat d))
  | _ => Raise (AttributeError ("'" +:+ type_name v +:+ "' object has no attribute 'isoformat'"))
  end.

(** [str(n)] for an [int]. *)
Definition str_of_int (n : Z) : string := NilZero.string_of_int (Z.to_int n).

(** Truth value of a string: non-empty. *)
Definition str_truthy (s : string) : bool :=
  match s with
  | EmptyString => false
  | String _ _ => true
  end.

(** The binary64 float nearest to an integer. *)
Definition float_of_Z (n : Z) : spec_float := binary_normalize 53 1024 n 0 false.

End Py.

(* ===================================================================== *)
(** ** [service/models.py] *)
(* ===================================================================== *)

Module Models.
Import Py.

(** An instance of [FireIncident]: one attribute per column of the table
    schema.  Python does not type attributes, so each holds any value;
    [FireIncident()] leaves them all [None]. *)
Record FireIncident : Type := mk_FireIncident {
  object_id : value;
  x : value;
  y : value;
  incident_size : value;
  containment_datetime : value;
  fire_discovery_datetime : value;
  incident_name : value;
  incident_type_category : value;
  initial_latitude : value;
  initial_longitude : value;
  poo_city : value;
  poo_county : value;
  poo_state : value;
  fire_cause_id : value;
  poo_landowner_category : value;
  unique_fire_identifier : value
}.

Definition new_FireIncident : FireIncident :=
  mk_FireIncident VNone VNone VNone VNone VNone VNone VNone VNone
    VNone VNone VNone VNone VNone VNone VNone VNone.

(** Attribute assignment, [self.<field> = v]. *)
Definition set_object_id (v : value) (self : FireIncident) : FireIncident :=
  mk_FireIncident v (x self) (y self) (incident_size self)
    (containment_datetime self) (fire_discovery_datetime self)
    (incident_name self) (incident_type_category self)
    (initial_latitude self) (initial_longitude self) (poo_city self)
    (poo_county self) (poo_state self) (fire_cause_id self)
    (poo_landowner_category self) (unique_fire_identifier self).

Definition set_x (v : value) (self : FireIncident) : FireIncident :=
  mk_FireIncident (object_id self) v (y self) (incident_size self)
    (containment_datetime self) (fire_discovery_datetime self)
    (incident_name self) (incident_type_category self)
    (initial_latitude self) (initial_longitude self) (poo_city self)
    (poo_county self) (poo_state self) (fire_cause_id self)
    (poo_landowner_category self) (unique_fire_identifier self).

Definition set_y (v : value) (self : FireIncident) : FireIncident :=
  mk_FireIncident (object_id self) (x self) v (incident_size self)
    (containment_datetime self) (fire_discovery_datetime self)
    (incident_name self) (incident_type_category self)
    (initial_latitude self) (initial_longitude self) (poo_city self)
    (poo_county self) (poo_state self) (fire_cause_id self)
    (poo_landowner_category self) (unique_fire_identifier self).

Definition set_incident_size (v : value) (self : FireIncident) : FireIncident :=
  mk_FireIncident (object_id self) (x self) (y self) v
    (containment_datetime self) (fire_discovery_datetime self)
    (incident_name self) (incident_type_category self)
    (initial_latitude self) (initial_longitude self) (poo_city self)
    (poo_county self) (poo_state self) (fire_cause_id self)
    (poo_landowner_category self) (unique_fire_identifier self).

Definition set_containment_datetime (v : value) (self : FireIncident) : FireIncident :=
  mk_FireIncident (object_id self) (x self) (y self) (incident_size self) v
    (fire_discovery_datetime self) (incident_name self)
    (incident_type_category self) (initial_latitude self)
    (initial_longitude self) (poo_city self) (poo_county self)
    (poo_state self) (fire_cause_id self) (poo_landowner_category self)
    (unique_fire_identifier self).

Definition set_fire_discovery_datetime (v : value) (self : FireIncident) : FireIncident :=
  mk_FireIncident (object_id self) (x self) (y self) (incident_size self)
    (containment_datetime self) v (incident_name self)
    (incident_type_category self) (initial_latitude self)
    (initial_longitude self) (poo_city self) (poo_county self)
    (poo_state self) (fire_cause_id self) (poo_landowner_category self)
    (unique_fire_identifier self).

Definition set_incident_name (v : value) (self : FireIncident) : FireIncident :=
  mk_FireIncident (object_id self) (x self) (y self) (incident_size self)
    (containment_datetime self) (fire_discovery_datetime self) v
    (incident_type_category self) (initial_latitude self)
    (initial_longitude self) (poo_city self) (poo_county self)
    (poo_state self) (fire_cause_id self) (poo_landowner_category self)
    (unique_fire_identifier self).

Definition set_incident_type_category (v : value) (self : FireIncident) : FireIncident :=
  mk_FireIncident (object_id self) (x self) (y self) (incident_size self)
    (containment_datetime self) (fire_discovery_datetime self)
    (incident_name self) v (initial_latitude self) (initial_longitude self)
    (poo_city self) (poo_county self) (poo_state self) (fire_cause_id self)
    (poo_landowner_category self) (unique_fire_identifier self).

Definition set_initial_latitude (v : value) (self : FireIncident) : FireIncident :=
  mk_FireIncident (object_id self) (x self) (y self) (incident_size self)
    (containment_datetime self) (fire_discovery_datetime self)
    (incident_name self) (incident_type_category self) v
    (initial_longitude self) (poo_city self) (poo_county self)
    (poo_state self) (fire_cause_id self) (poo_landowner_category self)
    (unique_fire_identifier self).

Definition set_initial_longitude (v : value) (self : FireIncident) : FireIncident :=
  mk_FireIncident (object_id self) (x self) (y self) (incident_size self)
    (containment_datetime self) (fire_discovery_datetime self)
    (incident_name self) (incident_type_category self)
    (initial_latitude self) v (poo_city self) (poo_county self)
    (poo_state self) (fire_cause_id self) (poo_landowner_category self)
    (unique_fire_identifier self).

Definition set_poo_city (v : value) (self : FireIncident) : FireIncident :=
  mk_FireIncident (object_id self) (x self) (y self) (incident_size self)
    (containment_datetime self) (fire_discovery_datetime self)
    (incident_name self) (incident_type_category self)
    (initial_latitude self) (initial_longitude self) v (poo_county self)
    (poo_state self) (fire_cause_id self) (poo_landowner_category self)
    (unique_fire_identifier self).

Definition set_poo_county (v : value) (self : FireIncident) : FireIncident :=
  mk_FireIncident (object_id self) (x self) (y self) (incident_size self)
    (containment_datetime self) (fire_discovery_datetime self)
    (incident_name self) (incident_type_category self)
    (initial_latitude self) (initial_longitude self) (poo_city self) v
    (poo_state self) (fire_cause_id self) (poo_landowner_category self)
    (unique_fire_identifier self).

Definition set_poo_state (v : value) (self : FireIncident) : FireIncident :=
  mk_FireIncident (object_id self) (x self) (y self) (incident_size self)
    (containment_datetime self) (fire_discovery_datetime self)
    (incident_name self) (incident_type_category self)
    (initial_latitude self) (initial_longitude self) (poo_city self)
    (poo_county self) v (fire_cause_id self) (poo_landowner_category self)
    (unique_fire_identifier self).

Definition set_fire_cause_id (v : value) (self : FireIncident) : FireIncident :=
  mk_FireIncident (object_id self) (x self) (y self) (incident_size self)
    (containment_datetime self) (fire_discovery_datetime self)
    (incident_name self) (incident_type_category self)
    (initial_latitude self) (initial_longitude self) (poo_city self)
    (poo_county self) (poo_state self) v (poo_landowner_category self)
    (unique_fire_identifier self).

Definition set_poo_landowner_category (v : value) (self : FireIncident) : FireIncident :=
  mk_FireIncident (object_id self) (x self) (y self) (incident_size self)
    (containment_datetime self) (fire_discovery_datetime self)
    (incident_name self) (incident_type_category self)
    (initial_latitude self) (initial_longitude self) (poo_city self)
    (poo_county self) (poo_state self) (fire_cause_id self) v
    (unique_fire_identifier self).

Definition set_unique_fire_identifier (v : value) (self : FireIncident) : FireIncident :=
  mk_FireIncident (object_id self) (x self) (y self) (incident_size self)
    (containment_datetime self) (fire_discovery_datetime self)
    (incident_name self) (incident_type_category self)
    (initial_latitude self) (initial_longitude self) (poo_city self)
    (poo_county self) (poo_state self) (fire_cause_id self)
    (poo_landowner_category self) v.

(** *** [serialize] *)

(** The dict literal evaluates its values in order, so the first timestamp
    attribute that is not a datetime raises [AttributeError]. *)
Definition serialize (self : FireIncident) : result value :=
  rbind (call_isoformat (containment_datetime self)) (fun containment =>
  rbind (call_isoformat (fire_discovery_datetime self)) (fun discovery =>
  Ok (VDict (list_to_map [
    ("object_id", object_id self);
    ("x", x self);
    ("y", y self);
    ("incident_size", incident_size self);
    ("containment_datetime", containment);
    ("fire_discovery_datetime", discovery);
    ("incident_name", incident_name self);
    ("incident_type_category", incident_type_category self);
    ("initial_latitude", initial_latitude self);
    ("initial_longitude", initial_longitude self);
    ("poo_city", poo_city self);
    ("poo_county", poo_county self);
    ("poo_state", poo_state self);
    ("fire_cause_id", fire_cause_id self);
    ("poo_landowner_category", poo_landowner_category self);
    ("unique_fire_identifier", unique_fire_identifier self)])))).

(** *** [deserialize]

    The method assigns to [self] one attribute at a time, so it is a
    computation over the object that may stop with an exception after some
    attributes have been assigned. *)
Definition M (A : Type) : Type := FireIncident -> FireIncident * result A.

Definition bind {A B : Type} (m : M A) (k : A -> M B) : M B :=
  fun self =>
    match m self with
    | (self', Ok a) => k a self'
    | (self', Raise e) => (self', Raise e)
    end.

Definition seq {A B : Type} (m : M A) (k : M B) : M B := bind m (fun _ => k).

(** [self.<field> = <expression>]: the right-hand side is evaluated first. *)
Definition assign (set : value -> FireIncident -> FireIncident)
    (rhs : result value) : M unit :=
  fun self =>
    match rhs with
    | Ok v => (set v self, Ok tt)
    | Raise e => (self, Raise e)
    end.

(** [try: body except KeyError/TypeError as error: raise ... from error]. *)
Definition try_except {A : Type} (body : M A) (handler : exn -> result A) : M A :=
  fun self =>
    match body self with
    | (self', Ok a) => (self', Ok a)
    | (self', Raise e) => (self', handler e)
    end.

Notation "m1 >> m2" := (seq m1 m2) (at level 90, right associativity).

(** The body of the [try] block. *)
Definition deserialize_fields (data : value) : M unit :=
  assign set_object_id (getitem data "object_id") >>
  assign set_x (getitem data "x") >>
  assign set_y (getitem data "y") >>
  assign set_incident_size (getitem data "incident_size") >>
  assign set_containment_datetime
    (rbind (getitem data "containment_datetime") datetime_fromisoformat) >>
  assign set_fire_discovery_datetime
    (rbind (getitem data "fire_discovery_datetime") datetime_fromisoformat) >>
  assign set_incident_name (getitem data "incident_name") >>
  assign set_incident_type_category (getitem data "incident_type_category") >>
  assign set_initial_latitude (getitem data "initial_latitude") >>
  assign set_initial_longitude (getitem data "initial_longitude") >>
  assign set_poo_city (getitem data "poo_city") >>
  assign set_poo_county (getitem data "poo_county") >>
  assign set_poo_state (getitem data "poo_state") >>
  assign set_fire_cause_id (getitem data "fire_cause_id") >>
  assign set_poo_landowner_category (getitem data "poo_landowner_category") >>
  assign set_unique_fire_identifier (getitem data "unique_fire_identifier").

(** The two [except] clauses; any other exception propagates. *)
Definition deserialize_handler (error : exn) : result unit :=
  match error with
  | KeyError key => Raise (DataValidationError ("Invalid FireIncident: missing " +:+ key))
  | TypeError msg =>
      Raise (DataValidationError
        ("Invalid FireIncident: body of request contained bad or no data - " +:+
         "Error message: " +:+ msg))
  | e => Raise e
  end.

(** [self.deserialize(data)]: the object after the call, and whether the
    call returned ([self]) or raised. *)
Definition deserialize (data : value) : M unit :=
  try_except (deserialize_fields data) deserialize_handler.

(** The keys [deserialize] reads, in the order it reads them. *)
Definition required_keys : list string :=
  ["object_id"; "x"; "y"; "incident_size"; "containment_datetime";
   "fire_discovery_datetime"; "incident_name"; "incident_type_category";
   "initial_latitude"; "initial_longitude"; "poo_city"; "poo_county";
   "poo_state"; "fire_cause_id"; "poo_landowner_category";
   "unique_fire_identifier"].

Definition timestamp_keys : list string :=
  ["containment_datetime"; "fire_discovery_datetime"].

(** *** Persistence

    The table behind [db.session]: the committed rows, in the order in
    which a scan meets them, and the sequence that numbers rows created
    without an [object_id].  Only [commit()] writes to it.

    [init_db] pushes an application context that nothing pops, so the one
    session of [db] serves every request.  An object that [find] loaded
    stays in that session; what a handler assigns to it and does not
    commit is neither in the table nor gone when the handler returns: it
    waits in the session, where the next [find] of the same key meets it
    and the next [commit()] of any handler writes it.  [Database] is the
    committed table; the operations below are those of a session in which
    nothing waits, and [Leftover] tells what a handler leaves waiting. *)
Record Database : Type := mk_Database {
  rows : list FireIncident;
  next_id : Z
}.

(** What is in the session, beside the committed table, when a handler
    has returned: nothing; or the object loaded under the key [loaded],
    carrying assignments that no commit wrote; or a transaction that
    failed in [commit()] and waits for a rollback, which no handler of the
    service does. *)
Inductive Leftover : Type :=
  | Clean
  | Assigned (loaded : Z) (fire_incident : FireIncident)
  | FailedCommit.

Definition has_pk (id : Z) (r : FireIncident) : bool :=
  match object_id r with
  | VInt n => n =? id
  | _ => false
  end.

Definition pk_in_use (id : Z) (db : Database) : bool :=
  existsb (has_pk id) (rows db).

(** The rows after [UPDATE ... WHERE object_id = loaded] has written
    [self]: the rows under other keys as they were, then the new version
    of each row that was under the key. *)
Definition written_over (loaded : Z) (self : FireIncident)
    (l : list FireIncident) : list FireIncident :=
  List.filter (fun r => negb (has_pk loaded r)) l ++
  map (fun _ => self) (List.filter (has_pk loaded) l).

Section Persistence.

(** Whether the storage engine takes the attribute values of an object for
    its columns (types, lengths); the engine itself is outside the
    service. *)
Variable engine_accepts : FireIncident -> bool.

(** [self.create()]: [db.session.add(self)] and [commit()].  An object
    whose [object_id] is [None] is numbered by the sequence, one with an
    integer keeps it, and a primary key already in use is refused.  The
    result is the object as the handler reads it afterwards, taken to be
    the row as it was written: what the engine makes of the values it is
    given (a number for a text key, a timestamp handed back at the time
    zone of the connection) lies with the engine and is not followed
    here. *)
Definition create (self : FireIncident) (db : Database)
  : Database * result FireIncident :=
  match object_id self with
  | VNone =>
      let id := next_id db in
      let row := set_object_id (VInt id) self in
      if pk_in_use id db then
        (mk_Database (rows db) (id + 1), Raise (DatabaseError "duplicate key"))
      else if engine_accepts row then
        (mk_Database (rows db ++ [row]) (id + 1), Ok row)
      else
        (mk_Database (rows db) (id + 1), Raise (DatabaseError "statement refused"))
  | VInt id =>
      if pk_in_use id db then (db, Raise (DatabaseError "duplicate key"))
      else if engine_accepts self then
        (mk_Database (rows db ++ [self]) (next_id db), Ok self)
      else (db, Raise (DatabaseError "statement refused"))
  | _ => (db, Raise (DatabaseError "statement refused"))
  end.

(** [self.update()]: [commit()] writes the attributes of the persistent
    object [self] over the row it was loaded from, the one under the key
    [loaded], as [UPDATE ... SET ... WHERE object_id = loaded] does.  The
    [object_id] of [self] is one of the columns written: an object that
    was given another [object_id] moves its row to that key, which the
    primary key refuses when another row has it.  The new version of the
    row is met after the rows that were not written.  As in [create], the
    row is taken to hold the values as they were written. *)
Definition update (loaded : Z) (self : FireIncident) (db : Database)
  : Database * result unit :=
  match object_id self with
  | VInt id =>
      if negb (id =? loaded) && pk_in_use id db then
        (db, Raise (DatabaseError "duplicate key"))
      else if engine_accepts self then
        (mk_Database (written_over loaded self (rows db)) (next_id db),
         Ok tt)
      else (db, Raise (DatabaseError "statement refused"))
  | _ => (db, Raise (DatabaseError "statement refused"))
  end.

End Persistence.

(** [self.delete()]: removes the row of [self]. *)
Definition delete (self : FireIncident) (db : Database) : Database :=
  match object_id self with
  | VInt id =>
      mk_Database (List.filter (fun r => negb (has_pk id r)) (rows db))
        (next_id db)
  | _ => db
  end.

(** [FireIncident.all()]. *)
Definition all (db : Database) : list FireIncident := rows db.

(** [FireIncident.find(by_id)]: [None] when no row has that key. *)
Definition find (by_id : Z) (db : Database) : option FireIncident :=
  List.find (has_pk by_id) (rows db).

(** The SQL comparison [poo_county = :value] for a string [value]. *)
Definition column_equals (v : value) (s : string) : bool :=
  match v with
  | VStr s' => String.eqb s' s
  | _ => false
  end.

(** [FireIncident.find_by_poo_county(poo_county)]. *)
Definition find_by_poo_county (poo_county : string) (db : Database)
  : list FireIncident :=
  List.filter (fun r => column_equals (Models.poo_county r) poo_county)
    (rows db).

(** *** Predicates used to state the contract *)

(** A timestamp attribute that holds a datetime object. *)
Definition is_datetime (v : value) : bool :=
  match v with
  | VDatetime d => Datetime.valid d
  | _ => false
  end.

(** A timestamp at an offset that [fromisoformat] gives back as
    [isoformat] printed it. *)
Definition offset_survives (v : value) : bool :=
  match v with
  | VDatetime d => Datetime.offset_survives (Datetime.utcoffset d)
  | _ => true
  end.

(** A timestamp as it is after [isoformat] and [fromisoformat]. *)
Definition timestamp_read_back (v : value) : value :=
  match v with
  | VDatetime d =>
      VDatetime
        (Datetime.mk_datetime (Datetime.year d) (Datetime.month d)
           (Datetime.day d) (Datetime.hour d) (Datetime.minute d)
           (Datetime.second d) (Datetime.microsecond d)
           (Datetime.offset_read_back (Datetime.utcoffset d)))
  | _ => v
  end.

(** A record is fully populated when both timestamp attributes hold
    datetime objects; the other attributes are serialized as they are. *)
Definition fully_populated (self : FireIncident) : bool :=
  is_datetime (containment_datetime self) &&
  is_datetime (fire_discovery_datetime self).

Definition is_timestamp_key (key : string) : bool :=
  existsb (String.eqb key) timestamp_keys.

(** [deserialize] gets past [key]: the mapping holds it and, for a
    timestamp key, [fromisoformat] accepts its value. *)
Definition reads (m : gmap string value) (key : string) : bool :=
  match m !! key with
  | None => false
  | Some v =>
      if is_timestamp_key key then
        match datetime_fromisoformat v with
        | Ok _ => true
        | Raise _ => false
        end
      else true
  end.

(** Whether a value is key/value structured. *)
Definition is_mapping (data : value) : bool :=
  match data with
  | VDict _ => true
  | _ => false
  end.

(** The message of an exception mentions a key. *)
Definition mentions (msg key : string) : bool :=
  match String.index 0 key msg with
  | Some _ => true
  | None => false
  end.

(** *** The table as a whole *)

(** An attribute that holds a datetime object, whatever its value. *)
Definition holds_datetime (v : value) : bool :=
  match v with
  | VDatetime _ => true
  | _ => false
  end.

Definition is_str (v : value) : bool :=
  match v with
  | VStr _ => true
  | _ => false
  end.

Definition is_key (id : Z) (v : value) : bool :=
  match v with
  | VInt n => n =? id
  | _ => false
  end.

(** Every key is an integer and no key occurs twice. *)
Fixpoint distinct_keys (keys : list value) : bool :=
  match keys with
  | [] => true
  | VInt id :: rest => negb (existsb (is_key id) rest) && distinct_keys rest
  | _ :: _ => false
  end.

(** [object_id] is the primary key of the table. *)
Definition primary_keys_ok (db : Database) : bool :=
  distinct_keys (map object_id (rows db)).

(** Every row can be serialized. *)
Definition rows_populated (db : Database) : bool :=
  forallb fully_populated (rows db).

End Models.

(* ===================================================================== *)
(** ** [service/routes.py] *)
(* ===================================================================== *)

Module Routes.
Import Py Models.

(** Modelled from the spec: [service/common/status.py] is not among the
    sources; these are the status codes of the interface table and of the
    error taxonomy. *)
Definition HTTP_200_OK : Z := 200.
Definition HTTP_201_CREATED : Z := 201.
Definition HTTP_204_NO_CONTENT : Z := 204.
Definition HTTP_400_BAD_REQUEST : Z := 400.
Definition HTTP_404_NOT_FOUND : Z := 404.
Definition HTTP_405_METHOD_NOT_ALLOWED : Z := 405.
Definition HTTP_415_UNSUPPORTED_MEDIA_TYPE : Z := 415.
Definition HTTP_500_INTERNAL_SERVER_ERROR : Z := 500.

(** What a handler reads of [flask.request]: the [Content-Type] header if
    there is one, the query parameters in the order of the query string,
    and the body as [get_json()] decodes it ([None] when the body is not
    JSON text). *)
Record Request : Type := mk_Request {
  content_type : option string;
  args : list (string * string);
  json : option value
}.

Inductive Body : Type :=
  | Empty
  | Json (v : value).

Record Response : Type := mk_Response {
  status_code : Z;
  body : Body;
  location : option string
}.

(** [jsonify(v), code]. *)
Definition jsonify (v : value) (code : Z) : Response :=
  mk_Response code (Json v) None.

(** [abort(code, description)]. *)
Definition abort {A : Type} (code : Z) (description : string) : result A :=
  Raise (HTTPException code description).

(** [request.args.get(key)]: the first value given for [key]. *)
Fixpoint args_get (key : string) (l : list (string * string)) : option string :=
  match l with
  | [] => None
  | (k, v) :: l' => if String.eqb k key then Some v else args_get key l'
  end.

(** [request.get_json()], once the content type is known to be JSON. *)
Definition get_json (request : Request) : result value :=
  match json request with
  | Some data => Ok data
  | None => abort HTTP_400_BAD_REQUEST "Failed to decode JSON object"
  end.

Definition url_root : string := "http://localhost".

(** [url_for("list_fire_incidents", _external=True)]. *)
Definition url_for_list_fire_incidents : string := url_root +:+ "/fires".

(** [url_for("get_fire_incidents", object_id=v, _external=True)]; the
    [int] converter of the rule prints an integer in decimal. *)
Definition url_for_get_fire_incidents (v : value) : result string :=
  match v with
  | VInt n => Ok (url_root +:+ "/fires/" +:+ str_of_int n)
  | _ => Raise (BuildError "Could not build url for endpoint 'get_fire_incidents'")
  end.

(** [check_content_type(content_type)]. *)
Definition check_content_type (expected : string) (request : Request)
  : result unit :=
  match content_type request with
  | None =>
      abort HTTP_415_UNSUPPORTED_MEDIA_TYPE ("Content-Type must be " +:+ expected)
  | Some given =>
      if String.eqb given expected then Ok tt
      else abort HTTP_415_UNSUPPORTED_MEDIA_TYPE ("Content-Type must be " +:+ expected)
  end.

(** [[fire_incident.serialize() for fire_incident in fire_incidents]]. *)
Fixpoint serialize_all (fire_incidents : list FireIncident)
  : result (list value) :=
  match fire_incidents with
  | [] => Ok []
  | fire_incident :: rest =>
      rbind (serialize fire_incident) (fun v =>
      rbind (serialize_all rest) (fun vs => Ok (v :: vs)))
  end.

Definition not_found_message (object_id : Z) : string :=
  "FireIncident with id '" +:+ str_of_int object_id +:+ "' was not found.".

(** [healthcheck()]. *)
Definition healthcheck : Response :=
  jsonify (VDict (list_to_map [("status", VInt 200); ("message", VStr "Healthy")]))
    HTTP_200_OK.

(** [index()]. *)
Definition index : Response :=
  jsonify (VDict (list_to_map [
    ("name", VStr "FireIncident REST API Service");
    ("version", VStr "1.0");
    ("paths", VStr url_for_list_fire_incidents)])) HTTP_200_OK.

(** The records [list_fire_incidents] selects: the value of its variable
    [fire_incidents] before serialization. *)
Definition selected_fire_incidents (request : Request) (db : Database)
  : list FireIncident :=
  match args_get "poo_county" (args request) with
  | Some poo_county =>
      if str_truthy poo_county then find_by_poo_county poo_county db
      else all db
  | None => all db
  end.

(** [list_fire_incidents()]. *)
Definition list_fire_incidents (request : Request) (db : Database)
  : Database * result Response :=
  match serialize_all (selected_fire_incidents request db) with
  | Ok results => (db, Ok (jsonify (VList results) HTTP_200_OK))
  | Raise e => (db, Raise e)
  end.

(** [get_fire_incidents(object_id)]. *)
Definition get_fire_incidents (object_id : Z) (db : Database)
  : Database * result Response :=
  match find object_id db with
  | None => (db, abort HTTP_404_NOT_FOUND (not_found_message object_id))
  | Some fire_incident =>
      match serialize fire_incident with
      | Ok message => (db, Ok (jsonify message HTTP_200_OK))
      | Raise e => (db, Raise e)
      end
  end.

(** [delete_fire_incidents(object_id)]. *)
Definition delete_fire_incidents (object_id : Z) (db : Database)
  : Database * result Response :=
  let db' :=
    match find object_id db with
    | Some fire_incident => delete fire_incident db
    | None => db
    end in
  (db', Ok (mk_Response HTTP_204_NO_CONTENT Empty None)).

Section Handlers.

Variable engine_accepts : FireIncident -> bool.

(** [create_fire_incidents()]. *)
Definition create_fire_incidents (request : Request) (db : Database)
  : Database * result Response :=
  match check_content_type "application/json" request with
  | Raise e => (db, Raise e)
  | Ok _ =>
  match get_json request with
  | Raise e => (db, Raise e)
  | Ok data =>
  match deserialize data new_FireIncident with
  | (_, Raise e) => (db, Raise e)
  | (fire_incident, Ok _) =>
  match create engine_accepts fire_incident db with
  | (db', Raise e) => (db', Raise e)
  | (db', Ok fire_incident) =>
  match serialize fire_incident with
  | Raise e => (db', Raise e)
  | Ok message =>
  match url_for_get_fire_incidents (object_id fire_incident) with
  | Raise e => (db', Raise e)
  | Ok location_url =>
      (db', Ok (mk_Response HTTP_201_CREATED (Json message) (Some location_url)))
  end end end end end end.

(** [update_fire_incidents(object_id)].  The table returned is the
    committed one: when [deserialize] raises, the row that [find] loaded
    is not written, and what was assigned to it before stays in the
    session, as [update_fire_incidents_leaves] tells. *)
Definition update_fire_incidents (object_id : Z) (request : Request)
    (db : Database) : Database * result Response :=
  match check_content_type "application/json" request with
  | Raise e => (db, Raise e)
  | Ok _ =>
  match find object_id db with
  | None => (db, abort HTTP_404_NOT_FOUND (not_found_message object_id))
  | Some fire_incident =>
  match get_json request with
  | Raise e => (db, Raise e)
  | Ok data =>
  match deserialize data fire_incident with
  | (_, Raise e) => (db, Raise e)
  | (fire_incident, Ok _) =>
  let fire_incident := set_object_id (VInt object_id) fire_incident in
  match update engine_accepts object_id fire_incident db with
  | (db', Raise e) => (db', Raise e)
  | (db', Ok _) =>
  match serialize fire_incident with
  | Raise e => (db', Raise e)
  | Ok message => (db', Ok (jsonify message HTTP_200_OK))
  end end end end end end.

(** *** What the two writing handlers leave in the session

    The object of [create_fire_incidents] is a fresh [FireIncident()],
    which enters the session in [create()] only: when [deserialize]
    rejects the body, nothing of it stays.  The object of
    [update_fire_incidents] is the one [find] loaded: when [deserialize]
    raises after its first assignment, the object stays in the session
    with the attributes assigned so far. *)
Definition create_fire_incidents_leaves (request : Request) (db : Database)
  : Leftover :=
  match check_content_type "application/json" request with
  | Raise _ => Clean
  | Ok _ =>
  match get_json request with
  | Raise _ => Clean
  | Ok data =>
  match deserialize data new_FireIncident with
  | (_, Raise _) => Clean
  | (fire_incident, Ok _) =>
  match create engine_accepts fire_incident db with
  | (_, Raise _) => FailedCommit
  | (_, Ok _) => Clean
  end end end end.

Definition update_fire_incidents_leaves (object_id : Z) (request : Request)
    (db : Database) : Leftover :=
  match check_content_type "application/json" request with
  | Raise _ => Clean
  | Ok _ =>
  match find object_id db with
  | None => Clean
  | Some fire_incident =>
  match get_json request with
  | Raise _ => Clean
  | Ok data =>
  match deserialize data fire_incident with
  | (fire_incident, Raise _) =>
      match getitem data "object_id" with
      | Raise _ => Clean
      | Ok _ => Assigned object_id fire_incident
      end
  | (fire_incident, Ok _) =>
  let fire_incident := set_object_id (VInt object_id) fire_incident in
  match update engine_accepts object_id fire_incident db with
  | (_, Raise _) => FailedCommit
  | (_, Ok _) => Clean
  end end end end end.

(** *** The application: error handlers and URL rules *)

Definition error_body (code : Z) (reason message : string) : Body :=
  Json (VDict (list_to_map [
    ("status", VInt code); ("error", VStr reason); ("message", VStr message)])).

Definition reason_phrase (code : Z) : string :=
  if code =? 400 then "Bad Request"
  else if code =? 404 then "Not Found"
  else if code =? 405 then "Method Not Allowed"
  else if code =? 415 then "Unsupported Media Type"
  else "Internal Server Error".

(** Modelled from the spec: [service/common/error_handlers.py] is not
    among the sources.  A validation error becomes 400, an aborted request
    keeps the status it was aborted with, and anything else is a 500 with a
    generic message; the body carries the status and a message. *)
Definition error_handlers (e : exn) : Response :=
  match e with
  | DataValidationError msg =>
      mk_Response HTTP_400_BAD_REQUEST
        (error_body HTTP_400_BAD_REQUEST "Bad Request" msg) None
  | HTTPException code description =>
      mk_Response code (error_body code (reason_phrase code) description) None
  | _ =>
      mk_Response HTTP_500_INTERNAL_SERVER_ERROR
        (error_body HTTP_500_INTERNAL_SERVER_ERROR "Internal Server Error"
           "Internal Server Error") None
  end.

(** What the client receives from a handler. *)
Definition respond (outcome : Database * result Response)
  : Database * Response :=
  match outcome with
  | (db, Ok response) => (db, response)
  | (db, Raise e) => (db, error_handlers e)
  end.

Inductive Method : Type := GET | POST | PUT | DELETE.

(** [s] without the prefix [p], when it starts with it. *)
Fixpoint strip_prefix (p s : string) : option string :=
  match p, s with
  | EmptyString, _ => Some s
  | String a p', String b s' =>
      if Ascii.eqb a b then strip_prefix p' s' else None
  | String _ _, EmptyString => None
  end.

(** The [int] converter of a URL rule: one or more decimal digits. *)
Definition int_converter (s : string) : option Z :=
  option_map Z.of_uint (NilZero.uint_of_string s).

(** The path of a URL on this server. *)
Definition path_of_url (url : string) : string :=
  match strip_prefix url_root url with
  | Some path => path
  | None => url
  end.

Definition method_not_allowed (db : Database) : Database * Response :=
  respond (db, abort HTTP_405_METHOD_NOT_ALLOWED "Method Not Allowed").

(** The [@app.route] rules. *)
Definition dispatch (method : Method) (url : string) (request : Request)
    (db : Database) : Database * Response :=
  let path := path_of_url url in
  if String.eqb path "/healthcheck" then
    match method with
    | GET => (db, healthcheck)
    | _ => method_not_allowed db
    end
  else if String.eqb path "/" then
    match method with
    | GET => (db, index)
    | _ => method_not_allowed db
    end
  else if String.eqb path "/fires" then
    match method with
    | GET => respond (list_fire_incidents request db)
    | POST => respond (create_fire_incidents request db)
    | _ => method_not_allowed db
    end
  else
    match strip_prefix "/fires/" path with
    | Some segment =>
        match int_converter segment with
        | Some object_id =>
            match method with
            | GET => respond (get_fire_incidents object_id db)
            | PUT => respond (update_fire_incidents object_id request db)
            | DELETE => respond (delete_fire_incidents object_id db)
            | POST => method_not_allowed db
            end
        | None => respond (db, abort HTTP_404_NOT_FOUND "Not Found")
        end
    | None => respond (db, abort HTTP_404_NOT_FOUND "Not Found")
    end.

(** What a request leaves in the session: only the two writing handlers
    leave anything. *)
Definition leaves (method : Method) (url : string) (request : Request)
    (db : Database) : Leftover :=
  let path := path_of_url url in
  if String.eqb path "/fires" then
    match method with
    | POST => create_fire_incidents_leaves request db
    | _ => Clean
    end
  else
    match strip_prefix "/fires/" path with
    | Some segment =>
        match int_converter segment, method with
        | Some object_id, PUT =>
            update_fire_incidents_leaves object_id request db
        | _, _ => Clean
        end
    | None => Clean
    end.

End Handlers.

(** The statuses the handlers return themselves: 200, 201 and 204. *)
Definition is_success (code : Z) : bool :=
  (code =? HTTP_200_OK) || (code =? HTTP_201_CREATED) ||
  (code =? HTTP_204_NO_CONTENT).

End Routes.

(* ===================================================================== *)
(** ** The example scenario and the data of the test suite *)
(* ===================================================================== *)

Module Scenario.
Import Py Models Routes.

(** The body of the example request: every field but [object_id]. *)
Definition example_mapping : gmap string value :=
  list_to_map [
    ("x", VFloat (float_of_Z 1));
    ("y", VFloat (float_of_Z 2));
    ("incident_size", VFloat (float_of_Z 100));
    ("containment_datetime", VStr "2020-01-01T00:00:00+00:00");
    ("fire_discovery_datetime", VStr "2020-01-01T00:00:00+00:00");
    ("incident_name", VStr "Test Fire");
    ("incident_type_category", VStr "WF");
    ("initial_latitude", VFloat (float_of_Z 34));
    ("initial_longitude", VFloat (float_of_Z (-118)));
    ("poo_city", VStr "LA");
    ("poo_county", VStr "Los Angeles");
    ("poo_state", VStr "US-CA");
    ("fire_cause_id", VInt 1);
    ("poo_landowner_category", VStr "federal");
    ("unique_fire_identifier", VStr "1994-AZCRA-000037")].

Definition json_request (data : value) : Request :=
  mk_Request (Some "application/json") [] (Some data).

Definition example_request : Request := json_request (VDict example_mapping).

(** The same body with an [object_id] entry. *)
Definition example_with_object_id (v : value) : gmap string value :=
  <["object_id" := v]> example_mapping.

Definition midnight_2020 : Datetime.datetime :=
  Datetime.mk_datetime 2020 1 1 0 0 0 0 (Some 0).

(** The record the example body describes, under a given [object_id]. *)
Definition example_record (v : value) : FireIncident :=
  mk_FireIncident v (VFloat (float_of_Z 1)) (VFloat (float_of_Z 2))
    (VFloat (float_of_Z 100)) (VDatetime midnight_2020)
    (VDatetime midnight_2020) (VStr "Test Fire") (VStr "WF")
    (VFloat (float_of_Z 34)) (VFloat (float_of_Z (-118))) (VStr "LA")
    (VStr "Los Angeles") (VStr "US-CA") (VInt 1) (VStr "federal")
    (VStr "1994-AZCRA-000037").

(** The key a new row gets from the [object_id] of the body: the next
    value of the sequence for [null], the integer itself otherwise. *)
Definition assigned_object_id (v : value) (db : Database) : option Z :=
  match v with
  | VNone => Some (next_id db)
  | VInt n => Some n
  | _ => None
  end.

(** A table with no rows whose sequence starts at one. *)
Definition empty_db : Database := mk_Database [] 1.

(** A table that holds the example record under the key 1. *)
Definition one_row_db : Database := mk_Database [example_record (VInt 1)] 2.

(** [GET /fires?poo_county=<value>]. *)
Definition filter_request (value : string) : Request :=
  mk_Request None [("poo_county", value)] None.

(** [GET /fires]. *)
Definition plain_request : Request := mk_Request None [] None.

(** An engine that takes every row. *)
Definition accepts_all (r : FireIncident) : bool := true.

(** The example body without [incident_name] and with a number where the
    containment timestamp should be. *)
Definition mapping_with_numeric_timestamp : gmap string value :=
  <["containment_datetime" := VInt 5]>
    (base.delete "incident_name" (example_with_object_id (VInt 300000))).

(** The example body with text that is not a timestamp. *)
Definition mapping_with_bad_timestamp : gmap string value :=
  <["containment_datetime" := VStr "not a date"]>
    (example_with_object_id (VInt 300000)).

(** The example body without [incident_name]. *)
Definition mapping_without_incident_name : gmap string value :=
  base.delete "incident_name" (example_with_object_id (VInt 300000)).

(** [test_deserialize_missing_data]. *)
Definition mapping_missing_data : gmap string value :=
  list_to_map [
    ("x", VFloat (float_of_Z 1)); ("y", VFloat (float_of_Z 1));
    ("incident_size", VInt 3)].

(** A second record, from another county, and a table of two rows. *)
Definition other_record (v : value) : FireIncident :=
  set_poo_county (VStr "Ventura") (example_record v).

Definition two_row_db : Database :=
  mk_Database [example_record (VInt 1); other_record (VInt 2)] 3.

(** A row as [FireIncident().create()] leaves it: no timestamps. *)
Definition blank_row_db : Database :=
  mk_Database [set_object_id (VInt 1) new_FireIncident] 2.

(** [PUT] or [POST] with a content type that is not JSON. *)
Definition html_request (data : value) : Request :=
  mk_Request (Some "text/html") [] (Some data).

(** Midnight of the first day of 2020 at an offset of one microsecond,
    [datetime(2020, 1, 1, tzinfo=timezone(timedelta(microseconds=1)))],
    and the example record with that containment timestamp. *)
Definition midnight_2020_off_by_a_microsecond : Datetime.datetime :=
  Datetime.mk_datetime 2020 1 1 0 0 0 0 (Some 1).

Definition record_off_by_a_microsecond : FireIncident :=
  set_containment_datetime (VDatetime midnight_2020_off_by_a_microsecond)
    (example_record (VInt 1)).

(** A body that gives another key and a new [x] and stops there. *)
Definition mapping_that_stops_after_x : gmap string value :=
  list_to_map [("object_id", VInt 999); ("x", VFloat (float_of_Z 5))].

(** The example record after the two assignments that
    [mapping_that_stops_after_x] allows. *)
Definition half_assigned_record : FireIncident :=
  set_x (VFloat (float_of_Z 5)) (example_record (VInt 999)).

End Scenario.

(* ===================================================================== *)
(** ** [fromisoformat] after [isoformat] *)
(* ===================================================================== *)

Module DatetimeFacts.
Import Datetime.

#[local] Arguments digit : simpl never.

Example isoformat_utc :
  isoformat (mk_datetime 2020 1 1 0 0 0 0 (Some 0)) = "2020-01-01T00:00:00+00:00".
Proof. reflexivity. Qed.

Example isoformat_microseconds_west :
  isoformat (mk_datetime 2008 12 31 23 59 58 12345 (Some (-28800000000)))
  = "2008-12-31T23:59:58.012345-08:00".
Proof. reflexivity. Qed.

Example isoformat_naive :
  isoformat (mk_datetime 2008 1 1 0 0 0 0 None) = "2008-01-01T00:00:00".
Proof. reflexivity. Qed.

Example isoformat_offset_with_microseconds :
  isoformat (mk_datetime 2008 12 31 23 59 58 0 (Some 19800000001))
  = "2008-12-31T23:59:58+05:30:00.000001".
Proof. reflexivity. Qed.

Example fromisoformat_microseconds_west :
  fromisoformat "2008-12-31T23:59:58.012345-08:00"
  = Some (mk_datetime 2008 12 31 23 59 58 12345 (Some (-28800000000))).
Proof. vm_compute. reflexivity. Qed.

Example fromisoformat_date_only :
  fromisoformat "2020-02-29" = Some (mk_datetime 2020 2 29 0 0 0 0 None).
Proof. vm_compute. reflexivity. Qed.

Example fromisoformat_separator_without_time :
  fromisoformat "2020-02-29T" = None.
Proof. vm_compute. reflexivity. Qed.

Example fromisoformat_offset_of_a_microsecond :
  fromisoformat "2020-01-01T00:00:00+00:00:00.000001"
  = Some (mk_datetime 2020 1 1 0 0 0 0 (Some 0)).
Proof. vm_compute. reflexivity. Qed.

Example fromisoformat_offset_of_a_second_and_a_half_west :
  fromisoformat "2020-01-01T00:00:00-00:00:01.500000"
  = Some (mk_datetime 2020 1 1 0 0 0 0 (Some (-1500000))).
Proof. vm_compute. reflexivity. Qed.

Example fromisoformat_not_a_date : fromisoformat "not a date" = None.
Proof. vm_compute. reflexivity. Qed.

Example fromisoformat_day_out_of_range :
  fromisoformat "2021-02-29T00:00:00" = None.
Proof. vm_compute. reflexivity. Qed.

Example fromisoformat_offset_out_of_range :
  fromisoformat "2021-02-28T00:00:00+24:00" = None.
Proof. vm_compute. reflexivity. Qed.

(** The ten decimal digits. *)
Lemma digit_cases (n : Z) :
  0 <= n < 10 -> In n [0; 1; 2; 3; 4; 5; 6; 7; 8; 9].
Proof. intros Hn. simpl. lia. Qed.

Lemma digit_value_digit (n : Z) :
  0 <= n < 10 -> digit_value (digit n) = Some n.
Proof.
  intros Hn. apply digit_cases in Hn. simpl in Hn.
  repeat (destruct Hn as [<- | Hn]; [reflexivity |]).
  contradiction.
Qed.

(** A decimal digit is neither a sign, a colon nor a dot. *)
Lemma digit_not_punct (n : Z) (c : ascii) :
  0 <= n < 10 -> In c [dash; plus; colon; dot] -> ascii_eqb (digit n) c = false.
Proof.
  intros Hn Hc. apply digit_cases in Hn. simpl in Hn, Hc.
  destruct Hc as [<- | [<- | [<- | [<- | []]]]];
    repeat (destruct Hn as [<- | Hn]; [reflexivity |]);
    contradiction.
Qed.

Lemma parse_digits_from_app (l1 l2 : list ascii) : forall acc,
  parse_digits_from acc (l1 ++ l2) =
  match parse_digits_from acc l1 with
  | Some a => parse_digits_from a l2
  | None => None
  end.
Proof.
  induction l1 as [| c l1 IH]; intros acc; simpl.
  - reflexivity.
  - destruct (digit_value c); [apply IH | reflexivity].
Qed.

Lemma parse_zero_padded (w : nat) : forall n acc,
  0 <= n < 10 ^ Z.of_nat w ->
  parse_digits_from acc (zero_padded w n) = Some (acc * 10 ^ Z.of_nat w + n).
Proof.
  induction w as [| w IH]; intros n acc Hn.
  - simpl in *. f_equal. lia.
  - rewrite Nat2Z.inj_succ, Z.pow_succ_r in * by lia.
    simpl. rewrite parse_digits_from_app.
    assert (Hq : 0 <= n / 10 < 10 ^ Z.of_nat w).
    { split; [apply Z.div_pos; lia | apply Z.div_lt_upper_bound; lia]. }
    rewrite (IH _ _ Hq). simpl.
    pose proof (Z.mod_pos_bound n 10 ltac:(lia)) as Hr.
    rewrite (digit_value_digit _ Hr). f_equal.
    pose proof (Z.div_mod n 10 ltac:(lia)). lia.
Qed.

Lemma length_zero_padded (w : nat) : forall n, length (zero_padded w n) = w.
Proof.
  induction w as [| w IH]; intros n; simpl.
  - reflexivity.
  - rewrite length_app, IH. simpl. lia.
Qed.

Lemma parse_int_zero_padded (w : nat) (n : Z) :
  (0 < w)%nat -> 0 <= n < 10 ^ Z.of_nat w ->
  parse_int (zero_padded w n) = Some n.
Proof.
  intros Hw Hn. unfold parse_int.
  pose proof (length_zero_padded w n) as Hlen.
  destruct (zero_padded w n) eqn:E.
  - simpl in Hlen. lia.
  - rewrite <- E. rewrite parse_zero_padded by assumption. f_equal; lia.
Qed.

Lemma zero_padded_2 (n : Z) :
  zero_padded 2 n = [digit (n / 10 mod 10); digit (n mod 10)].
Proof. reflexivity. Qed.

Lemma zero_padded_4 (n : Z) :
  zero_padded 4 n =
  [digit (n / 10 / 10 / 10 mod 10); digit (n / 10 / 10 mod 10);
   digit (n / 10 mod 10); digit (n mod 10)].
Proof. reflexivity. Qed.

Lemma zero_padded_6 (n : Z) :
  zero_padded 6 n =
  [digit (n / 10 / 10 / 10 / 10 / 10 mod 10);
   digit (n / 10 / 10 / 10 / 10 mod 10);
   digit (n / 10 / 10 / 10 mod 10); digit (n / 10 / 10 mod 10);
   digit (n / 10 mod 10); digit (n mod 10)].
Proof. reflexivity. Qed.

Lemma parse_int_2 (n : Z) :
  0 <= n < 100 ->
  parse_int [digit (n / 10 mod 10); digit (n mod 10)] = Some n.
Proof.
  intros Hn. rewrite <- zero_padded_2.
  apply parse_int_zero_padded; [lia | exact Hn].
Qed.

Lemma parse_int_4 (n : Z) :
  0 <= n < 10000 ->
  parse_int [digit (n / 10 / 10 / 10 mod 10); digit (n / 10 / 10 mod 10);
             digit (n / 10 mod 10); digit (n mod 10)] = Some n.
Proof.
  intros Hn. rewrite <- zero_padded_4.
  apply parse_int_zero_padded; [lia | exact Hn].
Qed.

Lemma parse_fraction_6 (n : Z) :
  0 <= n < 1000000 ->
  parse_fraction
    [digit (n / 10 / 10 / 10 / 10 / 10 mod 10);
     digit (n / 10 / 10 / 10 / 10 mod 10);
     digit (n / 10 / 10 / 10 mod 10); digit (n / 10 / 10 mod 10);
     digit (n / 10 mod 10); digit (n mod 10)] = Some n.
Proof.
  intros Hn. unfold parse_fraction. cbn [length].
  rewrite <- zero_padded_6.
  apply parse_int_zero_padded; [lia | exact Hn].
Qed.

(** The seconds and the fraction that follow [HH:MM] in a time. *)
Lemma parse_hh_mm_ss_ff_full (hh mm ss us : Z) :
  0 <= hh < 100 -> 0 <= mm < 100 -> 0 <= ss < 100 -> 0 <= us < 1000000 ->
  parse_hh_mm_ss_ff
    (zero_padded 2 hh ++ [colon] ++ zero_padded 2 mm ++ [colon] ++
     zero_padded 2 ss ++ (if us =? 0 then [] else [dot] ++ zero_padded 6 us))
  = Some (hh, mm, ss, us).
Proof.
  intros Hh Hm Hs Hu.
  rewrite !zero_padded_2. cbn [app]. unfold parse_hh_mm_ss_ff.
  destruct (us =? 0) eqn:E.
  - apply Z.eqb_eq in E. subst us.
    change (ascii_eqb colon colon) with true. cbn [andb].
    rewrite !parse_int_2 by assumption. reflexivity.
  - rewrite zero_padded_6. cbn [app].
    change (ascii_eqb colon colon) with true. cbn [andb].
    rewrite !parse_int_2 by assumption.
    change (ascii_eqb dot dot) with true. cbv iota.
    rewrite parse_fraction_6 by assumption. reflexivity.
Qed.

Lemma parse_hh_mm_ss_ff_short (hh mm : Z) :
  0 <= hh < 100 -> 0 <= mm < 100 ->
  parse_hh_mm_ss_ff (zero_padded 2 hh ++ [colon] ++ zero_padded 2 mm)
  = Some (hh, mm, 0, 0).
Proof.
  intros Hh Hm.
  rewrite !zero_padded_2. cbn [app]. unfold parse_hh_mm_ss_ff.
  change (ascii_eqb colon colon) with true. cbv iota.
  rewrite !parse_int_2 by assumption. reflexivity.
Qed.

Lemma parse_format_time (hh mm ss us : Z) :
  0 <= hh < 100 -> 0 <= mm < 100 -> 0 <= ss < 100 -> 0 <= us < 1000000 ->
  parse_hh_mm_ss_ff (format_time hh mm ss us) = Some (hh, mm, ss, us).
Proof. apply parse_hh_mm_ss_ff_full. Qed.

Lemma offset_components (a : Z) :
  0 <= a < 86400000000 ->
  0 <= a / 3600000000 < 100 /\
  0 <= a mod 3600000000 / 60000000 < 100 /\
  0 <= a mod 60000000 / 1000000 < 100 /\
  0 <= a mod 1000000 < 1000000 /\
  (a / 3600000000 * 3600 + a mod 3600000000 / 60000000 * 60 +
   a mod 60000000 / 1000000) * 1000000 + a mod 1000000 = a.
Proof.
  intros Ha. Z.div_mod_to_equations. lia.
Qed.

Lemma parse_format_offset_digits (a : Z) :
  0 <= a < 86400000000 ->
  parse_hh_mm_ss_ff (format_offset_digits a) =
    Some (a / 3600000000, a mod 3600000000 / 60000000,
          a mod 60000000 / 1000000, a mod 1000000) /\
  In (length (format_offset_digits a)) [5%nat; 8%nat; 15%nat].
Proof.
  intros Ha.
  destruct (offset_components a Ha) as (Hh & Hm & Hs & Hu & _).
  unfold format_offset_digits.
  destruct (a mod 60000000 / 1000000 =? 0) eqn:Es;
    destruct (a mod 1000000 =? 0) eqn:Eu; cbn [andb].
  - apply Z.eqb_eq in Es, Eu. rewrite Es, Eu. split.
    + apply parse_hh_mm_ss_ff_short; assumption.
    + rewrite !length_app, !length_zero_padded. simpl. tauto.
  - split.
    + rewrite <- (parse_hh_mm_ss_ff_full _ _ _ _ Hh Hm Hs Hu).
      rewrite Eu. reflexivity.
    + rewrite !length_app, !length_zero_padded. simpl. tauto.
  - split.
    + rewrite <- (parse_hh_mm_ss_ff_full _ _ _ _ Hh Hm Hs Hu).
      rewrite Eu. reflexivity.
    + rewrite !length_app, !length_zero_padded. simpl. tauto.
  - split.
    + rewrite <- (parse_hh_mm_ss_ff_full _ _ _ _ Hh Hm Hs Hu).
      rewrite Eu. reflexivity.
    + rewrite !length_app, !length_zero_padded. simpl. tauto.
Qed.

(** *** Where the offset starts *)

Lemma find_sign_absent (l : list ascii) :
  Forall (fun a => is_sign a = false) l -> find_sign l = None.
Proof.
  induction 1 as [| a l Ha _ IH]; simpl.
  - reflexivity.
  - rewrite Ha, IH. reflexivity.
Qed.

Lemma find_sign_first (c : ascii) (l1 l2 : list ascii) :
  is_sign c = true ->
  Forall (fun a => is_sign a = false) l1 ->
  find_sign (l1 ++ c :: l2) = Some (length l1).
Proof.
  intros Hc. induction 1 as [| a l Ha _ IH]; simpl.
  - rewrite Hc. reflexivity.
  - rewrite Ha, IH. reflexivity.
Qed.

Lemma no_sign_chars_in (l : list ascii) :
  Forall (fun a => ascii_eqb a dash = false) l ->
  Forall (fun a => ascii_eqb a plus = false) l ->
  Forall (fun a => is_sign a = false) l.
Proof.
  intros Hd Hp. rewrite List.Forall_forall in *.
  intros a Ha. unfold is_sign. rewrite (Hd a Ha), (Hp a Ha). reflexivity.
Qed.

Lemma zero_padded_no_punct (c : ascii) (w : nat) : forall n,
  In c [dash; plus; colon; dot] ->
  Forall (fun a => ascii_eqb a c = false) (zero_padded w n).
Proof.
  induction w as [| w IH]; intros n Hc; simpl.
  - constructor.
  - apply Forall_app. split; [apply IH; assumption |].
    constructor; [| constructor].
    apply digit_not_punct; [| assumption].
    apply Z.mod_pos_bound. lia.
Qed.

Ltac no_sign_chars :=
  repeat first
    [ apply List.Forall_nil
    | apply zero_padded_no_punct; assumption
    | apply List.Forall_cons; [cbv beta; assumption |]
    | apply Forall_app_2
    | match goal with
      | |- context [if ?b then _ else _] => destruct b
      end ].

Lemma format_time_no_sign (c : ascii) (hh mm ss us : Z) :
  In c [dash; plus] ->
  Forall (fun a => ascii_eqb a c = false) (format_time hh mm ss us).
Proof.
  intros Hc.
  assert (Hp : In c [dash; plus; colon; dot]) by (simpl in *; tauto).
  assert (Hcolon : ascii_eqb colon c = false)
    by (destruct Hc as [<- | [<- | []]]; reflexivity).
  assert (Hdot : ascii_eqb dot c = false)
    by (destruct Hc as [<- | [<- | []]]; reflexivity).
  unfold format_time. no_sign_chars.
Qed.

Lemma format_offset_digits_no_sign (c : ascii) (a : Z) :
  In c [dash; plus] ->
  Forall (fun b => ascii_eqb b c = false) (format_offset_digits a).
Proof.
  intros Hc.
  assert (Hp : In c [dash; plus; colon; dot]) by (simpl in *; tauto).
  assert (Hcolon : ascii_eqb colon c = false)
    by (destruct Hc as [<- | [<- | []]]; reflexivity).
  assert (Hdot : ascii_eqb dot c = false)
    by (destruct Hc as [<- | [<- | []]]; reflexivity).
  unfold format_offset_digits. no_sign_chars.
Qed.

Lemma length_format_time (hh mm ss us : Z) :
  (8 <= length (format_time hh mm ss us))%nat.
Proof.
  unfold format_time. rewrite !length_app, !length_zero_padded. simpl. lia.
Qed.

Lemma split_at_sign (time digits : list ascii) (c : ascii) :
  firstn (length time) (time ++ c :: digits) = time /\
  skipn (S (length time)) (time ++ c :: digits) = digits /\
  nth_error (time ++ c :: digits) (length time) = Some c.
Proof.
  split; [| split].
  - apply take_app_length.
  - change (time ++ c :: digits)%list with (time ++ [c] ++ digits)%list.
    rewrite app_assoc.
    replace (S (length time)) with (length (time ++ [c])%list)
      by (rewrite length_app; simpl; lia).
    apply drop_app_length.
  - rewrite nth_error_app2 by lia. rewrite Nat.sub_diag. reflexivity.
Qed.

(** An offset in the two parts in which [parse_isoformat_time] hands it
    back. *)
Lemma offset_parts (off : Z) :
  (Z.quot off 1000000) * 1000000 + Z.rem off 1000000 = off /\
  (Z.quot off 1000000 = 0 <-> Z.abs off < 1000000).
Proof.
  pose proof (Z.quot_rem' off 1000000) as H.
  pose proof (Z.rem_bound_abs off 1000000 ltac:(lia)) as Hr.
  split; [lia |]. split; intros Hq.
  - rewrite Hq in H. lia.
  - apply Z.quot_small_iff; [lia |]. lia.
Qed.

(** The time of day and the offset, read back from what [isoformat]
    printed after the date. *)
Lemma parse_isoformat_time_format (hh mm ss us : Z) (o : option Z) :
  0 <= hh < 100 -> 0 <= mm < 100 -> 0 <= ss < 100 -> 0 <= us < 1000000 ->
  valid_offset o = true ->
  parse_isoformat_time (format_time hh mm ss us ++ format_offset o)
  = Some (hh, mm, ss, us,
          option_map
            (fun off => (Z.quot off 1000000, Z.rem off 1000000)) o).
Proof.
  intros Hh Hm Hs Hu Ho.
  pose proof (length_format_time hh mm ss us) as Hlen.
  pose proof (format_time_no_sign dash hh mm ss us ltac:(simpl; tauto)) as Hd.
  pose proof (format_time_no_sign plus hh mm ss us ltac:(simpl; tauto)) as Hp.
  pose proof (no_sign_chars_in _ Hd Hp) as Hnone.
  pose proof (parse_format_time hh mm ss us Hh Hm Hs Hu) as Htime.
  unfold parse_isoformat_time.
  replace (length (format_time hh mm ss us ++ format_offset o) <? 2)%nat
    with false
    by (symmetry; apply Nat.ltb_ge; rewrite length_app; lia).
  destruct o as [off |]; simpl format_offset.
  - simpl in Ho. apply andb_prop in Ho as [Hlo Hhi].
    apply Z.ltb_lt in Hlo, Hhi.
    assert (Ha : 0 <= Z.abs off < 86400000000) by lia.
    destruct (parse_format_offset_digits _ Ha) as [Hdigits Hlen'].
    destruct (offset_components _ Ha) as (_ & _ & _ & _ & Hsum).
    set (time := format_time hh mm ss us) in *.
    set (digits := format_offset_digits (Z.abs off)) in *.
    assert (Hn : ((length digits =? 5)%nat || (length digits =? 8)%nat
                  || (length digits =? 15)%nat) = true).
    { destruct Hlen' as [<- | [<- | [<- | []]]]; reflexivity. }
    assert (Hwhole :
              Z.abs off / 3600000000 * 3600 +
              Z.abs off mod 3600000000 / 60000000 * 60 +
              Z.abs off mod 60000000 / 1000000 = Z.abs off / 1000000).
    { Z.div_mod_to_equations. lia. }
    cbn [option_map].
    destruct (off <? 0) eqn:Esign.
    + destruct (split_at_sign time digits dash) as (Hf & Hk & Hnth).
      rewrite (find_sign_first dash time digits eq_refl Hnone).
      rewrite Hf, Hk, Hnth, Htime, Hn, Hdigits.
      change (ascii_eqb dash dash) with true. cbv iota.
      apply Z.ltb_lt in Esign. rewrite Hwhole.
      replace off with (- Z.abs off) at 3 4 by lia.
      rewrite Z.quot_opp_l, Z.rem_opp_l by lia.
      rewrite Z.quot_div_nonneg, Z.rem_mod_nonneg by lia.
      do 4 f_equal; lia.
    + destruct (split_at_sign time digits plus) as (Hf & Hk & Hnth).
      rewrite (find_sign_first plus time digits eq_refl Hnone).
      rewrite Hf, Hk, Hnth, Htime, Hn, Hdigits.
      change (ascii_eqb plus dash) with false. cbv iota.
      apply Z.ltb_ge in Esign. rewrite Hwhole.
      replace (Z.abs off) with off by lia.
      rewrite Z.quot_div_nonneg, Z.rem_mod_nonneg by lia.
      do 4 f_equal; lia.
  - rewrite app_nil_r.
    rewrite (find_sign_absent _ Hnone).
    rewrite Htime. reflexivity.
Qed.

Lemma list_ascii_round_trip (l : list ascii) :
  list_ascii_of_string (string_of_list_ascii l) = l.
Proof. apply list_ascii_of_string_of_list_ascii. Qed.

(** What the two parsers read in a string that [isoformat] printed: every
    field of the datetime, the offset in its two parts. *)
Lemma parse_isoformat_isoformat (d : datetime) :
  valid d = true ->
  parse_isoformat (isoformat d) =
    Some (year d, month d, day d,
          (hour d, minute d, second d, microsecond d,
           option_map
             (fun off => (Z.quot off 1000000, Z.rem off 1000000))
             (utcoffset d))).
Proof.
  intros Hv.
  unfold valid, in_range in Hv.
  repeat match goal with
         | H : _ && _ = true |- _ => apply andb_prop in H as [? ?]
         end.
  repeat match goal with
         | H : (_ <=? _) = true |- _ => apply Z.leb_le in H
         end.
  unfold parse_isoformat, isoformat. rewrite list_ascii_round_trip.
  pose proof (length_format_time (hour d) (minute d) (second d)
                (microsecond d)) as Hlen.
  replace (length (isoformat_chars d) <=? 10)%nat with false.
  2:{ symmetry. apply Nat.leb_gt. unfold isoformat_chars.
      rewrite !length_app, !length_zero_padded. simpl. lia. }
  unfold isoformat_chars.
  rewrite zero_padded_4, !zero_padded_2. cbn [app firstn skipn].
  rewrite !drop_0. unfold parse_isoformat_date.
  change (ascii_eqb dash dash) with true. cbn [andb].
  assert (Hday : day d <= 31).
  { unfold days_in_month in *.
    repeat match goal with
           | H : context [if ?b then _ else _] |- _ => destruct b
           end; lia. }
  rewrite parse_int_4 by lia. rewrite !parse_int_2 by lia.
  rewrite parse_isoformat_time_format by (assumption || lia).
  reflexivity.
Qed.

(** [isoformat] prints two datetimes alike only when they are the same
    datetime. *)
Lemma isoformat_injective (d1 d2 : datetime) :
  valid d1 = true -> valid d2 = true ->
  isoformat d1 = isoformat d2 -> d1 = d2.
Proof.
  intros H1 H2 E.
  pose proof (parse_isoformat_isoformat d1 H1) as P1.
  pose proof (parse_isoformat_isoformat d2 H2) as P2.
  rewrite E, P2 in P1. clear E P2.
  destruct d1 as [y1 m1 a1 h1 n1 s1 u1 o1], d2 as [y2 m2 a2 h2 n2 s2 u2 o2].
  cbn [year month day hour minute second microsecond utcoffset] in P1.
  injection P1 as -> -> -> -> -> -> -> Ho.
  f_equal.
  destruct o1 as [off1 |], o2 as [off2 |]; try discriminate Ho;
    [| reflexivity].
  cbn [option_map] in Ho. injection Ho as Hq Hr.
  f_equal.
  rewrite <- (proj1 (offset_parts off1)), <- (proj1 (offset_parts off2)).
  rewrite Hq, Hr. reflexivity.
Qed.

Lemma valid_read_back (y m a h n s u : Z) (o : option Z) :
  valid (mk_datetime y m a h n s u o) = true ->
  valid (mk_datetime y m a h n s u (offset_read_back o)) = true.
Proof.
  unfold valid.
  cbn [year month day hour minute second microsecond utcoffset].
  destruct o as [off |]; [| trivial]. cbn [offset_read_back].
  destruct (Z.abs off <? 1000000); [| trivial].
  intros H. apply andb_prop in H as [H _]. rewrite H. reflexivity.
Qed.

(** [datetime.fromisoformat(d.isoformat())] shows the wall clock of [d]
    at the offset of [d], unless that offset is of less than a second,
    which is read back as UTC. *)
Lemma fromisoformat_isoformat_reads (d : datetime) :
  valid d = true ->
  fromisoformat (isoformat d) =
    Some (mk_datetime (year d) (month d) (day d) (hour d) (minute d)
            (second d) (microsecond d) (offset_read_back (utcoffset d))).
Proof.
  intros Hv. unfold fromisoformat.
  rewrite (parse_isoformat_isoformat d Hv).
  assert (Hoff : tzinfo_from_isoformat_results
                   (option_map
                      (fun off => (Z.quot off 1000000, Z.rem off 1000000))
                      (utcoffset d))
                 = offset_read_back (utcoffset d)).
  { destruct (utcoffset d) as [off |]; [| reflexivity].
    cbn [option_map tzinfo_from_isoformat_results offset_read_back].
    destruct (offset_parts off) as [Hsum Hzero].
    destruct (Z.quot off 1000000 =? 0) eqn:Eq.
    - apply Z.eqb_eq in Eq. apply Hzero in Eq.
      apply Z.ltb_lt in Eq. rewrite Eq. reflexivity.
    - apply Z.eqb_neq in Eq.
      destruct (Z.abs off <? 1000000) eqn:Ea.
      + apply Z.ltb_lt in Ea. apply Hzero in Ea. contradiction.
      + rewrite Hsum. reflexivity. }
  rewrite Hoff.
  destruct d as [y m a h n s u o].
  cbn [year month day hour minute second microsecond utcoffset].
  rewrite (valid_read_back _ _ _ _ _ _ _ _ Hv). reflexivity.
Qed.

(** [datetime.fromisoformat(d.isoformat())] is [d] again, the same wall
    clock at the same offset, when the offset of [d] is none, zero or of a
    second or more. *)
Lemma fromisoformat_isoformat (d : datetime) :
  valid d = true -> offset_survives (utcoffset d) = true ->
  fromisoformat (isoformat d) = Some d.
Proof.
  intros Hv Hs. rewrite (fromisoformat_isoformat_reads d Hv).
  destruct d as [y m a h n s u o].
  cbn [year month day hour minute second microsecond utcoffset] in *.
  do 2 f_equal.
  destruct o as [off |]; [| reflexivity].
  cbn [offset_survives offset_read_back] in *.
  apply orb_prop in Hs as [Hs | Hs].
  - apply Z.eqb_eq in Hs. subst off. reflexivity.
  - apply Z.leb_le in Hs.
    destruct (Z.abs off <? 1000000) eqn:Ea; [| reflexivity].
    apply Z.ltb_lt in Ea. lia.
Qed.

End DatetimeFacts.

(* ===================================================================== *)
(** ** The serialization contract *)
(* ===================================================================== *)

Module ModelsFacts.
Import Py Models.

(** [deserialize] on a mapping that holds every key, with timestamps that
    parse: every attribute is overwritten. *)
Lemma deserialize_complete (m : gmap string value) (self : FireIncident)
    (v1 v2 v3 v4 v7 v8 v9 v10 v11 v12 v13 v14 v15 v16 : value)
    (s5 s6 : string) (d5 d6 : Datetime.datetime) :
  m !! "object_id" = Some v1 ->
  m !! "x" = Some v2 ->
  m !! "y" = Some v3 ->
  m !! "incident_size" = Some v4 ->
  m !! "containment_datetime" = Some (VStr s5) ->
  Datetime.fromisoformat s5 = Some d5 ->
  m !! "fire_discovery_datetime" = Some (VStr s6) ->
  Datetime.fromisoformat s6 = Some d6 ->
  m !! "incident_name" = Some v7 ->
  m !! "incident_type_category" = Some v8 ->
  m !! "initial_latitude" = Some v9 ->
  m !! "initial_longitude" = Some v10 ->
  m !! "poo_city" = Some v11 ->
  m !! "poo_county" = Some v12 ->
  m !! "poo_state" = Some v13 ->
  m !! "fire_cause_id" = Some v14 ->
  m !! "poo_landowner_category" = Some v15 ->
  m !! "unique_fire_identifier" = Some v16 ->
  deserialize (VDict m) self =
    (mk_FireIncident v1 v2 v3 v4 (VDatetime d5) (VDatetime d6) v7 v8 v9 v10
       v11 v12 v13 v14 v15 v16, Ok tt).
Proof.
  intros H1 H2 H3 H4 H5 P5 H6 P6 H7 H8 H9 H10 H11 H12 H13 H14 H15 H16.
  unfold deserialize, try_except, deserialize_fields, seq, bind, assign,
    getitem.
  rewrite H1, H2, H3, H4, H5, H6, H7, H8, H9, H10, H11, H12, H13, H14, H15,
    H16.
  simpl. rewrite P5, P6. reflexivity.
Qed.

(** The mapping [serialize] builds, looked up at each of its keys. *)
Lemma serialized_lookups (v1 v2 v3 v4 v5 v6 v7 v8 v9 v10 v11 v12 v13 v14 v15 v16 : value) :
  let m : gmap string value := list_to_map [
    ("object_id", v1); ("x", v2); ("y", v3); ("incident_size", v4);
    ("containment_datetime", v5); ("fire_discovery_datetime", v6);
    ("incident_name", v7); ("incident_type_category", v8);
    ("initial_latitude", v9); ("initial_longitude", v10);
    ("poo_city", v11); ("poo_county", v12); ("poo_state", v13);
    ("fire_cause_id", v14); ("poo_landowner_category", v15);
    ("unique_fire_identifier", v16)] in
  m !! "object_id" = Some v1 /\
  m !! "x" = Some v2 /\
  m !! "y" = Some v3 /\
  m !! "incident_size" = Some v4 /\
  m !! "containment_datetime" = Some v5 /\
  m !! "fire_discovery_datetime" = Some v6 /\
  m !! "incident_name" = Some v7 /\
  m !! "incident_type_category" = Some v8 /\
  m !! "initial_latitude" = Some v9 /\
  m !! "initial_longitude" = Some v10 /\
  m !! "poo_city" = Some v11 /\
  m !! "poo_county" = Some v12 /\
  m !! "poo_state" = Some v13 /\
  m !! "fire_cause_id" = Some v14 /\
  m !! "poo_landowner_category" = Some v15 /\
  m !! "unique_fire_identifier" = Some v16.
Proof.
  intros m. subst m. repeat split; vm_compute; reflexivity.
Qed.

(** What [deserialize] makes of the serialization of a fully populated
    record: the record itself, but for the offsets of its timestamps,
    which come back as [fromisoformat] reads them. *)
Lemma deserialize_serialized (record self : FireIncident) :
  fully_populated record = true ->
  exists mapping,
    serialize record = Ok mapping /\
    deserialize mapping self =
      (set_containment_datetime
         (timestamp_read_back (containment_datetime record))
         (set_fire_discovery_datetime
            (timestamp_read_back (fire_discovery_datetime record)) record),
       Ok tt).
Proof.
  intros Hp. destruct record as [v1 v2 v3 v4 v5 v6 v7 v8 v9 v10 v11 v12 v13 v14 v15 v16].
  unfold fully_populated in Hp. simpl in Hp.
  apply andb_prop in Hp as [H5 H6].
  destruct v5 as [| | | | | | | d5]; try discriminate H5.
  destruct v6 as [| | | | | | | d6]; try discriminate H6.
  simpl in H5, H6.
  eexists. split; [reflexivity |].
  pose proof (serialized_lookups v1 v2 v3 v4 (VStr (Datetime.isoformat d5))
                (VStr (Datetime.isoformat d6)) v7 v8 v9 v10 v11 v12 v13
                v14 v15 v16) as L.
  cbv zeta in L.
  destruct L as (L1 & L2 & L3 & L4 & L5 & L6 & L7 & L8 & L9 & L10 & L11 &
                 L12 & L13 & L14 & L15 & L16).
  cbn [set_containment_datetime set_fire_discovery_datetime
       timestamp_read_back containment_datetime fire_discovery_datetime
       object_id x y incident_size incident_name incident_type_category
       initial_latitude initial_longitude poo_city poo_county poo_state
       fire_cause_id poo_landowner_category unique_fire_identifier].
  eapply deserialize_complete; try eassumption;
    apply DatetimeFacts.fromisoformat_isoformat_reads; assumption.
Qed.

Lemma timestamp_read_back_survivor (v : value) :
  Models.offset_survives v = true -> timestamp_read_back v = v.
Proof.
  destruct v as [| | | | | | | d]; try reflexivity.
  destruct d as [y m a h n s u [off |]]; [| reflexivity].
  unfold Models.offset_survives, timestamp_read_back.
  cbn [Datetime.utcoffset Datetime.offset_survives Datetime.offset_read_back
       Datetime.year Datetime.month Datetime.day Datetime.hour
       Datetime.minute Datetime.second Datetime.microsecond].
  intros Hs. apply orb_prop in Hs as [Hs | Hs].
  - apply Z.eqb_eq in Hs. subst off. reflexivity.
  - apply Z.leb_le in Hs.
    destruct (Z.abs off <? 1000000) eqn:Ea; [| reflexivity].
    apply Z.ltb_lt in Ea. lia.
Qed.

(** C1, amended.  For every fully populated record whose two timestamps
    are at an offset that is absent, zero, or of a second or more in
    either direction, [deserialize] applied to the mapping that
    [serialize] produced gives back a record with exactly the same
    attribute values, the two timestamps included: the same wall clock at
    the same offset.  This holds whatever the object that [deserialize]
    fills in held before. *)
Theorem serialize_deserialize_round_trip (record self : FireIncident) :
  fully_populated record = true ->
  Models.offset_survives (containment_datetime record) = true ->
  Models.offset_survives (fire_discovery_datetime record) = true ->
  exists mapping,
    serialize record = Ok mapping /\
    deserialize mapping self = (record, Ok tt).
Proof.
  intros Hp H5 H6.
  destruct (deserialize_serialized record self Hp) as (mapping & Hs & Hd).
  exists mapping. split; [exact Hs |].
  rewrite Hd, (timestamp_read_back_survivor _ H5),
    (timestamp_read_back_survivor _ H6).
  destruct record; reflexivity.
Qed.

Lemma serialize_deserialize_round_trip_witness :
  fully_populated (Scenario.example_record (VInt 300000)) = true /\
  exists mapping,
    serialize (Scenario.example_record (VInt 300000)) = Ok mapping /\
    deserialize mapping new_FireIncident =
      (Scenario.example_record (VInt 300000), Ok tt).
Proof.
  split; [reflexivity |].
  apply (serialize_deserialize_round_trip
           (Scenario.example_record (VInt 300000)) new_FireIncident);
    reflexivity.
Defined.

(** C1 as stated fails: a fully populated record whose containment
    timestamp is at an offset of one microsecond is serialized with that
    offset, and [deserialize] gives back a record whose containment
    timestamp is at UTC. *)
Lemma round_trip_loses_an_offset_below_a_second :
  fully_populated Scenario.record_off_by_a_microsecond = true /\
  exists mapping record,
    serialize Scenario.record_off_by_a_microsecond = Ok mapping /\
    getitem mapping "containment_datetime" =
      Ok (VStr "2020-01-01T00:00:00+00:00:00.000001") /\
    deserialize mapping new_FireIncident = (record, Ok tt) /\
    containment_datetime record = VDatetime Scenario.midnight_2020 /\
    record <> Scenario.record_off_by_a_microsecond.
Proof.
  split; [reflexivity |].
  destruct (deserialize_serialized Scenario.record_off_by_a_microsecond
              new_FireIncident eq_refl) as (mapping & Hs & Hd).
  eexists mapping, _. split; [exact Hs |].
  split; [| split; [exact Hd | split; [reflexivity |]]].
  - injection Hs as <-. vm_compute. reflexivity.
  - intros E. apply (f_equal containment_datetime) in E. discriminate E.
Qed.

(** *** Missing keys *)

Example mentions_missing_key :
  mentions "Invalid FireIncident: missing object_id" "object_id" = true /\
  mentions "Invalid FireIncident: missing object_id" "x" = false.
Proof. split; reflexivity. Qed.

(** [test_deserialize_missing_data]. *)
Example deserialize_missing_data :
  deserialize (VDict Scenario.mapping_missing_data) new_FireIncident =
    (new_FireIncident,
     Raise (DataValidationError "Invalid FireIncident: missing object_id")).
Proof. vm_compute. reflexivity. Qed.

(** Splits the hypothesis that the keys before the missing one were read,
    and names what the mapping holds at each of them. *)
Ltac read_keys H :=
  cbn [take forallb required_keys] in H;
  repeat match type of H with
         | _ && _ = true =>
             let H1 := fresh "Hread" in
             apply andb_prop in H as [H1 H];
             unfold reads in H1
         end;
  clear H;
  repeat match goal with
         | H1 : match ?m !! ?k with _ => _ end = true |- _ =>
             let E := fresh "E" in
             destruct (m !! k) eqn:E; [| discriminate H1];
             cbn in H1
         end;
  repeat match goal with
         | H1 : match datetime_fromisoformat ?v with _ => _ end = true |- _ =>
             let E := fresh "P" in
             destruct (datetime_fromisoformat v) eqn:E; [| discriminate H1]
         end.

Ltac run_deserialize :=
  unfold deserialize, try_except, deserialize_fields, seq, bind, assign,
    getitem;
  repeat match goal with
         | E : ?m !! ?k = _ |- context [?m !! ?k] => rewrite E
         end;
  cbn [rbind];
  repeat match goal with
         | E : datetime_fromisoformat ?v = _ |- context [datetime_fromisoformat ?v] =>
             rewrite E
         end;
  cbn [rbind snd deserialize_handler].

(** C2, as the code has it.  When [key] is the first key, in the order
    [deserialize] reads them, that the mapping lacks, and the timestamps
    read before it are ISO-8601 strings that parse, [deserialize] raises
    [DataValidationError] with a message that ends in [key]. *)
Theorem deserialize_first_missing_key (m : gmap string value)
    (self : FireIncident) (i : nat) (key : string) :
  required_keys !! i = Some key ->
  forallb (reads m) (take i required_keys) = true ->
  m !! key = None ->
  snd (deserialize (VDict m) self) =
    Raise (DataValidationError ("Invalid FireIncident: missing " +:+ key)).
Proof.
  intros Hi Hread Hkey.
  do 16 (destruct i as [| i];
         [ injection Hi as <-; read_keys Hread; run_deserialize; reflexivity
         | ]).
  discriminate Hi.
Qed.

Lemma deserialize_first_missing_key_witness :
  required_keys !! 6%nat = Some "incident_name" /\
  forallb (reads Scenario.mapping_without_incident_name)
    (take 6 required_keys) = true /\
  Scenario.mapping_without_incident_name !! "incident_name" = None /\
  snd (deserialize (VDict Scenario.mapping_without_incident_name)
         new_FireIncident) =
    Raise (DataValidationError "Invalid FireIncident: missing incident_name").
Proof.
  split; [reflexivity |].
  split; [vm_compute; reflexivity |].
  split; [vm_compute; reflexivity |].
  apply (deserialize_first_missing_key
           Scenario.mapping_without_incident_name new_FireIncident 6
           "incident_name");
    vm_compute; reflexivity.
Defined.

(** C2 does not hold as stated.  A mapping that lacks only
    [incident_name] but holds a number as containment timestamp is
    rejected with a message about bad data that does not mention
    [incident_name]; and the mapping of [test_deserialize_missing_data],
    which lacks [unique_fire_identifier] among others, is rejected with a
    message that names [object_id] only. *)
Lemma deserialize_missing_key_not_named :
  (Scenario.mapping_with_numeric_timestamp !! "incident_name" = None /\
   exists msg,
     snd (deserialize (VDict Scenario.mapping_with_numeric_timestamp)
            new_FireIncident) = Raise (DataValidationError msg) /\
     mentions msg "incident_name" = false) /\
  (Scenario.mapping_missing_data !! "unique_fire_identifier" = None /\
   exists msg,
     snd (deserialize (VDict Scenario.mapping_missing_data)
            new_FireIncident) = Raise (DataValidationError msg) /\
     mentions msg "unique_fire_identifier" = false).
Proof.
  split; (split; [vm_compute; reflexivity |]);
    eexists; (split; [vm_compute; reflexivity |]); vm_compute; reflexivity.
Qed.

(** *** Timestamps that do not parse *)

(** C3 fails on the code.  When [deserialize] reaches a timestamp key
    whose value is a string that [fromisoformat] rejects, the [ValueError]
    leaves [deserialize] as it is: the [except] clauses catch [KeyError]
    and [TypeError] only, and no [DataValidationError] is raised. *)
Theorem deserialize_unparseable_timestamp (m : gmap string value)
    (self : FireIncident) (i : nat) (key s : string) :
  required_keys !! i = Some key ->
  is_timestamp_key key = true ->
  forallb (reads m) (take i required_keys) = true ->
  m !! key = Some (VStr s) ->
  Datetime.fromisoformat s = None ->
  snd (deserialize (VDict m) self) =
    Raise (ValueError ("Invalid isoformat string: '" +:+ s +:+ "'")).
Proof.
  intros Hi Hts Hread Hkey Hparse.
  assert (Hfrom : datetime_fromisoformat (VStr s) =
                  Raise (ValueError ("Invalid isoformat string: '" +:+ s +:+ "'")))
    by (simpl; rewrite Hparse; reflexivity).
  do 16 (destruct i as [| i];
         [ injection Hi as <-; try discriminate Hts;
           read_keys Hread; run_deserialize; reflexivity
         | ]).
  discriminate Hi.
Qed.

Lemma deserialize_unparseable_timestamp_witness :
  required_keys !! 4%nat = Some "containment_datetime" /\
  is_timestamp_key "containment_datetime" = true /\
  forallb (reads Scenario.mapping_with_bad_timestamp)
    (take 4 required_keys) = true /\
  Scenario.mapping_with_bad_timestamp !! "containment_datetime" =
    Some (VStr "not a date") /\
  Datetime.fromisoformat "not a date" = None /\
  snd (deserialize (VDict Scenario.mapping_with_bad_timestamp)
         new_FireIncident) =
    Raise (ValueError "Invalid isoformat string: 'not a date'").
Proof.
  do 5 (split; [vm_compute; reflexivity |]).
  apply (deserialize_unparseable_timestamp
           Scenario.mapping_with_bad_timestamp new_FireIncident 4
           "containment_datetime" "not a date");
    vm_compute; reflexivity.
Defined.

(** *** Input that is not a mapping *)

(** C4.  For every input that is not a mapping (a string, a number, a
    list, [None], ...), [deserialize] raises [DataValidationError]; no
    attribute of the object has been assigned by then. *)
Theorem deserialize_non_mapping (data : value) (self : FireIncident) :
  is_mapping data = false ->
  exists msg, deserialize data self = (self, Raise (DataValidationError msg)).
Proof.
  intros Hd. destruct data; try discriminate Hd; eexists; reflexivity.
Qed.

Lemma deserialize_non_mapping_witness :
  is_mapping (VStr "this is not a dictionary") = false /\
  exists msg,
    deserialize (VStr "this is not a dictionary") new_FireIncident =
      (new_FireIncident, Raise (DataValidationError msg)).
Proof.
  split; [reflexivity |].
  apply (deserialize_non_mapping (VStr "this is not a dictionary")
           new_FireIncident).
  reflexivity.
Defined.

(** *** The outcome depends on the input only *)

(** Whether [deserialize] returns or raises, and what it raises, is
    decided by [data] alone, not by the object it fills in. *)
Lemma deserialize_outcome_independent (data : value)
    (self1 self2 : FireIncident) :
  snd (deserialize data self1) = snd (deserialize data self2).
Proof.
  unfold deserialize, try_except, deserialize_fields, seq, bind, assign.
  repeat (match goal with
          | |- context [getitem data ?k] =>
              destruct (getitem data k) as [? | ?]
          end;
          cbv beta iota delta [rbind];
          try match goal with
              | |- context [datetime_fromisoformat ?v] =>
                  destruct (datetime_fromisoformat v) as [? | ?]
              end;
          cbv beta iota; try reflexivity).
Qed.

(** Once [data] holds [object_id], the object carries that value after
    [deserialize], whether the call returns or raises. *)
Lemma deserialize_first_assignment (data : value) (self : FireIncident)
    (v : value) :
  getitem data "object_id" = Ok v ->
  object_id (fst (deserialize data self)) = v.
Proof.
  intros Hv.
  unfold deserialize, try_except, deserialize_fields, seq, bind, assign.
  rewrite Hv. cbv beta iota delta [rbind].
  repeat (match goal with
          | |- context [getitem data ?k] =>
              destruct (getitem data k) as [? | ?]
          end;
          cbv beta iota delta [rbind];
          try match goal with
              | |- context [datetime_fromisoformat ?v] =>
                  destruct (datetime_fromisoformat v) as [? | ?]
              end;
          cbv beta iota; try reflexivity).
Qed.

End ModelsFacts.

(* ===================================================================== *)
(** ** The handlers *)
(* ===================================================================== *)

Module RoutesFacts.
Import Py Models Routes.

Lemma has_pk_object_id (id : Z) (r : FireIncident) :
  has_pk id r = true -> object_id r = VInt id.
Proof.
  unfold has_pk. destruct (object_id r); try discriminate.
  intros H. apply Z.eqb_eq in H. subst. reflexivity.
Qed.

Lemma find_object_id (id : Z) (db : Database) (r : FireIncident) :
  find id db = Some r -> object_id r = VInt id /\ In r (rows db).
Proof.
  unfold find. intros H. apply find_some in H as [Hin Hpk].
  split; [apply has_pk_object_id; assumption | assumption].
Qed.

(** *** Listing *)

Lemma column_equals_spec (v : value) (s : string) :
  column_equals v s = true <-> v = VStr s.
Proof.
  unfold column_equals. destruct v; split; intros H; try discriminate H.
  - apply String.eqb_eq in H. subst. reflexivity.
  - injection H as ->. apply String.eqb_refl.
Qed.

Lemma str_truthy_nonempty (s : string) :
  s <> EmptyString -> str_truthy s = true.
Proof. destruct s; [congruence | reflexivity]. Qed.

(** C6, as the code has it.  For every table and every non-empty value
    [V], [GET /fires?poo_county=V] selects exactly the rows whose
    [poo_county] is the string [V], compared exactly, in the order of the
    table: none when no row matches; and the response is the list of their
    serializations with status 200. *)
Theorem list_filters_by_poo_county (request : Request) (db : Database)
    (V : string) :
  args_get "poo_county" (args request) = Some V ->
  V <> EmptyString ->
  selected_fire_incidents request db = find_by_poo_county V db /\
  (forall r, In r (selected_fire_incidents request db) <->
             In r (rows db) /\ poo_county r = VStr V) /\
  ((forall r, In r (rows db) -> poo_county r <> VStr V) ->
   selected_fire_incidents request db = []) /\
  (forall results,
     serialize_all (selected_fire_incidents request db) = Ok results ->
     list_fire_incidents request db =
       (db, Ok (jsonify (VList results) HTTP_200_OK))).
Proof.
  intros Hget Hne.
  assert (Hsel : selected_fire_incidents request db = find_by_poo_county V db).
  { unfold selected_fire_incidents. rewrite Hget.
    rewrite (str_truthy_nonempty V Hne). reflexivity. }
  assert (Hiff : forall r, In r (selected_fire_incidents request db) <->
                           In r (rows db) /\ poo_county r = VStr V).
  { intros r. rewrite Hsel. unfold find_by_poo_county.
    rewrite filter_In, column_equals_spec. reflexivity. }
  split; [exact Hsel |]. split; [exact Hiff |]. split.
  - intros Hnone.
    destruct (selected_fire_incidents request db) as [| r l] eqn:E;
      [reflexivity |].
    exfalso. destruct (proj1 (Hiff r) (or_introl eq_refl)) as [Hin Heq].
    exact (Hnone r Hin Heq).
  - intros results Hser. unfold list_fire_incidents. rewrite Hser.
    reflexivity.
Qed.

Lemma list_filters_by_poo_county_witness :
  args_get "poo_county" (args (Scenario.filter_request "Los Angeles")) =
    Some "Los Angeles" /\
  "Los Angeles" <> EmptyString /\
  selected_fire_incidents (Scenario.filter_request "Los Angeles")
    Scenario.one_row_db = [Scenario.example_record (VInt 1)] /\
  selected_fire_incidents (Scenario.filter_request "los angeles")
    Scenario.one_row_db = [].
Proof.
  split; [reflexivity |]. split; [discriminate |].
  split.
  - rewrite (proj1 (list_filters_by_poo_county
                      (Scenario.filter_request "Los Angeles")
                      Scenario.one_row_db "Los Angeles" eq_refl
                      ltac:(discriminate))).
    reflexivity.
  - rewrite (proj1 (list_filters_by_poo_county
                      (Scenario.filter_request "los angeles")
                      Scenario.one_row_db "los angeles" eq_refl
                      ltac:(discriminate))).
    reflexivity.
Defined.

(** C6 does not hold for the empty value: [GET /fires?poo_county=] on a
    table whose only row has [poo_county] equal to "Los Angeles" returns
    that row, although "Los Angeles" is not the empty string. *)
Lemma list_with_empty_poo_county_returns_other_rows :
  args_get "poo_county" (args (Scenario.filter_request EmptyString)) =
    Some EmptyString /\
  selected_fire_incidents (Scenario.filter_request EmptyString)
    Scenario.one_row_db = [Scenario.example_record (VInt 1)] /\
  poo_county (Scenario.example_record (VInt 1)) <> VStr EmptyString /\
  exists message,
    serialize (Scenario.example_record (VInt 1)) = Ok message /\
    list_fire_incidents (Scenario.filter_request EmptyString)
      Scenario.one_row_db =
      (Scenario.one_row_db, Ok (jsonify (VList [message]) HTTP_200_OK)).
Proof.
  split; [reflexivity |]. split; [reflexivity |]. split; [discriminate |].
  eexists. split; reflexivity.
Qed.

Lemma serialize_all_entries (l : list FireIncident) (results : list value) :
  Forall2 (fun r v => serialize r = Ok v) l results ->
  serialize_all l = Ok results.
Proof.
  induction 1 as [| r v l results Hr _ IH]; simpl.
  - reflexivity.
  - rewrite Hr, IH. reflexivity.
Qed.

(** C10.  When the query parameter [poo_county] is present but empty,
    [GET /fires] selects every row of the table, not the rows whose
    [poo_county] is empty: the handler tests the value for truth, not for
    presence.  The response is 200 with the serialization of each row of
    the table, in the order of the table, and it is the response the same
    request gets without any query parameter. *)
Theorem list_with_empty_poo_county_lists_all (request : Request)
    (db : Database) :
  args_get "poo_county" (args request) = Some EmptyString ->
  selected_fire_incidents request db = rows db /\
  (forall results,
     Forall2 (fun r v => serialize r = Ok v) (rows db) results ->
     list_fire_incidents request db =
       (db, Ok (jsonify (VList results) HTTP_200_OK))) /\
  list_fire_incidents request db =
    list_fire_incidents (mk_Request (content_type request) [] (json request)) db.
Proof.
  intros Hget.
  assert (Hsel : selected_fire_incidents request db = rows db).
  { unfold selected_fire_incidents. rewrite Hget. reflexivity. }
  split; [exact Hsel |]. split.
  - intros results Hall. unfold list_fire_incidents.
    rewrite Hsel, (serialize_all_entries _ _ Hall). reflexivity.
  - unfold list_fire_incidents. rewrite Hsel. reflexivity.
Qed.

Lemma list_with_empty_poo_county_lists_all_witness :
  args_get "poo_county" (args (Scenario.filter_request EmptyString)) =
    Some EmptyString /\
  selected_fire_incidents (Scenario.filter_request EmptyString)
    Scenario.two_row_db =
    [Scenario.example_record (VInt 1); Scenario.other_record (VInt 2)] /\
  exists first second,
    serialize (Scenario.example_record (VInt 1)) = Ok first /\
    serialize (Scenario.other_record (VInt 2)) = Ok second /\
    list_fire_incidents (Scenario.filter_request EmptyString)
      Scenario.two_row_db =
      (Scenario.two_row_db, Ok (jsonify (VList [first; second]) HTTP_200_OK)).
Proof.
  split; [reflexivity |].
  destruct (list_with_empty_poo_county_lists_all
              (Scenario.filter_request EmptyString) Scenario.two_row_db
              eq_refl) as (Hsel & Hlist & _).
  split; [exact Hsel |].
  eexists _, _. split; [reflexivity |]. split; [reflexivity |].
  apply Hlist. repeat constructor.
Defined.

(** *** Deleting *)

Lemma find_after_delete (id : Z) (l : list FireIncident) :
  List.find (has_pk id) (List.filter (fun r => negb (has_pk id r)) l) = None.
Proof.
  induction l as [| a l IH]; simpl.
  - reflexivity.
  - destruct (has_pk id a) eqn:E; simpl; [exact IH |].
    rewrite E. exact IH.
Qed.

Lemma delete_found (id : Z) (db : Database) (r : FireIncident) :
  find id db = Some r ->
  delete r db =
    mk_Database (List.filter (fun r => negb (has_pk id r)) (rows db))
      (next_id db).
Proof.
  intros H. apply find_object_id in H as [Hid _].
  unfold delete. rewrite Hid. reflexivity.
Qed.

Lemma find_after_delete_handler (id : Z) (db : Database) :
  find id (fst (delete_fire_incidents id db)) = None.
Proof.
  unfold delete_fire_incidents. simpl.
  destruct (find id db) as [r |] eqn:E.
  - rewrite (delete_found id db r E). unfold find. simpl.
    apply find_after_delete.
  - exact E.
Qed.

(** C8.  [DELETE /fires/{object_id}] answers 204 with an empty body
    whether or not a row has that key; deleting the same key again answers
    204 too and changes nothing more; and after the delete a
    [GET /fires/{object_id}] for that key answers 404. *)
Theorem delete_is_idempotent_and_final (object_id : Z) (db : Database) :
  let after := fst (delete_fire_incidents object_id db) in
  snd (delete_fire_incidents object_id db) =
    Ok (mk_Response HTTP_204_NO_CONTENT Empty None) /\
  delete_fire_incidents object_id after =
    (after, Ok (mk_Response HTTP_204_NO_CONTENT Empty None)) /\
  find object_id after = None /\
  fst (get_fire_incidents object_id after) = after /\
  status_code (snd (respond (get_fire_incidents object_id after))) =
    HTTP_404_NOT_FOUND.
Proof.
  intros after.
  pose proof (find_after_delete_handler object_id db) as Hgone.
  fold after in Hgone.
  split; [reflexivity |]. split.
  - unfold delete_fire_incidents at 1. rewrite Hgone. reflexivity.
  - split; [exact Hgone |].
    unfold get_fire_incidents. rewrite Hgone. split; reflexivity.
Qed.

(** *** Updating *)

Lemma find_in_both (p : FireIncident -> bool) (l1 l2 : list FireIncident) :
  List.find p (l1 ++ l2) =
    match List.find p l1 with
    | Some r => Some r
    | None => List.find p l2
    end.
Proof.
  induction l1 as [| a l1 IH]; simpl; [reflexivity |].
  destruct (p a); [reflexivity | exact IH].
Qed.

Lemma find_in_versions (p : FireIncident -> bool) (self : FireIncident)
    (l : list FireIncident) :
  List.find p (map (fun _ => self) l) =
    match l with
    | [] => None
    | _ :: _ => if p self then Some self else None
    end.
Proof.
  induction l as [| a l IH]; simpl; [reflexivity |].
  destruct (p self) eqn:E; [reflexivity |].
  rewrite IH. destruct l; reflexivity.
Qed.

Lemma filter_of_found (p : FireIncident -> bool) (l : list FireIncident)
    (r : FireIncident) :
  List.find p l = Some r ->
  exists rest, List.filter p l = r :: rest.
Proof.
  induction l as [| a l IH]; simpl; [discriminate |].
  destruct (p a) eqn:E.
  - intros H. injection H as <-. eexists. reflexivity.
  - exact IH.
Qed.

Lemma has_pk_other_key (id id' : Z) (r : FireIncident) :
  id <> id' -> has_pk id r = true -> has_pk id' r = false.
Proof.
  unfold has_pk. destruct (object_id r); try discriminate.
  intros Hne H. apply Z.eqb_eq in H. subst. apply Z.eqb_neq. exact Hne.
Qed.

Lemma find_other_key_after_filter (id id' : Z) (l : list FireIncident) :
  id <> id' ->
  List.find (has_pk id') (List.filter (fun r => negb (has_pk id r)) l)
  = List.find (has_pk id') l.
Proof.
  intros Hne. induction l as [| a l IH]; simpl; [reflexivity |].
  destruct (has_pk id a) eqn:Ea; simpl.
  - rewrite (has_pk_other_key id id' a Hne Ea). exact IH.
  - destruct (has_pk id' a); [reflexivity | exact IH].
Qed.

Lemma find_absent (id : Z) (l : list FireIncident) :
  existsb (has_pk id) l = false -> List.find (has_pk id) l = None.
Proof.
  induction l as [| a l IH]; simpl; [reflexivity |].
  intros H. apply orb_false_elim in H as [Ha Hl].
  rewrite Ha. exact (IH Hl).
Qed.

(** The row that [update] wrote is found under the key the object
    carries, be it the key it was loaded under or another. *)
Lemma find_written (loaded id : Z) (self r : FireIncident)
    (l : list FireIncident) :
  has_pk id self = true ->
  List.find (has_pk loaded) l = Some r ->
  (id = loaded \/ existsb (has_pk id) l = false) ->
  List.find (has_pk id) (written_over loaded self l) = Some self.
Proof.
  intros Hself Hfind Hkey. unfold written_over.
  rewrite find_in_both, find_in_versions.
  destruct (filter_of_found _ _ _ Hfind) as [rest ->].
  rewrite Hself.
  destruct Hkey as [-> | Hfree].
  - rewrite find_after_delete. reflexivity.
  - destruct (Z.eq_dec loaded id) as [-> | Hne].
    + rewrite find_after_delete. reflexivity.
    + rewrite (find_other_key_after_filter loaded id l Hne).
      rewrite (find_absent id l Hfree). reflexivity.
Qed.

(** Under every other key the table is read as before. *)
Lemma find_beside_written (loaded other : Z) (self : FireIncident)
    (l : list FireIncident) :
  other <> loaded ->
  has_pk other self = false ->
  List.find (has_pk other) (written_over loaded self l)
  = List.find (has_pk other) l.
Proof.
  intros Hne Hself. unfold written_over.
  rewrite find_in_both, find_in_versions.
  rewrite (find_other_key_after_filter loaded other l) by congruence.
  destruct (List.find (has_pk other) l); [reflexivity |].
  rewrite Hself. destruct (List.filter (has_pk loaded) l); reflexivity.
Qed.

Lemma length_written_over (loaded : Z) (self : FireIncident)
    (l : list FireIncident) :
  length (written_over loaded self l) = length l.
Proof.
  unfold written_over. rewrite length_app, length_map.
  induction l as [| a l IH]; simpl; [reflexivity |].
  destruct (has_pk loaded a); simpl; lia.
Qed.

Lemma existsb_found (id : Z) (l : list FireIncident) :
  existsb (has_pk id) l =
    match List.find (has_pk id) l with
    | Some _ => true
    | None => false
    end.
Proof.
  induction l as [| a l IH]; simpl; [reflexivity |].
  destruct (has_pk id a); [reflexivity | exact IH].
Qed.

(** When the object carries the key it was loaded under, the keys in use
    are the same after [update]. *)
Lemma keys_in_use_written (id : Z) (self r : FireIncident)
    (l : list FireIncident) (key : Z) :
  has_pk id self = true ->
  List.find (has_pk id) l = Some r ->
  existsb (has_pk key) (written_over id self l) = existsb (has_pk key) l.
Proof.
  intros Hself Hfind. rewrite !existsb_found.
  destruct (Z.eq_dec key id) as [-> | Hne].
  - rewrite (find_written id id self r l Hself Hfind (or_introl eq_refl)).
    rewrite Hfind. reflexivity.
  - rewrite (find_beside_written id key self l Hne); [reflexivity |].
    apply (has_pk_other_key id key self); [congruence | exact Hself].
Qed.

(** The PUT handler on a request it accepts. *)
Lemma update_fire_incidents_accepted
    (engine_accepts : FireIncident -> bool) (object_id : Z)
    (request : Request) (db db' : Database) (response : Response) :
  update_fire_incidents engine_accepts object_id request db
  = (db', Ok response) ->
  exists old data r message,
    content_type request = Some "application/json" /\
    find object_id db = Some old /\
    json request = Some data /\
    deserialize data old = (r, Ok tt) /\
    engine_accepts (set_object_id (VInt object_id) r) = true /\
    serialize (set_object_id (VInt object_id) r) = Ok message /\
    response = jsonify message HTTP_200_OK /\
    db' = mk_Database
            (written_over object_id (set_object_id (VInt object_id) r)
               (rows db))
            (next_id db).
Proof.
  unfold update_fire_incidents, check_content_type, get_json, update.
  destruct (content_type request) as [ct |] eqn:Hct; [| discriminate].
  destruct (String.eqb ct "application/json") eqn:Ect; [| discriminate].
  apply String.eqb_eq in Ect. subst ct. cbv beta iota.
  destruct (find object_id db) as [old |] eqn:Hfind; [| discriminate].
  destruct (json request) as [data |] eqn:Hjson; [| discriminate].
  cbv beta iota.
  destruct (deserialize data old) as [r [[] | e]] eqn:Hd; [| discriminate].
  cbn [Models.object_id set_object_id].
  rewrite Z.eqb_refl. cbn [negb andb].
  match goal with
  | |- context [engine_accepts ?row] =>
      change row with (set_object_id (VInt object_id) r);
      destruct (engine_accepts (set_object_id (VInt object_id) r)) eqn:Hacc
  end; [| discriminate].
  destruct (serialize (set_object_id (VInt object_id) r)) as [message |] eqn:Hs;
    [| discriminate].
  intros H. injection H as <- <-.
  exists old, data, r, message. repeat split; assumption || reflexivity.
Qed.

(** C7, amended.  [PUT /fires/{object_id}] with the JSON content type
    answers 404 and writes nothing when no row has that key.  When the PUT
    is accepted, it answers 200, a row had the key of the path and,
    whatever [object_id] the body carries, the table afterwards has a row
    under the key of the path whose [object_id] is that key, and the keys
    in use are the same as before: an accepted update never changes the
    identity of a row. *)
Theorem update_keeps_identity (engine_accepts : FireIncident -> bool)
    (object_id : Z) (request : Request) (db : Database) :
  let outcome := update_fire_incidents engine_accepts object_id request db in
  (content_type request = Some "application/json" ->
   find object_id db = None ->
   fst outcome = db /\
   status_code (snd (respond outcome)) = HTTP_404_NOT_FOUND) /\
  (forall response, snd outcome = Ok response ->
     status_code response = HTTP_200_OK /\
     (exists r, find object_id db = Some r) /\
     (exists r', find object_id (fst outcome) = Some r' /\
                 Models.object_id r' = VInt object_id) /\
     (forall key, pk_in_use key (fst outcome) = pk_in_use key db)).
Proof.
  intros outcome. subst outcome. split.
  - intros Hct Hnone. unfold update_fire_incidents, check_content_type.
    rewrite Hct, Hnone. simpl. split; reflexivity.
  - intros response Hok.
    destruct (update_fire_incidents engine_accepts object_id request db)
      as [db' o] eqn:Hout.
    simpl in Hok. subst o.
    destruct (update_fire_incidents_accepted _ _ _ _ _ _ Hout)
      as (old & data & r & message & _ & Hfind & _ & _ & _ & _ & -> & ->).
    cbn [fst]. split; [reflexivity |]. split; [exists old; exact Hfind |].
    assert (Hself : has_pk object_id (set_object_id (VInt object_id) r) = true)
      by (unfold has_pk; simpl; apply Z.eqb_refl).
    split.
    + exists (set_object_id (VInt object_id) r). split; [| reflexivity].
      unfold find. cbn [rows].
      exact (find_written object_id object_id _ old (rows db) Hself Hfind
               (or_introl eq_refl)).
    + intros key. unfold pk_in_use. cbn [rows].
      exact (keys_in_use_written object_id _ old (rows db) key Hself Hfind).
Qed.

Lemma update_keeps_identity_witness :
  status_code
    (snd (respond
       (update_fire_incidents Scenario.accepts_all 7
          (Scenario.json_request
             (VDict (Scenario.example_with_object_id (VInt 999))))
          Scenario.one_row_db))) = HTTP_404_NOT_FOUND /\
  exists db' response r',
    update_fire_incidents Scenario.accepts_all 1
      (Scenario.json_request
         (VDict (Scenario.example_with_object_id (VInt 999))))
      Scenario.one_row_db = (db', Ok response) /\
    find 1 db' = Some r' /\
    Models.object_id r' = VInt 1 /\
    pk_in_use 999 db' = false.
Proof.
  split.
  - apply (proj1 (update_keeps_identity Scenario.accepts_all 7
                    (Scenario.json_request
                       (VDict (Scenario.example_with_object_id (VInt 999))))
                    Scenario.one_row_db)); reflexivity.
  - assert (Hout : exists db' response,
              update_fire_incidents Scenario.accepts_all 1
                (Scenario.json_request
                   (VDict (Scenario.example_with_object_id (VInt 999))))
                Scenario.one_row_db = (db', Ok response))
      by (eexists; eexists; vm_compute; reflexivity).
    destruct Hout as (db' & response & Hout).
    pose proof (proj2 (update_keeps_identity Scenario.accepts_all 1
                         (Scenario.json_request
                            (VDict (Scenario.example_with_object_id
                                      (VInt 999))))
                         Scenario.one_row_db)) as H.
    cbv zeta in H. rewrite Hout in H. cbn [fst snd] in H.
    destruct (H response eq_refl) as (_ & _ & (r' & Hfind & Hid) & Hkeys).
    exists db', response, r'. split; [exact Hout |].
    split; [exact Hfind |]. split; [exact Hid |].
    rewrite (Hkeys 999). reflexivity.
Defined.

(** C7 does not hold as stated: a PUT whose content type is not JSON, on
    a key that no row has, is answered 415 and not 404. *)
Lemma update_without_json_is_not_answered_404 :
  find 7 Scenario.one_row_db = None /\
  status_code
    (snd (dispatch Scenario.accepts_all PUT "/fires/7"
            (Scenario.html_request
               (VDict (Scenario.example_with_object_id (VInt 7))))
            Scenario.one_row_db))
  = HTTP_415_UNSUPPORTED_MEDIA_TYPE /\
  HTTP_415_UNSUPPORTED_MEDIA_TYPE <> HTTP_404_NOT_FOUND.
Proof.
  split; [reflexivity |].
  split; [vm_compute; reflexivity | discriminate].
Qed.

(** *** Validation comes before persistence, but not before assignment *)

(** C9 at the input where it fails.  When [deserialize] raises on the
    body of a request with the JSON content type, both handlers return
    with that exception and without having called [create] or [update]:
    the table is as it was.  The POST handler leaves nothing behind, its
    object never entered the session.  The PUT handler had [deserialize]
    assign to the row that [find] loaded: when the body holds [object_id],
    that row stays in the session with the assignments made before the
    exception, under the [object_id] of the body, and the [commit()] of a
    later request writes it: when that [object_id] is another key, which
    is free, and the engine takes the values, the row leaves the key of
    the path and is found under the key of the rejected body. *)
Theorem rejected_put_is_written_later
    (engine_accepts : FireIncident -> bool) (object_id : Z)
    (request : Request) (db : Database) (old : FireIncident)
    (data : value) (fire_incident : FireIncident) (e : exn) (v : value) :
  content_type request = Some "application/json" ->
  find object_id db = Some old ->
  json request = Some data ->
  deserialize data old = (fire_incident, Raise e) ->
  getitem data "object_id" = Ok v ->
  (create_fire_incidents engine_accepts request db = (db, Raise e) /\
   create_fire_incidents_leaves engine_accepts request db = Clean) /\
  update_fire_incidents engine_accepts object_id request db = (db, Raise e) /\
  update_fire_incidents_leaves engine_accepts object_id request db
  = Assigned object_id fire_incident /\
  Models.object_id fire_incident = v /\
  (forall key,
     v = VInt key -> key <> object_id -> pk_in_use key db = false ->
     engine_accepts fire_incident = true ->
     exists db',
       update engine_accepts object_id fire_incident db = (db', Ok tt) /\
       find object_id db' = None /\
       find key db' = Some fire_incident).
Proof.
  intros Hct Hfind Hjson Hd Hv.
  assert (Hu : check_content_type "application/json" request = Ok tt).
  { unfold check_content_type. rewrite Hct. reflexivity. }
  assert (Hnew : exists self',
            deserialize data new_FireIncident = (self', Raise e)).
  { pose proof (ModelsFacts.deserialize_outcome_independent data
                  new_FireIncident old) as Hind.
    rewrite Hd in Hind.
    destruct (deserialize data new_FireIncident) as [self' o].
    simpl in Hind. subst o. exists self'. reflexivity. }
  destruct Hnew as [self' Hnew].
  assert (Hid : Models.object_id fire_incident = v).
  { pose proof (ModelsFacts.deserialize_first_assignment data old v Hv) as H.
    rewrite Hd in H. exact H. }
  split; [split |]; [| | split; [| split; [| split; [exact Hid |]]]].
  - unfold create_fire_incidents, get_json. rewrite Hu, Hjson, Hnew.
    reflexivity.
  - unfold create_fire_incidents_leaves, get_json. rewrite Hu, Hjson, Hnew.
    reflexivity.
  - unfold update_fire_incidents, get_json. rewrite Hu, Hfind, Hjson, Hd.
    reflexivity.
  - unfold update_fire_incidents_leaves, get_json.
    rewrite Hu, Hfind, Hjson, Hd, Hv. reflexivity.
  - intros key -> Hne Hfree Hacc.
    assert (Hself : has_pk key fire_incident = true)
      by (unfold has_pk; rewrite Hid; apply Z.eqb_refl).
    unfold update. rewrite Hid, Hfree, Hacc, andb_false_r.
    eexists. split; [reflexivity |].
    unfold find. cbn [rows]. split.
    + unfold written_over. rewrite find_in_both, find_after_delete.
      rewrite find_in_versions.
      rewrite (has_pk_other_key key object_id fire_incident Hne Hself).
      destruct (List.filter (has_pk object_id) (rows db)); reflexivity.
    + apply (find_written object_id key fire_incident old (rows db) Hself
               Hfind).
      right. exact Hfree.
Qed.

Lemma rejected_put_is_written_later_witness :
  status_code
    (snd (dispatch Scenario.accepts_all PUT "/fires/1"
            (Scenario.json_request (VDict Scenario.mapping_that_stops_after_x))
            Scenario.one_row_db)) = HTTP_400_BAD_REQUEST /\
  update_fire_incidents_leaves Scenario.accepts_all 1
    (Scenario.json_request (VDict Scenario.mapping_that_stops_after_x))
    Scenario.one_row_db = Assigned 1 Scenario.half_assigned_record /\
  exists db',
    update Scenario.accepts_all 1 Scenario.half_assigned_record
      Scenario.one_row_db = (db', Ok tt) /\
    rows db' = [Scenario.half_assigned_record] /\
    find 1 db' = None /\
    find 999 db' = Some Scenario.half_assigned_record.
Proof.
  pose proof (rejected_put_is_written_later Scenario.accepts_all 1
                (Scenario.json_request
                   (VDict Scenario.mapping_that_stops_after_x))
                Scenario.one_row_db (Scenario.example_record (VInt 1))
                (VDict Scenario.mapping_that_stops_after_x)
                Scenario.half_assigned_record
                (DataValidationError "Invalid FireIncident: missing y")
                (VInt 999)
                eq_refl eq_refl eq_refl ltac:(vm_compute; reflexivity)
                ltac:(vm_compute; reflexivity))
    as (_ & Hput & Hleft & _ & Hlater).
  split; [vm_compute; reflexivity |]. split; [exact Hleft |].
  destruct (Hlater 999 eq_refl ltac:(lia) eq_refl eq_refl)
    as (db' & Hupd & Hgone & Hmoved).
  exists db'. split; [exact Hupd |].
  split; [| split; [exact Hgone | exact Hmoved]].
  vm_compute in Hupd. injection Hupd as <-. reflexivity.
Defined.

(** *** Creating, and reading back through the [Location] header *)

Lemma int_converter_str_of_int (n : Z) :
  0 <= n -> int_converter (str_of_int n) = Some n.
Proof.
  intros Hn. unfold int_converter, str_of_int.
  destruct n as [| p | p]; [reflexivity | | lia].
  simpl. rewrite NilZero.usu by apply Unsigned.to_uint_nonnil.
  simpl. unfold Z.of_uint. rewrite Unsigned.of_to. reflexivity.
Qed.

(** A [GET] on the URL that [url_for] builds for a key reaches
    [get_fire_incidents] with that key. *)
Lemma dispatch_get_location (engine_accepts : FireIncident -> bool) (id : Z)
    (request : Request) (db : Database) :
  0 <= id ->
  dispatch engine_accepts GET (url_root +:+ "/fires/" +:+ str_of_int id)
    request db
  = respond (get_fire_incidents id db).
Proof.
  intros Hid. unfold dispatch, path_of_url.
  pose proof (int_converter_str_of_int id Hid) as Hconv.
  set (segment := str_of_int id) in *.
  change (strip_prefix url_root (url_root +:+ "/fires/" +:+ segment))
    with (Some ("/fires/" +:+ segment)).
  cbv beta iota.
  change (String.eqb ("/fires/" +:+ segment) "/healthcheck") with false.
  change (String.eqb ("/fires/" +:+ segment) "/") with false.
  change (String.eqb ("/fires/" +:+ segment) "/fires") with false.
  change (strip_prefix "/fires/" ("/fires/" +:+ segment))
    with (Some segment).
  cbv beta iota. rewrite Hconv. reflexivity.
Qed.

Lemma find_new_row (id : Z) (db : Database) (row : FireIncident) :
  pk_in_use id db = false ->
  has_pk id row = true ->
  List.find (has_pk id) (rows db ++ [row]) = Some row.
Proof.
  unfold pk_in_use. intros Hfree Hrow.
  induction (rows db) as [| a l IH]; simpl in *.
  - rewrite Hrow. reflexivity.
  - apply orb_false_elim in Hfree as [Ha Hl]. rewrite Ha. exact (IH Hl).
Qed.

Lemma deserialize_example (v : value) (self : FireIncident) :
  deserialize (VDict (Scenario.example_with_object_id v)) self =
    (Scenario.example_record v, Ok tt).
Proof.
  apply (ModelsFacts.deserialize_complete
           (Scenario.example_with_object_id v) self
           v _ _ _ _ _ _ _ _ _ _ _ _ _
           "2020-01-01T00:00:00+00:00" "2020-01-01T00:00:00+00:00"
           Scenario.midnight_2020 Scenario.midnight_2020);
    (vm_compute; reflexivity).
Qed.

Lemma create_example (engine_accepts : FireIncident -> bool) (v : value)
    (id : Z) (db : Database) :
  Scenario.assigned_object_id v db = Some id ->
  pk_in_use id db = false ->
  engine_accepts (Scenario.example_record (VInt id)) = true ->
  exists seq,
    create engine_accepts (Scenario.example_record v) db =
      (mk_Database (rows db ++ [Scenario.example_record (VInt id)]) seq,
       Ok (Scenario.example_record (VInt id))).
Proof.
  intros Hv Hfree Hacc. unfold create.
  destruct v; try discriminate Hv; simpl in Hv; injection Hv as <-; simpl.
  - rewrite Hfree.
    change (set_object_id (VInt (next_id db)) (Scenario.example_record VNone))
      with (Scenario.example_record (VInt (next_id db))).
    rewrite Hacc. eexists. reflexivity.
  - rewrite Hfree, Hacc. eexists. reflexivity.
Qed.

(** C5, as the code has it.  The example body as the scenario writes it,
    without [object_id], is answered 400 and nothing is stored, because
    [deserialize] reads [object_id] first.  With an [object_id] entry in
    the body ([null], for which the sequence assigns the key, or an
    integer) whose key is free and not negative, the POST answers 201, the
    body of the response carries that [object_id], and a GET on the URL of
    the [Location] header answers 200 with the same body. *)
Theorem create_example_then_get (engine_accepts : FireIncident -> bool)
    (db : Database) :
  (fst (dispatch engine_accepts POST "/fires" Scenario.example_request db)
   = db /\
   status_code
     (snd (dispatch engine_accepts POST "/fires" Scenario.example_request db))
   = HTTP_400_BAD_REQUEST) /\
  (forall v id,
     Scenario.assigned_object_id v db = Some id ->
     0 <= id ->
     pk_in_use id db = false ->
     engine_accepts (Scenario.example_record (VInt id)) = true ->
     exists message url db',
       dispatch engine_accepts POST "/fires"
         (Scenario.json_request (VDict (Scenario.example_with_object_id v)))
         db
       = (db', mk_Response HTTP_201_CREATED (Json message) (Some url)) /\
       getitem message "object_id" = Ok (VInt id) /\
       dispatch engine_accepts GET url Scenario.plain_request db'
       = (db', mk_Response HTTP_200_OK (Json message) None)).
Proof.
  split.
  - split; reflexivity.
  - intros v id Hv Hid Hfree Hacc.
    destruct (create_example engine_accepts v id db Hv Hfree Hacc)
      as [seq Hcreate].
    assert (Hser : exists message,
              serialize (Scenario.example_record (VInt id)) = Ok message /\
              getitem message "object_id" = Ok (VInt id)).
    { eexists. split; [reflexivity |]. vm_compute. reflexivity. }
    destruct Hser as (message & Hser & Hobj).
    exists message, (url_root +:+ "/fires/" +:+ str_of_int id),
      (mk_Database (rows db ++ [Scenario.example_record (VInt id)]) seq).
    split; [| split; [exact Hobj |]].
    + change (dispatch engine_accepts POST "/fires"
                (Scenario.json_request
                   (VDict (Scenario.example_with_object_id v))) db)
        with (respond (create_fire_incidents engine_accepts
                (Scenario.json_request
                   (VDict (Scenario.example_with_object_id v))) db)).
      unfold create_fire_incidents.
      change (check_content_type "application/json"
                (Scenario.json_request
                   (VDict (Scenario.example_with_object_id v))))
        with (@Ok unit tt).
      change (get_json (Scenario.json_request
                (VDict (Scenario.example_with_object_id v))))
        with (Ok (VDict (Scenario.example_with_object_id v))).
      cbv beta iota.
      rewrite deserialize_example, Hcreate, Hser. reflexivity.
    + rewrite dispatch_get_location by exact Hid.
      unfold get_fire_incidents, find. cbn [rows].
      rewrite (find_new_row id db (Scenario.example_record (VInt id)) Hfree
                 (Z.eqb_refl id)).
      rewrite Hser. reflexivity.
Qed.

Lemma create_example_then_get_witness :
  Scenario.assigned_object_id VNone Scenario.empty_db = Some 1 /\
  0 <= 1 /\
  pk_in_use 1 Scenario.empty_db = false /\
  Scenario.accepts_all (Scenario.example_record (VInt 1)) = true /\
  exists message url db',
    dispatch Scenario.accepts_all POST "/fires"
      (Scenario.json_request
         (VDict (Scenario.example_with_object_id VNone)))
      Scenario.empty_db
    = (db', mk_Response HTTP_201_CREATED (Json message) (Some url)) /\
    getitem message "object_id" = Ok (VInt 1) /\
    dispatch Scenario.accepts_all GET url Scenario.plain_request db'
    = (db', mk_Response HTTP_200_OK (Json message) None).
Proof.
  split; [reflexivity |]. split; [lia |]. split; [reflexivity |].
  split; [reflexivity |].
  apply (proj2 (create_example_then_get Scenario.accepts_all
                  Scenario.empty_db) VNone 1);
    [reflexivity | lia | reflexivity | reflexivity].
Defined.

(** C5 does not hold as stated: the POST of the example body, which has no
    [object_id], is answered 400 with a message that names the missing
    key, and the table stays empty. *)
Lemma create_example_request_is_rejected :
  create_fire_incidents Scenario.accepts_all Scenario.example_request
    Scenario.empty_db
  = (Scenario.empty_db,
     Raise (DataValidationError "Invalid FireIncident: missing object_id")) /\
  fst (dispatch Scenario.accepts_all POST "/fires" Scenario.example_request
         Scenario.empty_db) = Scenario.empty_db /\
  status_code
    (snd (dispatch Scenario.accepts_all POST "/fires"
            Scenario.example_request Scenario.empty_db))
  = HTTP_400_BAD_REQUEST /\
  HTTP_400_BAD_REQUEST <> HTTP_201_CREATED.
Proof.
  split; [vm_compute; reflexivity |].
  split; [vm_compute; reflexivity |].
  split; [vm_compute; reflexivity | discriminate].
Qed.

End RoutesFacts.

(* ===================================================================== *)
(** ** More on [serialize] and [deserialize] *)
(* ===================================================================== *)

Module MoreModelsFacts.
Import Py Models.

(** *** What [serialize] needs and what it returns *)

(** [serialize] returns exactly when both timestamp attributes hold
    datetime objects; otherwise the call of [isoformat] on something that
    is not a datetime raises [AttributeError], as it does on a freshly
    constructed [FireIncident()]. *)
Theorem serialize_returns_iff_timestamps (self : FireIncident) :
  ((exists v, serialize self = Ok v) <->
   holds_datetime (containment_datetime self) &&
   holds_datetime (fire_discovery_datetime self) = true) /\
  (forall e, serialize self = Raise e -> exists msg, e = AttributeError msg).
Proof.
  unfold serialize.
  destruct (containment_datetime self) as [| | | | | | | d5];
    cbn [call_isoformat rbind holds_datetime andb];
    try (split; [split; [intros [v H]; discriminate H | intros H; discriminate H]
                | intros e H; injection H as <-; eexists; reflexivity]).
  destruct (fire_discovery_datetime self) as [| | | | | | | d6];
    cbn [call_isoformat rbind holds_datetime andb];
    try (split; [split; [intros [v H]; discriminate H | intros H; discriminate H]
                | intros e H; injection H as <-; eexists; reflexivity]).
  split; [split; [reflexivity | intros _; eexists; reflexivity]
         | intros e H; discriminate H].
Qed.

Lemma serialize_returns_holds (self : FireIncident) (v : value) :
  serialize self = Ok v ->
  holds_datetime (containment_datetime self) &&
  holds_datetime (fire_discovery_datetime self) = true.
Proof.
  unfold serialize.
  destruct (containment_datetime self); try discriminate.
  destruct (fire_discovery_datetime self); try discriminate.
  reflexivity.
Qed.

Lemma serialize_raises_attribute_error (self : FireIncident) (e : exn) :
  serialize self = Raise e -> exists msg, e = AttributeError msg.
Proof.
  unfold serialize.
  destruct (containment_datetime self);
    try (intros H; injection H as <-; eexists; reflexivity).
  destruct (fire_discovery_datetime self);
    try (intros H; injection H as <-; eexists; reflexivity).
  discriminate.
Qed.

Lemma serialize_populated (self : FireIncident) :
  holds_datetime (containment_datetime self) = true ->
  holds_datetime (fire_discovery_datetime self) = true ->
  exists m, serialize self = Ok (VDict m).
Proof.
  unfold serialize.
  destruct (containment_datetime self); try discriminate.
  destruct (fire_discovery_datetime self); try discriminate.
  intros _ _. eexists. reflexivity.
Qed.

Lemma fully_populated_holds (self : FireIncident) :
  fully_populated self = true ->
  holds_datetime (containment_datetime self) = true /\
  holds_datetime (fire_discovery_datetime self) = true.
Proof.
  unfold fully_populated. intros H. apply andb_prop in H as [H5 H6].
  destruct (containment_datetime self); try discriminate H5.
  destruct (fire_discovery_datetime self); try discriminate H6.
  split; reflexivity.
Qed.

(** The mapping [serialize] returns has exactly the keys that
    [deserialize] reads, no more and no fewer. *)
Theorem serialize_has_the_required_keys (self : FireIncident) (v : value) :
  serialize self = Ok v ->
  exists m, v = VDict m /\
    forall key, is_Some (m !! key) <-> In key required_keys.
Proof.
  unfold serialize.
  destruct (containment_datetime self); try discriminate.
  destruct (fire_discovery_datetime self); try discriminate.
  cbn [call_isoformat rbind]. intros H. injection H as <-.
  eexists. split; [reflexivity |].
  intros key. rewrite <- elem_of_dom, !dom_insert_L, dom_empty_L.
  unfold required_keys. cbn [In]. set_unfold.
  split; intros H.
  - repeat (destruct H as [-> | H]; [auto 20 |]). contradiction.
  - repeat (destruct H as [<- | H]; [auto 20 |]). contradiction.
Qed.

Lemma serialize_has_the_required_keys_witness :
  exists v,
    serialize (Scenario.example_record (VInt 1)) = Ok v /\
    exists m, v = VDict m /\
      forall key, is_Some (m !! key) <-> In key required_keys.
Proof.
  eexists. split; [reflexivity |].
  apply (serialize_has_the_required_keys (Scenario.example_record (VInt 1))).
  reflexivity.
Defined.

(** *** When [deserialize] returns, and what it has stored then *)

Lemma datetime_fromisoformat_ok (v w : value) :
  datetime_fromisoformat v = Ok w ->
  exists s d,
    v = VStr s /\ Datetime.fromisoformat s = Some d /\ w = VDatetime d.
Proof.
  destruct v; try discriminate. simpl.
  destruct (Datetime.fromisoformat s) as [d |] eqn:E; [| discriminate].
  intros H. injection H as <-. exists s, d. auto.
Qed.

(** One statement of the [try] block: a lookup in the mapping, or the
    parse of a timestamp. *)
Ltac deserialize_step m :=
  first
    [ match goal with
      | |- context [datetime_fromisoformat ?v] =>
          let F := fresh "F" in
          destruct (datetime_fromisoformat v) as [? | ?] eqn:F
      end
    | match goal with
      | |- context [match m !! ?k with _ => _ end] =>
          let E := fresh "E" in
          destruct (m !! k) as [? |] eqn:E
      end ];
  cbv beta iota delta [rbind].

(** A run that raised cannot have returned. *)
Ltac raised_not_returned :=
  let H := fresh "H" in
  intros H;
  first
    [ discriminate H
    | simpl in H; discriminate H
    | match type of H with
      | context [deserialize_handler ?e] => destruct e; discriminate H
      end ].

(** What a mapping must hold for [deserialize] to return, and the object
    it leaves then. *)
Lemma deserialize_returns_inv (m : gmap string value)
    (self r : FireIncident) :
  deserialize (VDict m) self = (r, Ok tt) ->
  exists v1 v2 v3 v4 s5 d5 s6 d6 v7 v8 v9 v10 v11 v12 v13 v14 v15 v16,
    m !! "object_id" = Some v1 /\
    m !! "x" = Some v2 /\
    m !! "y" = Some v3 /\
    m !! "incident_size" = Some v4 /\
    m !! "containment_datetime" = Some (VStr s5) /\
    Datetime.fromisoformat s5 = Some d5 /\
    m !! "fire_discovery_datetime" = Some (VStr s6) /\
    Datetime.fromisoformat s6 = Some d6 /\
    m !! "incident_name" = Some v7 /\
    m !! "incident_type_category" = Some v8 /\
    m !! "initial_latitude" = Some v9 /\
    m !! "initial_longitude" = Some v10 /\
    m !! "poo_city" = Some v11 /\
    m !! "poo_county" = Some v12 /\
    m !! "poo_state" = Some v13 /\
    m !! "fire_cause_id" = Some v14 /\
    m !! "poo_landowner_category" = Some v15 /\
    m !! "unique_fire_identifier" = Some v16 /\
    r = mk_FireIncident v1 v2 v3 v4 (VDatetime d5) (VDatetime d6) v7 v8 v9
          v10 v11 v12 v13 v14 v15 v16.
Proof.
  unfold deserialize, try_except, deserialize_fields, seq, bind, assign,
    getitem.
  repeat (deserialize_step m; try raised_not_returned).
  intros H. injection H as <-.
  repeat match goal with
         | F : datetime_fromisoformat _ = Ok _ |- _ =>
             apply datetime_fromisoformat_ok in F as (? & ? & -> & ? & ->)
         end.
  repeat eexists; eassumption.
Qed.

Lemma deserialize_returns_mapping (data : value) (self r : FireIncident) :
  deserialize data self = (r, Ok tt) -> exists m, data = VDict m.
Proof.
  destruct data; try (intros H; discriminate H).
  intros _. eexists. reflexivity.
Qed.

(** A mapping that [deserialize] reads to the end, key by key. *)
Lemma reads_all_inv (m : gmap string value) :
  forallb (reads m) required_keys = true ->
  exists v1 v2 v3 v4 s5 d5 s6 d6 v7 v8 v9 v10 v11 v12 v13 v14 v15 v16,
    m !! "object_id" = Some v1 /\
    m !! "x" = Some v2 /\
    m !! "y" = Some v3 /\
    m !! "incident_size" = Some v4 /\
    m !! "containment_datetime" = Some (VStr s5) /\
    Datetime.fromisoformat s5 = Some d5 /\
    m !! "fire_discovery_datetime" = Some (VStr s6) /\
    Datetime.fromisoformat s6 = Some d6 /\
    m !! "incident_name" = Some v7 /\
    m !! "incident_type_category" = Some v8 /\
    m !! "initial_latitude" = Some v9 /\
    m !! "initial_longitude" = Some v10 /\
    m !! "poo_city" = Some v11 /\
    m !! "poo_county" = Some v12 /\
    m !! "poo_state" = Some v13 /\
    m !! "fire_cause_id" = Some v14 /\
    m !! "poo_landowner_category" = Some v15 /\
    m !! "unique_fire_identifier" = Some v16.
Proof.
  intros H.
  replace required_keys with (take 16 required_keys) in H by reflexivity.
  ModelsFacts.read_keys H.
  repeat match goal with
         | F : datetime_fromisoformat _ = Ok _ |- _ =>
             apply datetime_fromisoformat_ok in F as (? & ? & -> & ? & ->)
         end.
  repeat eexists; eassumption.
Qed.

(** [deserialize] returns on a mapping exactly when the mapping holds
    every required key and its two timestamps are strings that
    [fromisoformat] accepts; nothing else about the body is checked. *)
Theorem deserialize_returns_iff (m : gmap string value)
    (self : FireIncident) :
  snd (deserialize (VDict m) self) = Ok tt <->
  forallb (reads m) required_keys = true.
Proof.
  split.
  - intros H.
    destruct (deserialize (VDict m) self) as [r o] eqn:E. simpl in H.
    subst o. apply deserialize_returns_inv in E.
    destruct E as (v1 & v2 & v3 & v4 & s5 & d5 & s6 & d6 & v7 & v8 & v9 &
                   v10 & v11 & v12 & v13 & v14 & v15 & v16 & E1 & E2 & E3 &
                   E4 & E5 & P5 & E6 & P6 & E7 & E8 & E9 & E10 & E11 & E12 &
                   E13 & E14 & E15 & E16 & _).
    cbn [forallb required_keys]. unfold reads.
    rewrite E1, E2, E3, E4, E5, E6, E7, E8, E9, E10, E11, E12, E13, E14,
      E15, E16.
    cbn. rewrite P5, P6. reflexivity.
  - intros H. apply reads_all_inv in H.
    destruct H as (v1 & v2 & v3 & v4 & s5 & d5 & s6 & d6 & v7 & v8 & v9 &
                   v10 & v11 & v12 & v13 & v14 & v15 & v16 & E1 & E2 & E3 &
                   E4 & E5 & P5 & E6 & P6 & E7 & E8 & E9 & E10 & E11 & E12 &
                   E13 & E14 & E15 & E16).
    rewrite (ModelsFacts.deserialize_complete m self v1 v2 v3 v4 v7 v8 v9
               v10 v11 v12 v13 v14 v15 v16 s5 s6 d5 d6); auto.
Qed.

Lemma deserialize_returns_iff_witness :
  snd (deserialize (VDict (Scenario.example_with_object_id VNone))
         new_FireIncident) = Ok tt /\
  forallb (reads (Scenario.example_with_object_id VNone)) required_keys
  = true.
Proof.
  assert (H : forallb (reads (Scenario.example_with_object_id VNone))
                required_keys = true) by (vm_compute; reflexivity).
  split; [| exact H].
  apply (proj2 (deserialize_returns_iff
                  (Scenario.example_with_object_id VNone) new_FireIncident)).
  exact H.
Defined.

(** When [deserialize] returns, its input was a mapping and every
    attribute of the object is what the mapping holds under the key of the
    same name, whatever its type, the two timestamps being the datetimes
    that their strings denote.  Nothing of the object as it was before is
    left. *)
Theorem deserialize_stores_the_mapping (data : value)
    (self r : FireIncident) :
  deserialize data self = (r, Ok tt) ->
  exists m, data = VDict m /\
    m !! "object_id" = Some (object_id r) /\
    m !! "x" = Some (x r) /\
    m !! "y" = Some (y r) /\
    m !! "incident_size" = Some (incident_size r) /\
    (exists s d, m !! "containment_datetime" = Some (VStr s) /\
                 Datetime.fromisoformat s = Some d /\
                 containment_datetime r = VDatetime d) /\
    (exists s d, m !! "fire_discovery_datetime" = Some (VStr s) /\
                 Datetime.fromisoformat s = Some d /\
                 fire_discovery_datetime r = VDatetime d) /\
    m !! "incident_name" = Some (incident_name r) /\
    m !! "incident_type_category" = Some (incident_type_category r) /\
    m !! "initial_latitude" = Some (initial_latitude r) /\
    m !! "initial_longitude" = Some (initial_longitude r) /\
    m !! "poo_city" = Some (poo_city r) /\
    m !! "poo_county" = Some (poo_county r) /\
    m !! "poo_state" = Some (poo_state r) /\
    m !! "fire_cause_id" = Some (fire_cause_id r) /\
    m !! "poo_landowner_category" = Some (poo_landowner_category r) /\
    m !! "unique_fire_identifier" = Some (unique_fire_identifier r).
Proof.
  intros H. destruct (deserialize_returns_mapping data self r H) as [m ->].
  exists m. split; [reflexivity |].
  apply deserialize_returns_inv in H.
  destruct H as (v1 & v2 & v3 & v4 & s5 & d5 & s6 & d6 & v7 & v8 & v9 &
                 v10 & v11 & v12 & v13 & v14 & v15 & v16 & E1 & E2 & E3 &
                 E4 & E5 & P5 & E6 & P6 & E7 & E8 & E9 & E10 & E11 & E12 &
                 E13 & E14 & E15 & E16 & ->).
  cbn [object_id x y incident_size containment_datetime
       fire_discovery_datetime incident_name incident_type_category
       initial_latitude initial_longitude poo_city poo_county poo_state
       fire_cause_id poo_landowner_category unique_fire_identifier].
  repeat split; try assumption.
  - exists s5, d5. auto.
  - exists s6, d6. auto.
Qed.

Lemma deserialize_stores_the_mapping_witness :
  exists m, VDict (Scenario.example_with_object_id (VInt 7)) = VDict m /\
    m !! "object_id" = Some (VInt 7) /\
    m !! "poo_county" = Some (VStr "Los Angeles").
Proof.
  destruct (deserialize_stores_the_mapping
              (VDict (Scenario.example_with_object_id (VInt 7)))
              new_FireIncident (Scenario.example_record (VInt 7))
              ltac:(vm_compute; reflexivity))
    as (m & Hm & H1 & _ & _ & _ & _ & _ & _ & _ & _ & _ & _ & H12 & _).
  exists m. split; [exact Hm |]. split; [exact H1 | exact H12].
Defined.

(** *** Keys that [deserialize] does not read *)

(** Two mappings that agree on the required keys are deserialized alike,
    into the same object with the same outcome: any other key of the body
    is ignored. *)
Theorem deserialize_ignores_other_keys (m1 m2 : gmap string value)
    (self : FireIncident) :
  (forall key, In key required_keys -> m1 !! key = m2 !! key) ->
  deserialize (VDict m1) self = deserialize (VDict m2) self.
Proof.
  intros Hagree.
  unfold deserialize, try_except, deserialize_fields, seq, bind, assign,
    getitem.
  repeat match goal with
         | |- context [m1 !! ?k] =>
             rewrite (Hagree k) by (cbn [In required_keys]; auto 20)
         end.
  reflexivity.
Qed.

Lemma deserialize_ignores_other_keys_witness :
  deserialize
    (VDict (<["comment" := VStr "ignored"]>
              (Scenario.example_with_object_id VNone))) new_FireIncident
  = deserialize (VDict (Scenario.example_with_object_id VNone))
      new_FireIncident.
Proof.
  apply (deserialize_ignores_other_keys
           (<["comment" := VStr "ignored"]>
              (Scenario.example_with_object_id VNone))
           (Scenario.example_with_object_id VNone) new_FireIncident).
  intros key Hkey. apply lookup_insert_ne.
  cbn [In required_keys] in Hkey.
  repeat (destruct Hkey as [<- | Hkey]; [discriminate |]). contradiction.
Defined.

(** *** A timestamp that is not a string *)

(** When [deserialize] reaches a timestamp key whose value is not a string
    (a number, [null], a list, ...), [fromisoformat] raises [TypeError]
    and the [except TypeError] clause turns it into a
    [DataValidationError] about bad data. *)
Theorem deserialize_timestamp_of_wrong_type (m : gmap string value)
    (self : FireIncident) (i : nat) (key : string) (v : value) :
  required_keys !! i = Some key ->
  is_timestamp_key key = true ->
  forallb (reads m) (take i required_keys) = true ->
  m !! key = Some v ->
  is_str v = false ->
  snd (deserialize (VDict m) self) =
    Raise (DataValidationError
      ("Invalid FireIncident: body of request contained bad or no data - " +:+
       "Error message: fromisoformat: argument must be str")).
Proof.
  intros Hi Hts Hread Hkey Hstr.
  assert (Hfrom : datetime_fromisoformat v =
                  Raise (TypeError "fromisoformat: argument must be str"))
    by (destruct v; try discriminate Hstr; reflexivity).
  do 16 (destruct i as [| i];
         [ injection Hi as <-; try discriminate Hts;
           ModelsFacts.read_keys Hread; ModelsFacts.run_deserialize;
           reflexivity
         | ]).
  discriminate Hi.
Qed.

Lemma deserialize_timestamp_of_wrong_type_witness :
  snd (deserialize (VDict Scenario.mapping_with_numeric_timestamp)
         new_FireIncident) =
    Raise (DataValidationError
      ("Invalid FireIncident: body of request contained bad or no data - " +:+
       "Error message: fromisoformat: argument must be str")).
Proof.
  apply (deserialize_timestamp_of_wrong_type
           Scenario.mapping_with_numeric_timestamp new_FireIncident 4
           "containment_datetime" (VInt 5));
    vm_compute; reflexivity.
Defined.

(** *** Attributes assigned before a failure *)

(** [deserialize] assigns as it reads: once the mapping holds
    [object_id], the object carries that value afterwards whether the call
    returns or raises, and when the next key, [x], is missing the object
    is the old one with nothing but its [object_id] replaced. *)
Theorem deserialize_assigns_before_failing (m : gmap string value)
    (self : FireIncident) (v : value) :
  m !! "object_id" = Some v ->
  object_id (fst (deserialize (VDict m) self)) = v /\
  (m !! "x" = None ->
   deserialize (VDict m) self =
     (set_object_id v self,
      Raise (DataValidationError "Invalid FireIncident: missing x"))).
Proof.
  intros Hid. split.
  - unfold deserialize, try_except, deserialize_fields, seq, bind, assign,
      getitem.
    rewrite Hid. cbv beta iota.
    repeat (deserialize_step m; try reflexivity).
  - intros Hx.
    unfold deserialize, try_except, deserialize_fields, seq, bind, assign,
      getitem.
    rewrite Hid, Hx. reflexivity.
Qed.

Lemma deserialize_assigns_before_failing_witness :
  object_id
    (fst (deserialize (VDict (<["object_id" := VInt 999]> ∅))
            (Scenario.example_record (VInt 1)))) = VInt 999.
Proof.
  apply (deserialize_assigns_before_failing (<["object_id" := VInt 999]> ∅)
           (Scenario.example_record (VInt 1)) (VInt 999)).
  reflexivity.
Defined.

(** *** [serialize] loses nothing *)

Lemma same_heads {A : Type} (a b : A) (l l' : list (option A)) :
  Some a :: l = Some b :: l' -> a = b /\ l = l'.
Proof. intros H. injection H as -> ->. split; reflexivity. Qed.

Lemma same_text (s s' : string) : VStr s = VStr s' -> s = s'.
Proof. intros H. injection H as ->. reflexivity. Qed.

(** The mapping that [serialize] returns for a record with two datetimes,
    read at each key. *)
Lemma serialize_lookups (v1 v2 v3 v4 v7 v8 v9 v10 v11 v12 v13 v14 v15 v16 : value)
    (d5 d6 : Datetime.datetime) :
  exists m : gmap string value,
    serialize (mk_FireIncident v1 v2 v3 v4 (VDatetime d5) (VDatetime d6) v7
                 v8 v9 v10 v11 v12 v13 v14 v15 v16) = Ok (VDict m) /\
    [m !! "object_id"; m !! "x"; m !! "y"; m !! "incident_size";
     m !! "containment_datetime"; m !! "fire_discovery_datetime";
     m !! "incident_name"; m !! "incident_type_category";
     m !! "initial_latitude"; m !! "initial_longitude"; m !! "poo_city";
     m !! "poo_county"; m !! "poo_state"; m !! "fire_cause_id";
     m !! "poo_landowner_category"; m !! "unique_fire_identifier"]
    = [Some v1; Some v2; Some v3; Some v4;
       Some (VStr (Datetime.isoformat d5));
       Some (VStr (Datetime.isoformat d6));
       Some v7; Some v8; Some v9; Some v10; Some v11; Some v12; Some v13;
       Some v14; Some v15; Some v16].
Proof.
  pose proof (ModelsFacts.serialized_lookups v1 v2 v3 v4
                (VStr (Datetime.isoformat d5)) (VStr (Datetime.isoformat d6))
                v7 v8 v9 v10 v11 v12 v13 v14 v15 v16) as L.
  cbv zeta in L.
  match type of L with
  | ?m !! _ = _ /\ _ => exists m
  end.
  split; [reflexivity |].
  destruct L as (L1 & L2 & L3 & L4 & L5 & L6 & L7 & L8 & L9 & L10 & L11 &
                 L12 & L13 & L14 & L15 & L16).
  rewrite L1, L2, L3, L4, L5, L6, L7, L8, L9, L10, L11, L12, L13, L14, L15,
    L16.
  reflexivity.
Qed.

(** Two fully populated records with the same serialization are the same
    record, attribute by attribute and down to the offset of their
    timestamps: [serialize] drops no information. *)
Theorem serialize_is_injective (r1 r2 : FireIncident) :
  fully_populated r1 = true ->
  fully_populated r2 = true ->
  serialize r1 = serialize r2 ->
  r1 = r2.
Proof.
  intros H1 H2 Heq.
  destruct r1 as [v1 v2 v3 v4 v5 v6 v7 v8 v9 v10 v11 v12 v13 v14 v15 v16].
  destruct r2 as [w1 w2 w3 w4 w5 w6 w7 w8 w9 w10 w11 w12 w13 w14 w15 w16].
  unfold fully_populated in H1, H2.
  cbn [containment_datetime fire_discovery_datetime] in H1, H2.
  apply andb_prop in H1 as [H15 H16]. apply andb_prop in H2 as [H25 H26].
  destruct v5 as [| | | | | | | d5]; try discriminate H15.
  destruct v6 as [| | | | | | | d6]; try discriminate H16.
  destruct w5 as [| | | | | | | e5]; try discriminate H25.
  destruct w6 as [| | | | | | | e6]; try discriminate H26.
  cbn [is_datetime] in H15, H16, H25, H26.
  destruct (serialize_lookups v1 v2 v3 v4 v7 v8 v9 v10 v11 v12 v13 v14 v15
              v16 d5 d6) as (m1 & S1 & L).
  destruct (serialize_lookups w1 w2 w3 w4 w7 w8 w9 w10 w11 w12 w13 w14 w15
              w16 e5 e6) as (m2 & S2 & R).
  rewrite S1, S2 in Heq.
  assert (Hm : m1 = m2) by congruence.
  subst m2. rewrite L in R. clear L S1 S2 Heq.
  do 4 (apply same_heads in R as [-> R]).
  apply same_heads in R as [E5 R]. apply same_heads in R as [E6 R].
  do 10 (apply same_heads in R as [-> R]).
  rewrite (DatetimeFacts.isoformat_injective d5 e5 H15 H25 (same_text _ _ E5)).
  rewrite (DatetimeFacts.isoformat_injective d6 e6 H16 H26 (same_text _ _ E6)).
  reflexivity.
Qed.

Lemma serialize_is_injective_witness :
  fully_populated (Scenario.example_record (VInt 1)) = true /\
  fully_populated (Scenario.other_record (VInt 1)) = true /\
  serialize (Scenario.example_record (VInt 1)) <>
  serialize (Scenario.other_record (VInt 1)).
Proof.
  split; [reflexivity |]. split; [reflexivity |].
  intros H.
  apply (serialize_is_injective (Scenario.example_record (VInt 1))
           (Scenario.other_record (VInt 1)) eq_refl eq_refl) in H.
  discriminate H.
Defined.

End MoreModelsFacts.

(* ===================================================================== *)
(** ** More on the table and the handlers *)
(* ===================================================================== *)

Module MoreRoutesFacts.
Import Py Models Routes.

(** *** Rows that come from [deserialize] can be serialized *)

Lemma fromisoformat_valid (s : string) (d : Datetime.datetime) :
  Datetime.fromisoformat s = Some d -> Datetime.valid d = true.
Proof.
  unfold Datetime.fromisoformat.
  destruct (Datetime.parse_isoformat s)
    as [[[[y mo] dd] [[[[hh mm] ss] us] tz]] |]; [| discriminate].
  destruct (Datetime.valid _) eqn:E; [| discriminate].
  intros H. injection H as <-. exact E.
Qed.

Lemma deserialize_populated (data : value) (self r : FireIncident) :
  deserialize data self = (r, Ok tt) -> fully_populated r = true.
Proof.
  intros H.
  destruct (MoreModelsFacts.deserialize_returns_mapping data self r H)
    as [m ->].
  apply MoreModelsFacts.deserialize_returns_inv in H.
  destruct H as (v1 & v2 & v3 & v4 & s5 & d5 & s6 & d6 & v7 & v8 & v9 &
                 v10 & v11 & v12 & v13 & v14 & v15 & v16 & _ & _ & _ & _ &
                 _ & P5 & _ & P6 & _ & _ & _ & _ & _ & _ & _ & _ & _ & _ &
                 ->).
  unfold fully_populated. simpl.
  rewrite (fromisoformat_valid s5 d5 P5), (fromisoformat_valid s6 d6 P6).
  reflexivity.
Qed.

Lemma serialize_fully_populated (r : FireIncident) :
  fully_populated r = true -> exists m, serialize r = Ok (VDict m).
Proof.
  intros H. apply MoreModelsFacts.fully_populated_holds in H as [H5 H6].
  apply MoreModelsFacts.serialize_populated; assumption.
Qed.

Lemma fully_populated_set_object_id (v : value) (r : FireIncident) :
  fully_populated (set_object_id v r) = fully_populated r.
Proof. reflexivity. Qed.

(** *** [create] *)

Lemma set_object_id_same (id : Z) (self : FireIncident) :
  object_id self = VInt id -> set_object_id (VInt id) self = self.
Proof. destruct self. simpl. intros ->. reflexivity. Qed.

Lemma create_returns (engine_accepts : FireIncident -> bool)
    (self row : FireIncident) (db db' : Database) :
  create engine_accepts self db = (db', Ok row) ->
  exists id,
    Scenario.assigned_object_id (object_id self) db = Some id /\
    pk_in_use id db = false /\
    engine_accepts row = true /\
    row = set_object_id (VInt id) self /\
    rows db' = (rows db ++ [row])%list.
Proof.
  unfold create.
  destruct (object_id self) as [| | id | | | | |] eqn:Eid;
    try (intros H; discriminate H).
  - destruct (pk_in_use (next_id db) db) eqn:Euse;
      [intros H; discriminate H |].
    destruct (engine_accepts _) eqn:Eacc; [| intros H; discriminate H].
    intros H. injection H as <- <-. exists (next_id db). auto.
  - destruct (pk_in_use id db) eqn:Euse; [intros H; discriminate H |].
    destruct (engine_accepts self) eqn:Eacc; [| intros H; discriminate H].
    intros H. injection H as <- <-. exists id.
    rewrite (set_object_id_same id self Eid). auto.
Qed.

Lemma create_raises (engine_accepts : FireIncident -> bool)
    (self : FireIncident) (db db' : Database) (e : exn) :
  create engine_accepts self db = (db', Raise e) -> rows db' = rows db.
Proof.
  unfold create.
  destruct (object_id self) as [| | id | | | | |];
    try (intros H; injection H as <- _; reflexivity).
  - destruct (pk_in_use (next_id db) db);
      [intros H; injection H as <- _; reflexivity |].
    destruct (engine_accepts _); intros H;
      [discriminate H | injection H as <- _; reflexivity].
  - destruct (pk_in_use id db);
      [intros H; injection H as <- _; reflexivity |].
    destruct (engine_accepts self); intros H;
      [discriminate H | injection H as <- _; reflexivity].
Qed.

Lemma find_in_longer_table (id : Z) (l l' : list FireIncident)
    (r : FireIncident) :
  List.find (has_pk id) l = Some r ->
  List.find (has_pk id) (l ++ l') = Some r.
Proof.
  induction l as [| a l IH]; simpl; [discriminate |].
  destruct (has_pk id a); [trivial | exact IH].
Qed.

(** For an object whose [object_id] is [None] or an integer, [create]
    stores under one key: the next value of the sequence for [None], the
    integer itself otherwise.  It returns exactly when no row has that key
    and the engine takes the values; one row is then appended, it carries
    that key and is what [find] returns for it, and every record that was
    in the table is found as before.  Otherwise it raises and leaves the
    rows as they were: a key that is in use is never overwritten. *)
Theorem create_appends_one_row_or_none
    (engine_accepts : FireIncident -> bool) (self : FireIncident)
    (db : Database) (id : Z) :
  Scenario.assigned_object_id (object_id self) db = Some id ->
  match create engine_accepts self db with
  | (db', Ok row) =>
      pk_in_use id db = false /\
      engine_accepts (set_object_id (VInt id) self) = true /\
      object_id row = VInt id /\
      rows db' = (rows db ++ [row])%list /\
      find id db' = Some row /\
      (forall other r, find other db = Some r -> find other db' = Some r)
  | (db', Raise _) =>
      rows db' = rows db /\
      (pk_in_use id db = true \/
       engine_accepts (set_object_id (VInt id) self) = false)
  end.
Proof.
  intros Hid.
  destruct (create engine_accepts self db) as [db' [row | e]] eqn:E.
  - apply create_returns in E as (id' & Hid' & Hfree & Hacc & Hrow & Hrows).
    assert (id' = id) by congruence. subst id'.
    split; [exact Hfree |]. split; [rewrite <- Hrow; exact Hacc |].
    split; [rewrite Hrow; reflexivity |]. split; [exact Hrows |]. split.
    + unfold find. rewrite Hrows.
      apply RoutesFacts.find_new_row; [exact Hfree |].
      rewrite Hrow. unfold has_pk. simpl. apply Z.eqb_refl.
    + intros other r Hr. unfold find in *. rewrite Hrows.
      apply find_in_longer_table. exact Hr.
  - split; [exact (create_raises _ _ _ _ _ E) |].
    revert E. unfold create.
    destruct (object_id self) as [| | n | | | | |] eqn:Eid;
      try discriminate Hid; simpl in Hid; injection Hid as <-.
    + destruct (pk_in_use (next_id db) db); [left; reflexivity |].
      destruct (engine_accepts _); [discriminate | right; reflexivity].
    + rewrite (set_object_id_same n self Eid).
      destruct (pk_in_use n db); [left; reflexivity |].
      destruct (engine_accepts self); [discriminate | right; reflexivity].
Qed.

Lemma create_appends_one_row_or_none_witness :
  exists db' row,
    create Scenario.accepts_all (Scenario.example_record VNone)
      Scenario.one_row_db = (db', Ok row) /\
    object_id row = VInt 2 /\
    find 2 db' = Some row /\
    find 1 db' = Some (Scenario.example_record (VInt 1)).
Proof.
  pose proof (create_appends_one_row_or_none Scenario.accepts_all
                (Scenario.example_record VNone) Scenario.one_row_db 2
                eq_refl) as H.
  destruct (create Scenario.accepts_all (Scenario.example_record VNone)
              Scenario.one_row_db) as [db' [row | e]] eqn:E;
    [| discriminate E].
  destruct H as (_ & _ & Hkey & _ & Hfind & Hold).
  exists db', row. split; [reflexivity |]. split; [exact Hkey |].
  split; [exact Hfind |]. apply Hold. reflexivity.
Defined.

(** *** What the writing handlers can do *)

(** The POST handler either raises with the rows as they were, or has
    deserialized the body, created the row and answers 201 with its
    serialization. *)
Lemma create_fire_incidents_outcome (engine_accepts : FireIncident -> bool)
    (request : Request) (db : Database) :
  (rows (fst (create_fire_incidents engine_accepts request db)) = rows db /\
   exists e, snd (create_fire_incidents engine_accepts request db) = Raise e)
  \/
  (exists data r id db' message,
     content_type request = Some "application/json" /\
     json request = Some data /\
     deserialize data new_FireIncident = (r, Ok tt) /\
     create engine_accepts r db = (db', Ok (set_object_id (VInt id) r)) /\
     serialize (set_object_id (VInt id) r) = Ok message /\
     create_fire_incidents engine_accepts request db =
       (db', Ok (mk_Response HTTP_201_CREATED (Json message)
                   (Some (url_root +:+ "/fires/" +:+ str_of_int id))))).
Proof.
  unfold create_fire_incidents, check_content_type, get_json.
  destruct (content_type request) as [given |] eqn:Ect;
    [| left; split; [reflexivity | eexists; reflexivity]].
  destruct (String.eqb given "application/json") eqn:Eeq;
    [| left; split; [reflexivity | eexists; reflexivity]].
  apply String.eqb_eq in Eeq. subst given.
  destruct (json request) as [data |] eqn:Ejson;
    [| left; split; [reflexivity | eexists; reflexivity]].
  destruct (deserialize data new_FireIncident) as [r [[] | e]] eqn:Ed;
    [| left; split; [reflexivity | eexists; reflexivity]].
  destruct (create engine_accepts r db) as [db' [row | e]] eqn:Ec.
  - pose proof Ec as Ec'.
    apply create_returns in Ec' as (id & _ & _ & _ & Hrow & _).
    subst row.
    pose proof (deserialize_populated _ _ _ Ed) as Hpop.
    destruct (serialize_fully_populated (set_object_id (VInt id) r) Hpop)
      as [m Hser].
    right. exists data, r, id, db', (VDict m).
    rewrite Hser. cbn [object_id set_object_id url_for_get_fire_incidents].
    auto 10.
  - left. split; [exact (create_raises _ _ _ _ _ Ec) |].
    eexists. reflexivity.
Qed.

(** The PUT handler either raises with the table as it was, or has
    deserialized the body into the row it found, written it back under
    the key of the path and answers 200 with its serialization. *)
Lemma update_fire_incidents_outcome (engine_accepts : FireIncident -> bool)
    (id : Z) (request : Request) (db : Database) :
  (fst (update_fire_incidents engine_accepts id request db) = db /\
   exists e, snd (update_fire_incidents engine_accepts id request db)
             = Raise e)
  \/
  (exists old data r message,
     content_type request = Some "application/json" /\
     find id db = Some old /\
     json request = Some data /\
     deserialize data old = (r, Ok tt) /\
     engine_accepts (set_object_id (VInt id) r) = true /\
     serialize (set_object_id (VInt id) r) = Ok message /\
     update_fire_incidents engine_accepts id request db =
       (mk_Database
          (written_over id (set_object_id (VInt id) r) (rows db))
          (next_id db),
        Ok (jsonify message HTTP_200_OK))).
Proof.
  unfold update_fire_incidents, check_content_type, get_json.
  destruct (content_type request) as [given |] eqn:Ect;
    [| left; split; [reflexivity | eexists; reflexivity]].
  destruct (String.eqb given "application/json") eqn:Eeq;
    [| left; split; [reflexivity | eexists; reflexivity]].
  apply String.eqb_eq in Eeq. subst given.
  destruct (find id db) as [old |] eqn:Efind;
    [| left; split; [reflexivity | eexists; reflexivity]].
  destruct (json request) as [data |] eqn:Ejson;
    [| left; split; [reflexivity | eexists; reflexivity]].
  destruct (deserialize data old) as [r [[] | e]] eqn:Ed;
    [| left; split; [reflexivity | eexists; reflexivity]].
  pose proof (deserialize_populated _ _ _ Ed) as Hpop.
  destruct (serialize_fully_populated (set_object_id (VInt id) r) Hpop)
    as [m Hser].
  unfold update. cbn [object_id set_object_id].
  rewrite Z.eqb_refl. cbn [negb andb].
  change (mk_FireIncident (VInt id) (x r) (y r) (incident_size r)
            (containment_datetime r) (fire_discovery_datetime r)
            (incident_name r) (incident_type_category r)
            (initial_latitude r) (initial_longitude r) (poo_city r)
            (poo_county r) (poo_state r) (fire_cause_id r)
            (poo_landowner_category r) (unique_fire_identifier r))
    with (set_object_id (VInt id) r).
  destruct (engine_accepts (set_object_id (VInt id) r)) eqn:Eacc;
    [| left; split; [reflexivity | eexists; reflexivity]].
  rewrite Hser. right. exists old, data, r, (VDict m). auto 10.
Qed.

(** *** The content type is checked first *)

(** A POST or PUT whose [Content-Type] header is missing or is not exactly
    [application/json] is aborted with 415 before the body is decoded and,
    for PUT, before the row is looked up: the answer is 415 even for a key
    that does not exist, and nothing is written. *)
Theorem unsupported_media_type_comes_first
    (engine_accepts : FireIncident -> bool) (object_id : Z)
    (request : Request) (db : Database) :
  content_type request <> Some "application/json" ->
  create_fire_incidents engine_accepts request db =
    (db, Raise (HTTPException HTTP_415_UNSUPPORTED_MEDIA_TYPE
                  "Content-Type must be application/json")) /\
  update_fire_incidents engine_accepts object_id request db =
    (db, Raise (HTTPException HTTP_415_UNSUPPORTED_MEDIA_TYPE
                  "Content-Type must be application/json")).
Proof.
  intros Hct.
  assert (Hcheck : check_content_type "application/json" request =
                   Raise (HTTPException HTTP_415_UNSUPPORTED_MEDIA_TYPE
                            "Content-Type must be application/json")).
  { unfold check_content_type.
    destruct (content_type request) as [given |]; [| reflexivity].
    destruct (String.eqb given "application/json") eqn:E; [| reflexivity].
    apply String.eqb_eq in E. subst given. contradiction. }
  unfold create_fire_incidents, update_fire_incidents.
  rewrite Hcheck. split; reflexivity.
Qed.

Lemma unsupported_media_type_comes_first_witness :
  status_code
    (snd (respond
       (update_fire_incidents Scenario.accepts_all 7
          (Scenario.html_request (VStr "hello")) Scenario.one_row_db)))
  = HTTP_415_UNSUPPORTED_MEDIA_TYPE.
Proof.
  rewrite (proj2 (unsupported_media_type_comes_first Scenario.accepts_all 7
                    (Scenario.html_request (VStr "hello"))
                    Scenario.one_row_db ltac:(discriminate))).
  reflexivity.
Defined.

(** *** Every route *)

Lemma list_fire_incidents_reads_only (request : Request) (db : Database) :
  exists response, respond (list_fire_incidents request db) = (db, response).
Proof.
  unfold list_fire_incidents.
  destruct (serialize_all _); eexists; reflexivity.
Qed.

Lemma get_fire_incidents_reads_only (id : Z) (db : Database) :
  exists response, respond (get_fire_incidents id db) = (db, response).
Proof.
  unfold get_fire_incidents.
  destruct (find id db) as [r |]; [| eexists; reflexivity].
  destruct (serialize r); eexists; reflexivity.
Qed.

(** A property of what [dispatch] returns follows from the same property
    of the three writing handlers and of every answer that leaves the
    table alone. *)
Lemma dispatch_cases (engine_accepts : FireIncident -> bool)
    (method : Method) (url : string) (request : Request) (db : Database)
    (P : Database * Response -> Prop) :
  (forall response, P (db, response)) ->
  P (respond (create_fire_incidents engine_accepts request db)) ->
  (forall id, P (respond (update_fire_incidents engine_accepts id request db))) ->
  (forall id, P (respond (delete_fire_incidents id db))) ->
  P (dispatch engine_accepts method url request db).
Proof.
  intros Hread Hpost Hput Hdelete.
  destruct (list_fire_incidents_reads_only request db) as [rl Hl].
  unfold dispatch, method_not_allowed.
  repeat match goal with
         | |- context [if ?b then _ else _] => destruct b
         end;
    try (destruct method; try rewrite Hl; (apply Hread || apply Hpost)).
  destruct (strip_prefix "/fires/" _) as [segment |]; [| apply Hread].
  destruct (int_converter segment) as [id |]; [| apply Hread].
  destruct (get_fire_incidents_reads_only id db) as [rg Hg].
  destruct method; try rewrite Hg;
    first [apply Hread | apply Hput | apply Hdelete].
Qed.

(** No GET request changes the table, whatever the URL and the query:
    the health check, the index, the listing, a record that exists or does
    not, and every path that no rule matches. *)
Theorem get_requests_write_nothing (engine_accepts : FireIncident -> bool)
    (url : string) (request : Request) (db : Database) :
  fst (dispatch engine_accepts GET url request db) = db.
Proof.
  destruct (list_fire_incidents_reads_only request db) as [rl Hl].
  unfold dispatch.
  repeat match goal with
         | |- context [if ?b then _ else _] => destruct b
         end;
    try rewrite Hl; try reflexivity.
  destruct (strip_prefix "/fires/" _) as [segment |]; [| reflexivity].
  destruct (int_converter segment) as [id |]; [| reflexivity].
  destruct (get_fire_incidents_reads_only id db) as [rg Hg].
  rewrite Hg. reflexivity.
Qed.

(** *** Answers that are not a success *)

Lemma failed_post_leaves_rows (engine_accepts : FireIncident -> bool)
    (request : Request) (db : Database) :
  is_success
    (status_code
       (snd (respond (create_fire_incidents engine_accepts request db))))
  = false ->
  rows (fst (respond (create_fire_incidents engine_accepts request db)))
  = rows db.
Proof.
  destruct (create_fire_incidents_outcome engine_accepts request db)
    as [[Hrows _] | (data & r & id & db' & message & _ & _ & _ & _ & _ & ->)].
  - intros _.
    destruct (create_fire_incidents engine_accepts request db) as [d [? | ?]];
      exact Hrows.
  - intros H. discriminate H.
Qed.

Lemma failed_put_leaves_rows (engine_accepts : FireIncident -> bool)
    (id : Z) (request : Request) (db : Database) :
  is_success
    (status_code
       (snd (respond (update_fire_incidents engine_accepts id request db))))
  = false ->
  rows (fst (respond (update_fire_incidents engine_accepts id request db)))
  = rows db.
Proof.
  destruct (update_fire_incidents_outcome engine_accepts id request db)
    as [[Hdb _] | (old & data & r & message & _ & _ & _ & _ & _ & _ & ->)].
  - intros _.
    destruct (update_fire_incidents engine_accepts id request db)
      as [d [? | ?]]; simpl in *; subst d; reflexivity.
  - intros H. discriminate H.
Qed.

Lemma refused_post_leaves (engine_accepts : FireIncident -> bool)
    (request : Request) (db : Database) :
  match create_fire_incidents_leaves engine_accepts request db with
  | Clean => True
  | Assigned _ _ => False
  | FailedCommit =>
      status_code
        (snd (respond (create_fire_incidents engine_accepts request db)))
      = HTTP_500_INTERNAL_SERVER_ERROR
  end.
Proof.
  unfold create_fire_incidents_leaves, create_fire_incidents.
  destruct (check_content_type "application/json" request); [| exact I].
  destruct (get_json request) as [data |]; [| exact I].
  destruct (deserialize data new_FireIncident) as [r [[] | e]]; [| exact I].
  unfold create.
  destruct (object_id r); try reflexivity.
  - destruct (pk_in_use _ db); [reflexivity |].
    destruct (engine_accepts _); [exact I | reflexivity].
  - destruct (pk_in_use _ db); [reflexivity |].
    destruct (engine_accepts _); [exact I | reflexivity].
Qed.

Lemma refused_put_leaves (engine_accepts : FireIncident -> bool)
    (id : Z) (request : Request) (db : Database) :
  match update_fire_incidents_leaves engine_accepts id request db with
  | Clean => True
  | Assigned loaded fire_incident =>
      loaded = id /\
      exists old data e,
        find id db = Some old /\
        json request = Some data /\
        deserialize data old = (fire_incident, Raise e) /\
        update_fire_incidents engine_accepts id request db = (db, Raise e)
  | FailedCommit =>
      status_code
        (snd (respond (update_fire_incidents engine_accepts id request db)))
      = HTTP_500_INTERNAL_SERVER_ERROR
  end.
Proof.
  unfold update_fire_incidents_leaves, update_fire_incidents, get_json.
  destruct (check_content_type "application/json" request); [| exact I].
  destruct (find id db) as [old |] eqn:Hfind; [| exact I].
  destruct (json request) as [data |] eqn:Hjson; [| exact I].
  destruct (deserialize data old) as [r [[] | e]] eqn:Hd.
  - unfold update. cbn [object_id set_object_id].
    rewrite Z.eqb_refl. cbn [negb andb].
    destruct (engine_accepts _); [exact I | reflexivity].
  - destruct (getitem data "object_id"); [| exact I].
    split; [reflexivity |]. exists old, data, e. auto.
Qed.

(** Whatever the request, when the answer is not 200, 201 or 204 the
    committed rows are exactly what they were.  What the refused request
    leaves in the session is nothing, or a transaction that failed in the
    commit of [create] or [update], answered 500, or, after a PUT only,
    the row that [find] loaded with what [deserialize] assigned to it
    before it raised. *)
Theorem error_responses_leave_rows (engine_accepts : FireIncident -> bool)
    (method : Method) (url : string) (request : Request) (db : Database) :
  is_success
    (status_code (snd (dispatch engine_accepts method url request db)))
  = false ->
  rows (fst (dispatch engine_accepts method url request db)) = rows db /\
  match leaves engine_accepts method url request db with
  | Clean => True
  | Assigned loaded fire_incident =>
      method = PUT /\
      exists old data e,
        find loaded db = Some old /\
        json request = Some data /\
        deserialize data old = (fire_incident, Raise e) /\
        fire_incident = fst (deserialize data old)
  | FailedCommit =>
      status_code (snd (dispatch engine_accepts method url request db))
      = HTTP_500_INTERNAL_SERVER_ERROR
  end.
Proof.
  intros Hfail. split.
  - revert Hfail.
    apply (dispatch_cases engine_accepts method url request db
             (fun o => is_success (status_code (snd o)) = false ->
                       rows (fst o) = rows db)).
    + reflexivity.
    + apply failed_post_leaves_rows.
    + intros id. apply failed_put_leaves_rows.
    + intros id H. discriminate H.
  - clear Hfail. unfold leaves, dispatch.
    destruct (String.eqb (path_of_url url) "/fires") eqn:Epath.
    + apply String.eqb_eq in Epath. rewrite Epath.
      change (String.eqb "/fires" "/healthcheck") with false.
      change (String.eqb "/fires" "/") with false.
      change (String.eqb "/fires" "/fires") with true. cbv iota.
      destruct method; try exact I.
      pose proof (refused_post_leaves engine_accepts request db) as H.
      destruct (create_fire_incidents_leaves engine_accepts request db);
        [exact I | destruct H | exact H].
    + destruct (strip_prefix "/fires/" (path_of_url url)) as [segment |] eqn:Es;
        [| exact I].
      destruct (int_converter segment) as [id |]; [| exact I].
      destruct method; try exact I.
      pose proof (refused_put_leaves engine_accepts id request db) as H.
      destruct (update_fire_incidents_leaves engine_accepts id request db)
        as [| loaded fire_incident |]; [exact I | |].
      * destruct H as (-> & old & data & e & Hfind & Hjson & Hd & _).
        split; [reflexivity |]. exists old, data, e.
        rewrite Hd. auto.
      * assert (Hh : String.eqb (path_of_url url) "/healthcheck" = false).
        { destruct (String.eqb (path_of_url url) "/healthcheck") eqn:E;
            [| reflexivity].
          apply String.eqb_eq in E. rewrite E in Es. discriminate Es. }
        assert (Hr : String.eqb (path_of_url url) "/" = false).
        { destruct (String.eqb (path_of_url url) "/") eqn:E; [| reflexivity].
          apply String.eqb_eq in E. rewrite E in Es. discriminate Es. }
        rewrite Hh, Hr. exact H.
Qed.

Lemma error_responses_leave_rows_witness :
  rows (fst (dispatch Scenario.accepts_all PUT "/fires/1"
               (Scenario.json_request
                  (VDict Scenario.mapping_that_stops_after_x))
               Scenario.one_row_db))
  = rows Scenario.one_row_db /\
  leaves Scenario.accepts_all PUT "/fires/1"
    (Scenario.json_request (VDict Scenario.mapping_that_stops_after_x))
    Scenario.one_row_db
  = Assigned 1 Scenario.half_assigned_record.
Proof.
  split.
  - apply (error_responses_leave_rows Scenario.accepts_all PUT "/fires/1"
             (Scenario.json_request
                (VDict Scenario.mapping_that_stops_after_x))
             Scenario.one_row_db).
    vm_compute. reflexivity.
  - vm_compute. reflexivity.
Defined.

(** *** The primary key *)

Lemma existsb_is_key (id : Z) (l : list FireIncident) :
  existsb (is_key id) (map object_id l) = existsb (has_pk id) l.
Proof.
  induction l as [| a l IH]; simpl; [reflexivity |].
  rewrite IH. reflexivity.
Qed.

Lemma distinct_keys_snoc (id : Z) (keys : list value) :
  distinct_keys keys = true ->
  existsb (is_key id) keys = false ->
  distinct_keys (keys ++ [VInt id]) = true.
Proof.
  induction keys as [| k keys IH]; simpl; [reflexivity |].
  destruct k as [| | n | | | | |]; try discriminate.
  intros Hd Hfree.
  apply andb_prop in Hd as [Hn Hd].
  apply orb_false_elim in Hfree as [Hne Hfree].
  rewrite (IH Hd Hfree), andb_true_r.
  rewrite existsb_app. apply negb_true_iff in Hn. rewrite Hn.
  simpl in *. rewrite Z.eqb_sym, Hne. reflexivity.
Qed.

Lemma existsb_filter_false {A : Type} (p f : A -> bool) (l : list A) :
  existsb p l = false -> existsb p (List.filter f l) = false.
Proof.
  induction l as [| a l IH]; simpl; [reflexivity |].
  intros H. apply orb_false_elim in H as [Ha Hl].
  destruct (f a); simpl; [rewrite Ha |]; auto.
Qed.

Lemma distinct_keys_filter (f : FireIncident -> bool)
    (l : list FireIncident) :
  distinct_keys (map object_id l) = true ->
  distinct_keys (map object_id (List.filter f l)) = true.
Proof.
  induction l as [| a l IH]; simpl; [reflexivity |].
  destruct (object_id a) as [| | n | | | | |] eqn:Ea; try discriminate.
  intros H. apply andb_prop in H as [Hn Hd].
  destruct (f a); simpl; [| auto].
  rewrite Ea, (IH Hd), andb_true_r.
  apply negb_true_iff in Hn. apply negb_true_iff.
  rewrite existsb_is_key in *. apply existsb_filter_false. exact Hn.
Qed.

Lemma filter_absent (id : Z) (l : list FireIncident) :
  existsb (has_pk id) l = false -> List.filter (has_pk id) l = [].
Proof.
  induction l as [| a l IH]; simpl; [reflexivity |].
  intros H. apply orb_false_elim in H as [Ha Hl].
  rewrite Ha. exact (IH Hl).
Qed.

(** Under a primary key, one row at most has a given key. *)
Lemma filter_single (id : Z) (l : list FireIncident) (r : FireIncident) :
  distinct_keys (map object_id l) = true ->
  List.find (has_pk id) l = Some r ->
  List.filter (has_pk id) l = [r].
Proof.
  induction l as [| a l IH]; simpl; [discriminate |].
  destruct (object_id a) as [| | n | | | | |] eqn:Ea; try discriminate.
  intros Hd. apply andb_prop in Hd as [Hn Hd].
  destruct (has_pk id a) eqn:Epk.
  - intros H. injection H as <-. f_equal.
    apply filter_absent.
    apply negb_true_iff in Hn. rewrite existsb_is_key in Hn.
    pose proof (RoutesFacts.has_pk_object_id id a Epk) as Hid.
    rewrite Ea in Hid. injection Hid as ->. exact Hn.
  - exact (IH Hd).
Qed.

Lemma distinct_keys_written (id : Z) (self r : FireIncident)
    (l : list FireIncident) :
  object_id self = VInt id ->
  distinct_keys (map object_id l) = true ->
  List.find (has_pk id) l = Some r ->
  distinct_keys (map object_id (written_over id self l)) = true.
Proof.
  intros Hself Hd Hfind. unfold written_over.
  rewrite (filter_single id l r Hd Hfind). cbn [map].
  rewrite map_app. cbn [map]. rewrite Hself.
  apply distinct_keys_snoc; [apply distinct_keys_filter; exact Hd |].
  rewrite existsb_is_key, RoutesFacts.existsb_found.
  rewrite RoutesFacts.find_after_delete. reflexivity.
Qed.

Lemma delete_fire_incidents_rows (id : Z) (db : Database) :
  rows (fst (delete_fire_incidents id db)) =
    List.filter (fun r => negb (has_pk id r)) (rows db) /\
  next_id (fst (delete_fire_incidents id db)) = next_id db.
Proof.
  unfold delete_fire_incidents. cbn [fst].
  destruct (find id db) as [r |] eqn:E.
  - rewrite (RoutesFacts.delete_found id db r E). split; reflexivity.
  - split; [| reflexivity]. unfold find in E.
    induction (rows db) as [| a l IH]; simpl in *; [reflexivity |].
    destruct (has_pk id a); [discriminate E |].
    simpl. f_equal. exact (IH E).
Qed.

(** [object_id] stays a primary key: if every row has an integer key and
    no two rows share one, the same holds after any request, whether it
    creates, updates or deletes, succeeds or fails. *)
Theorem primary_keys_stay_distinct (engine_accepts : FireIncident -> bool)
    (method : Method) (url : string) (request : Request) (db : Database) :
  primary_keys_ok db = true ->
  primary_keys_ok (fst (dispatch engine_accepts method url request db))
  = true.
Proof.
  intros Hok.
  apply (dispatch_cases engine_accepts method url request db
           (fun o => primary_keys_ok (fst o) = true)).
  - intros response. exact Hok.
  - destruct (create_fire_incidents_outcome engine_accepts request db)
      as [[Hrows _]
         | (data & r & id & db' & message & _ & _ & _ & Hc & _ & ->)].
    + destruct (create_fire_incidents engine_accepts request db)
        as [d [? | ?]]; unfold primary_keys_ok in *; simpl in *;
        rewrite Hrows; exact Hok.
    + apply create_returns in Hc as (id' & _ & Hfree & _ & Hrow & Hrows).
      unfold primary_keys_ok in *. cbn [respond fst]. rewrite Hrows.
      rewrite map_app. cbn [map]. rewrite Hrow. cbn [object_id set_object_id].
      apply distinct_keys_snoc; [exact Hok |].
      rewrite existsb_is_key. exact Hfree.
  - intros id.
    destruct (update_fire_incidents_outcome engine_accepts id request db)
      as [[Hdb _]
         | (old & data & r & message & _ & Hfind & _ & _ & _ & _ & ->)].
    + destruct (update_fire_incidents engine_accepts id request db)
        as [d [? | ?]]; simpl in *; subst d; exact Hok.
    + unfold primary_keys_ok in *. cbn [respond fst rows].
      exact (distinct_keys_written id (set_object_id (VInt id) r) old
               (rows db) eq_refl Hok Hfind).
  - intros id. unfold primary_keys_ok in *.
    replace (fst (respond (delete_fire_incidents id db)))
      with (fst (delete_fire_incidents id db)) by reflexivity.
    rewrite (proj1 (delete_fire_incidents_rows id db)).
    apply distinct_keys_filter. exact Hok.
Qed.

Lemma primary_keys_stay_distinct_witness :
  primary_keys_ok Scenario.two_row_db = true /\
  primary_keys_ok
    (fst (dispatch Scenario.accepts_all POST "/fires"
            (Scenario.json_request
               (VDict (Scenario.example_with_object_id (VInt 2))))
            Scenario.two_row_db)) = true.
Proof.
  split; [reflexivity |].
  apply (primary_keys_stay_distinct Scenario.accepts_all POST "/fires"
           (Scenario.json_request
              (VDict (Scenario.example_with_object_id (VInt 2))))
           Scenario.two_row_db).
  reflexivity.
Defined.

(** *** Rows that can always be listed *)

Lemma forallb_filter_true {A : Type} (p f : A -> bool) (l : list A) :
  forallb p l = true -> forallb p (List.filter f l) = true.
Proof.
  induction l as [| a l IH]; simpl; [reflexivity |].
  intros H. apply andb_prop in H as [Ha Hl].
  destruct (f a); simpl; [rewrite Ha |]; auto.
Qed.

Lemma forallb_written (p : FireIncident -> bool) (id : Z)
    (self : FireIncident) (l : list FireIncident) :
  p self = true ->
  forallb p l = true ->
  forallb p (written_over id self l) = true.
Proof.
  intros Hself Hl. unfold written_over.
  rewrite forallb_app, (forallb_filter_true p _ l Hl). cbn [andb].
  induction (List.filter (has_pk id) l) as [| a l' IH]; simpl;
    [reflexivity |].
  rewrite Hself, IH. reflexivity.
Qed.

(** Through the handlers only rows that can be serialized reach the
    table: if every row holds datetimes in both timestamp columns, so does
    every row after any request.  A row stored by POST or PUT comes from
    [deserialize], which has parsed both timestamps. *)
Theorem rows_stay_populated (engine_accepts : FireIncident -> bool)
    (method : Method) (url : string) (request : Request) (db : Database) :
  rows_populated db = true ->
  rows_populated (fst (dispatch engine_accepts method url request db))
  = true.
Proof.
  intros Hok.
  apply (dispatch_cases engine_accepts method url request db
           (fun o => rows_populated (fst o) = true)).
  - intros response. exact Hok.
  - destruct (create_fire_incidents_outcome engine_accepts request db)
      as [[Hrows _]
         | (data & r & id & db' & message & _ & _ & Hd & Hc & _ & ->)].
    + destruct (create_fire_incidents engine_accepts request db)
        as [d [? | ?]]; unfold rows_populated in *; simpl in *;
        rewrite Hrows; exact Hok.
    + apply create_returns in Hc as (id' & _ & _ & _ & _ & Hrows).
      unfold rows_populated in *. cbn [respond fst]. rewrite Hrows.
      rewrite forallb_app, Hok. cbn [forallb].
      rewrite fully_populated_set_object_id.
      rewrite (deserialize_populated _ _ _ Hd). reflexivity.
  - intros id.
    destruct (update_fire_incidents_outcome engine_accepts id request db)
      as [[Hdb _] | (old & data & r & message & _ & _ & _ & Hd & _ & _ & ->)].
    + destruct (update_fire_incidents engine_accepts id request db)
        as [d [? | ?]]; simpl in *; subst d; exact Hok.
    + unfold rows_populated in *. cbn [respond fst rows].
      apply forallb_written; [| exact Hok].
      rewrite fully_populated_set_object_id.
      exact (deserialize_populated _ _ _ Hd).
  - intros id. unfold rows_populated in *.
    replace (fst (respond (delete_fire_incidents id db)))
      with (fst (delete_fire_incidents id db)) by reflexivity.
    rewrite (proj1 (delete_fire_incidents_rows id db)).
    apply forallb_filter_true. exact Hok.
Qed.

Lemma rows_stay_populated_witness :
  rows_populated Scenario.one_row_db = true /\
  rows_populated
    (fst (dispatch Scenario.accepts_all POST "/fires"
            (Scenario.json_request
               (VDict (Scenario.example_with_object_id VNone)))
            Scenario.one_row_db)) = true.
Proof.
  split; [reflexivity |].
  apply (rows_stay_populated Scenario.accepts_all POST "/fires"
           (Scenario.json_request
              (VDict (Scenario.example_with_object_id VNone)))
           Scenario.one_row_db).
  reflexivity.
Defined.

Lemma serialize_all_populated (l : list FireIncident) :
  forallb fully_populated l = true ->
  exists results,
    serialize_all l = Ok results /\
    Forall2 (fun r v => serialize r = Ok v) l results.
Proof.
  induction l as [| a l IH]; simpl.
  - intros _. exists []. split; [reflexivity | constructor].
  - intros H. apply andb_prop in H as [Ha Hl].
    destruct (serialize_fully_populated a Ha) as [m Hm].
    destruct (IH Hl) as (results & Hr & Hall).
    exists (VDict m :: results). rewrite Hm, Hr.
    split; [reflexivity | constructor; assumption].
Qed.

Lemma selected_populated (request : Request) (db : Database) :
  rows_populated db = true ->
  forallb fully_populated (selected_fire_incidents request db) = true.
Proof.
  unfold rows_populated, selected_fire_incidents, find_by_poo_county, all.
  intros H.
  destruct (args_get "poo_county" (args request)) as [V |]; [| exact H].
  destruct (str_truthy V); [| exact H].
  apply forallb_filter_true. exact H.
Qed.

(** On a table whose rows all can be serialized, [GET /fires] answers 200
    with or without a filter, and the body lists the serialization of each
    selected record, one entry per record in the order of the table. *)
Theorem list_answers_one_entry_per_record (request : Request)
    (db : Database) :
  rows_populated db = true ->
  exists results,
    list_fire_incidents request db =
      (db, Ok (jsonify (VList results) HTTP_200_OK)) /\
    Forall2 (fun r v => serialize r = Ok v)
      (selected_fire_incidents request db) results /\
    length results = length (selected_fire_incidents request db).
Proof.
  intros Hok.
  destruct (serialize_all_populated _ (selected_populated request db Hok))
    as (results & Hser & Hall).
  exists results. unfold list_fire_incidents. rewrite Hser.
  split; [reflexivity |]. split; [exact Hall |].
  symmetry. exact (Forall2_length _ _ _ Hall).
Qed.

Lemma list_answers_one_entry_per_record_witness :
  rows_populated Scenario.two_row_db = true /\
  exists results,
    list_fire_incidents Scenario.plain_request Scenario.two_row_db =
      (Scenario.two_row_db, Ok (jsonify (VList results) HTTP_200_OK)) /\
    length results = 2%nat.
Proof.
  split; [reflexivity |].
  destruct (list_answers_one_entry_per_record Scenario.plain_request
              Scenario.two_row_db eq_refl) as (results & H & _ & Hlen).
  exists results. split; [exact H | exact Hlen].
Defined.

Lemma serialize_all_raises (l : list FireIncident) (r : FireIncident) :
  In r l ->
  holds_datetime (containment_datetime r) &&
  holds_datetime (fire_discovery_datetime r) = false ->
  exists msg, serialize_all l = Raise (AttributeError msg).
Proof.
  intros Hin Hbad. induction l as [| a l IH]; [destruct Hin |].
  simpl.
  destruct (serialize a) as [v | e] eqn:Ea.
  - destruct Hin as [-> | Hin].
    + exfalso.
      pose proof (MoreModelsFacts.serialize_returns_holds r v Ea) as H.
      congruence.
    + destruct (IH Hin) as [msg ->]. exists msg. reflexivity.
  - destruct (MoreModelsFacts.serialize_raises_attribute_error a e Ea)
      as [msg ->].
    exists msg. reflexivity.
Qed.

(** When one of the selected rows holds something else than a datetime in
    a timestamp column, as a row does that was created from a fresh
    [FireIncident()], the listing raises [AttributeError] and the request
    is answered 500, even if every other row is fine. *)
Theorem list_fails_on_a_row_without_timestamps (request : Request)
    (db : Database) (r : FireIncident) :
  In r (selected_fire_incidents request db) ->
  holds_datetime (containment_datetime r) &&
  holds_datetime (fire_discovery_datetime r) = false ->
  (exists msg,
     list_fire_incidents request db = (db, Raise (AttributeError msg))) /\
  status_code (snd (respond (list_fire_incidents request db))) =
    HTTP_500_INTERNAL_SERVER_ERROR.
Proof.
  intros Hin Hbad.
  destruct (serialize_all_raises _ r Hin Hbad) as [msg Hser].
  unfold list_fire_incidents. rewrite Hser.
  split; [exists msg |]; reflexivity.
Qed.

Lemma list_fails_on_a_row_without_timestamps_witness :
  status_code
    (snd (respond
       (list_fire_incidents Scenario.plain_request Scenario.blank_row_db))) =
    HTTP_500_INTERNAL_SERVER_ERROR.
Proof.
  apply (list_fails_on_a_row_without_timestamps Scenario.plain_request
           Scenario.blank_row_db (set_object_id (VInt 1) new_FireIncident)).
  - left. reflexivity.
  - reflexivity.
Defined.

(** *** What a delete removes *)

(** [DELETE /fires/{object_id}] removes the rows under that key and
    nothing else: the rows that remain are the others, in their order,
    every other key is found as before, and the sequence is untouched. *)
Theorem delete_removes_only_that_key (object_id : Z) (db : Database) :
  rows (fst (delete_fire_incidents object_id db)) =
    List.filter (fun r => negb (has_pk object_id r)) (rows db) /\
  next_id (fst (delete_fire_incidents object_id db)) = next_id db /\
  (forall other, other <> object_id ->
     find other (fst (delete_fire_incidents object_id db)) = find other db).
Proof.
  destruct (delete_fire_incidents_rows object_id db) as [Hrows Hseq].
  split; [exact Hrows |]. split; [exact Hseq |].
  intros other Hne. unfold find. rewrite Hrows.
  apply RoutesFacts.find_other_key_after_filter. congruence.
Qed.

Lemma filter_without_key (id : Z) (l : list FireIncident) :
  existsb (has_pk id) l = false ->
  List.filter (fun r => negb (has_pk id r)) l = l.
Proof.
  induction l as [| a l IH]; simpl; [reflexivity |].
  intros H. apply orb_false_elim in H as [Ha Hl].
  rewrite Ha. simpl. f_equal. exact (IH Hl).
Qed.

Lemma filter_one_key (id : Z) (l : list FireIncident) (r : FireIncident) :
  distinct_keys (map Models.object_id l) = true ->
  List.find (has_pk id) l = Some r ->
  S (length (List.filter (fun r => negb (has_pk id r)) l)) = length l.
Proof.
  induction l as [| a l IH]; simpl; [discriminate |].
  destruct (Models.object_id a) as [| | n | | | | |] eqn:Ea;
    try discriminate.
  intros Hd. apply andb_prop in Hd as [Hn Hd].
  destruct (has_pk id a) eqn:Epk; simpl.
  - intros _. f_equal.
    rewrite filter_without_key; [reflexivity |].
    apply negb_true_iff in Hn. rewrite existsb_is_key in Hn.
    pose proof (RoutesFacts.has_pk_object_id id a Epk) as Hid.
    rewrite Ea in Hid. injection Hid as ->. exact Hn.
  - intros Hf. f_equal. exact (IH Hd Hf).
Qed.

(** With [object_id] a primary key of the table, deleting a key that
    exists removes exactly one row, and deleting a key that does not exist
    leaves the table as it is. *)
Theorem delete_removes_exactly_one_row (object_id : Z) (db : Database) :
  primary_keys_ok db = true ->
  (forall r, find object_id db = Some r ->
     S (length (rows (fst (delete_fire_incidents object_id db))))
     = length (rows db)) /\
  (find object_id db = None ->
   fst (delete_fire_incidents object_id db) = db).
Proof.
  intros Hok. split.
  - intros r Hfind.
    rewrite (proj1 (delete_fire_incidents_rows object_id db)).
    exact (filter_one_key object_id (rows db) r Hok Hfind).
  - intros Hnone. unfold delete_fire_incidents. rewrite Hnone. reflexivity.
Qed.

Lemma delete_removes_exactly_one_row_witness :
  primary_keys_ok Scenario.two_row_db = true /\
  S (length (rows (fst (delete_fire_incidents 2 Scenario.two_row_db))))
  = length (rows Scenario.two_row_db).
Proof.
  split; [reflexivity |].
  apply (proj1 (delete_removes_exactly_one_row 2 Scenario.two_row_db
                  eq_refl) (Scenario.other_record (VInt 2))).
  reflexivity.
Defined.

(** *** What an update touches *)

(** [PUT /fires/{object_id}] touches no other row: whatever the request
    and its outcome, every other key is found with the same record as
    before, the table has as many rows as before, and the sequence is
    untouched. *)
Theorem update_touches_no_other_row (engine_accepts : FireIncident -> bool)
    (object_id : Z) (request : Request) (db : Database) :
  (forall other, other <> object_id ->
     find other (fst (update_fire_incidents engine_accepts object_id
                        request db))
     = find other db) /\
  length (rows (fst (update_fire_incidents engine_accepts object_id
                       request db)))
  = length (rows db) /\
  next_id (fst (update_fire_incidents engine_accepts object_id request db))
  = next_id db.
Proof.
  destruct (update_fire_incidents_outcome engine_accepts object_id request db)
    as [[Hdb _] | (old & data & r & message & _ & _ & _ & _ & _ & _ & ->)].
  - rewrite Hdb. auto.
  - cbn [fst rows next_id].
    split; [| split; [apply RoutesFacts.length_written_over | reflexivity]].
    intros other Hne. unfold find. cbn [rows].
    apply RoutesFacts.find_beside_written; [exact Hne |].
    unfold has_pk. simpl. apply Z.eqb_neq. congruence.
Qed.

(** *** Writing a record and reading it back *)

Lemma create_accepts (engine_accepts : FireIncident -> bool)
    (self : FireIncident) (id : Z) (db : Database) :
  Scenario.assigned_object_id (Models.object_id self) db = Some id ->
  pk_in_use id db = false ->
  engine_accepts (set_object_id (VInt id) self) = true ->
  exists seq,
    create engine_accepts self db =
      (mk_Database (rows db ++ [set_object_id (VInt id) self]) seq,
       Ok (set_object_id (VInt id) self)).
Proof.
  intros Hid Hfree Hacc. unfold create.
  destruct (Models.object_id self) as [| | n | | | | |] eqn:E;
    try discriminate Hid; simpl in Hid; injection Hid as <-.
  - rewrite Hfree, Hacc. eexists. reflexivity.
  - rewrite (set_object_id_same n self E) in *.
    rewrite Hfree, Hacc. eexists. reflexivity.
Qed.

Lemma get_stored_row (id : Z) (db : Database) (row : FireIncident)
    (message : value) :
  find id db = Some row ->
  serialize row = Ok message ->
  get_fire_incidents id db = (db, Ok (jsonify message HTTP_200_OK)).
Proof.
  intros Hfind Hser. unfold get_fire_incidents. rewrite Hfind, Hser.
  reflexivity.
Qed.

Lemma serialize_object_id (r : FireIncident) (message : value) :
  serialize r = Ok message ->
  getitem message "object_id" = Ok (object_id r).
Proof.
  intros H.
  destruct r as [v1 v2 v3 v4 v5 v6 v7 v8 v9 v10 v11 v12 v13 v14 v15 v16].
  pose proof (MoreModelsFacts.serialize_returns_holds _ _ H) as Hh.
  cbn [containment_datetime fire_discovery_datetime] in Hh.
  apply andb_prop in Hh as [H5 H6].
  destruct v5 as [| | | | | | | d5]; try discriminate H5.
  destruct v6 as [| | | | | | | d6]; try discriminate H6.
  destruct (MoreModelsFacts.serialize_lookups v1 v2 v3 v4 v7 v8 v9 v10 v11
              v12 v13 v14 v15 v16 d5 d6) as (m & S & L).
  rewrite S in H. injection H as <-.
  apply (f_equal (hd None)) in L. cbn [hd] in L.
  unfold getitem. rewrite L. reflexivity.
Qed.

(** A POST with the JSON content type whose body [deserialize] accepts,
    under a key that is free and not negative (the next value of the
    sequence when the body gives [null] as [object_id], the integer it
    gives otherwise) and with values the engine takes, answers 201.  One
    row is appended to the table, the body of the response is the
    serialization of that row and carries the key as [object_id], the
    [Location] header is the URL of that key, and a GET on it answers 200
    with the same body. *)
Theorem create_then_get_returns_the_body
    (engine_accepts : FireIncident -> bool) (request : Request)
    (db : Database) (data : value) (r : FireIncident) (id : Z) :
  content_type request = Some "application/json" ->
  json request = Some data ->
  deserialize data new_FireIncident = (r, Ok tt) ->
  Scenario.assigned_object_id (Models.object_id r) db = Some id ->
  0 <= id ->
  pk_in_use id db = false ->
  engine_accepts (set_object_id (VInt id) r) = true ->
  exists message db' row,
    dispatch engine_accepts POST "/fires" request db =
      (db', mk_Response HTTP_201_CREATED (Json message)
              (Some (url_root +:+ "/fires/" +:+ str_of_int id))) /\
    rows db' = (rows db ++ [row])%list /\
    serialize row = Ok message /\
    getitem message "object_id" = Ok (VInt id) /\
    forall request',
      dispatch engine_accepts GET
        (url_root +:+ "/fires/" +:+ str_of_int id) request' db'
      = (db', mk_Response HTTP_200_OK (Json message) None).
Proof.
  intros Hct Hjson Hd Hassigned Hid Hfree Hacc.
  destruct (create_accepts engine_accepts r id db Hassigned Hfree Hacc)
    as [seq Hcreate].
  pose proof (deserialize_populated _ _ _ Hd) as Hpop.
  destruct (serialize_fully_populated (set_object_id (VInt id) r) Hpop)
    as [m Hser].
  exists (VDict m),
    (mk_Database (rows db ++ [set_object_id (VInt id) r]) seq),
    (set_object_id (VInt id) r).
  split; [| split; [reflexivity | split; [exact Hser | split]]].
  - change (dispatch engine_accepts POST "/fires" request db)
      with (respond (create_fire_incidents engine_accepts request db)).
    unfold create_fire_incidents, check_content_type, get_json.
    rewrite Hct, Hjson. cbn [String.eqb Ascii.eqb Bool.eqb]. cbv beta iota.
    rewrite Hd, Hcreate, Hser. reflexivity.
  - exact (serialize_object_id _ _ Hser).
  - intros request'.
    rewrite RoutesFacts.dispatch_get_location by exact Hid.
    rewrite (get_stored_row id _ (set_object_id (VInt id) r) (VDict m));
      [reflexivity | | exact Hser].
    unfold find. cbn [rows].
    apply RoutesFacts.find_new_row; [exact Hfree |].
    unfold has_pk. simpl. apply Z.eqb_refl.
Qed.

Lemma create_then_get_returns_the_body_witness :
  exists message db',
    dispatch Scenario.accepts_all POST "/fires"
      (Scenario.json_request
         (VDict (Scenario.example_with_object_id (VInt 7))))
      Scenario.one_row_db =
      (db', mk_Response HTTP_201_CREATED (Json message)
              (Some (url_root +:+ "/fires/" +:+ str_of_int 7))) /\
    getitem message "object_id" = Ok (VInt 7) /\
    dispatch Scenario.accepts_all GET
      (url_root +:+ "/fires/" +:+ str_of_int 7) Scenario.plain_request db'
    = (db', mk_Response HTTP_200_OK (Json message) None).
Proof.
  destruct (create_then_get_returns_the_body Scenario.accepts_all
              (Scenario.json_request
                 (VDict (Scenario.example_with_object_id (VInt 7))))
              Scenario.one_row_db
              (VDict (Scenario.example_with_object_id (VInt 7)))
              (Scenario.example_record (VInt 7)) 7
              eq_refl eq_refl ltac:(vm_compute; reflexivity) eq_refl
              ltac:(lia) eq_refl eq_refl)
    as (message & db' & row & H1 & _ & _ & H4 & H5).
  exists message, db'. split; [exact H1 |]. split; [exact H4 |].
  apply H5.
Defined.

(** A PUT with the JSON content type on a key that exists, whose body
    [deserialize] accepts and whose values the engine takes, answers 200.
    The table then has a row under the key of the path, the body of the
    response is the serialization of that row and carries the key of the
    path as [object_id], whatever [object_id] the request gave, and a GET
    for the key answers 200 with the same body. *)
Theorem update_then_get_returns_the_body
    (engine_accepts : FireIncident -> bool) (object_id : Z)
    (request : Request) (db : Database) (old : FireIncident)
    (data : value) (r : FireIncident) :
  content_type request = Some "application/json" ->
  find object_id db = Some old ->
  json request = Some data ->
  deserialize data old = (r, Ok tt) ->
  engine_accepts (set_object_id (VInt object_id) r) = true ->
  exists message db' row,
    update_fire_incidents engine_accepts object_id request db =
      (db', Ok (jsonify message HTTP_200_OK)) /\
    find object_id db' = Some row /\
    serialize row = Ok message /\
    getitem message "object_id" = Ok (VInt object_id) /\
    get_fire_incidents object_id db' =
      (db', Ok (jsonify message HTTP_200_OK)).
Proof.
  intros Hct Hfind Hjson Hd Hacc.
  destruct (update_fire_incidents_outcome engine_accepts object_id request db)
    as [[_ [e He]]
       | (old' & data' & r' & message & _ & Hfind' & Hjson' & Hd' & _ &
          Hser & Hout)].
  - exfalso. revert He.
    unfold update_fire_incidents, check_content_type, get_json, update.
    rewrite Hct, Hfind, Hjson. cbn [String.eqb Ascii.eqb Bool.eqb].
    cbv beta iota. rewrite Hd. cbn [Models.object_id set_object_id].
    rewrite Z.eqb_refl. cbn [negb andb].
    change (mk_FireIncident (VInt object_id) (x r) (y r) (incident_size r)
              (containment_datetime r) (fire_discovery_datetime r)
              (incident_name r) (incident_type_category r)
              (initial_latitude r) (initial_longitude r) (poo_city r)
              (poo_county r) (poo_state r) (fire_cause_id r)
              (poo_landowner_category r) (unique_fire_identifier r))
      with (set_object_id (VInt object_id) r).
    rewrite Hacc.
    pose proof (deserialize_populated _ _ _ Hd) as Hpop.
    destruct (serialize_fully_populated (set_object_id (VInt object_id) r)
                Hpop) as [m ->].
    discriminate.
  - assert (old' = old) by congruence. subst old'.
    assert (data' = data) by congruence. subst data'.
    assert (r' = r) by congruence. subst r'.
    assert (Hnew : find object_id
              (mk_Database
                 (written_over object_id (set_object_id (VInt object_id) r)
                    (rows db))
                 (next_id db))
            = Some (set_object_id (VInt object_id) r)).
    { unfold find. cbn [rows].
      apply (RoutesFacts.find_written object_id object_id _ old (rows db));
        [| exact Hfind | left; reflexivity].
      unfold has_pk. simpl. apply Z.eqb_refl. }
    eexists message, _, _. split; [exact Hout |]. split; [exact Hnew |].
    split; [exact Hser |].
    split; [exact (serialize_object_id _ _ Hser) |].
    exact (get_stored_row object_id _ _ message Hnew Hser).
Qed.

Lemma update_then_get_returns_the_body_witness :
  exists message db',
    update_fire_incidents Scenario.accepts_all 1
      (Scenario.json_request
         (VDict (Scenario.example_with_object_id (VInt 999))))
      Scenario.one_row_db = (db', Ok (jsonify message HTTP_200_OK)) /\
    getitem message "object_id" = Ok (VInt 1) /\
    get_fire_incidents 1 db' = (db', Ok (jsonify message HTTP_200_OK)).
Proof.
  destruct (update_then_get_returns_the_body Scenario.accepts_all 1
              (Scenario.json_request
                 (VDict (Scenario.example_with_object_id (VInt 999))))
              Scenario.one_row_db (Scenario.example_record (VInt 1))
              (VDict (Scenario.example_with_object_id (VInt 999)))
              (Scenario.example_record (VInt 999))
              eq_refl eq_refl eq_refl ltac:(vm_compute; reflexivity) eq_refl)
    as (message & db' & row & H1 & _ & _ & H4 & H5).
  exists message, db'. split; [exact H1 |]. split; [exact H4 | exact H5].
Defined.

(** Deleting the record that a POST has just created, under the key of
    its [Location] header, gives back the rows the table had before the
    POST. *)
Theorem create_then_delete_restores_the_rows
    (engine_accepts : FireIncident -> bool) (request : Request)
    (db db' : Database) (response : Response) :
  create_fire_incidents engine_accepts request db = (db', Ok response) ->
  exists id,
    location response = Some (url_root +:+ "/fires/" +:+ str_of_int id) /\
    rows (fst (delete_fire_incidents id db')) = rows db.
Proof.
  intros H.
  destruct (create_fire_incidents_outcome engine_accepts request db)
    as [[_ [e He]]
       | (data & r & id & db'' & message & _ & _ & _ & Hc & _ & Hout)].
  - rewrite H in He. discriminate He.
  - rewrite H in Hout. injection Hout as -> ->.
    exists id. split; [reflexivity |].
    apply create_returns in Hc as (id' & _ & Hfree & _ & Hrow & Hrows).
    assert (id' = id).
    { apply (f_equal Models.object_id) in Hrow. simpl in Hrow.
      congruence. }
    subst id'.
    rewrite (proj1 (delete_fire_incidents_rows id db'')), Hrows.
    rewrite List.filter_app. cbn [List.filter].
    unfold has_pk at 2. cbn [Models.object_id set_object_id].
    rewrite Z.eqb_refl. cbn [negb].
    rewrite app_nil_r. apply filter_without_key. exact Hfree.
Qed.

Lemma create_then_delete_restores_the_rows_witness :
  exists id,
    rows
      (fst (delete_fire_incidents id
              (fst (create_fire_incidents Scenario.accepts_all
                      (Scenario.json_request
                         (VDict (Scenario.example_with_object_id VNone)))
                      Scenario.one_row_db))))
    = rows Scenario.one_row_db.
Proof.
  assert (E : exists db' response,
            create_fire_incidents Scenario.accepts_all
              (Scenario.json_request
                 (VDict (Scenario.example_with_object_id VNone)))
              Scenario.one_row_db = (db', Ok response))
    by (eexists; eexists; vm_compute; reflexivity).
  destruct E as (db' & response & E).
  destruct (create_then_delete_restores_the_rows Scenario.accepts_all
              (Scenario.json_request
                 (VDict (Scenario.example_with_object_id VNone)))
              Scenario.one_row_db db' response E) as (id & _ & H).
  exists id. rewrite E. exact H.
Defined.

End MoreRoutesFacts.
